(** * Google Delete Workforce User action: model and properties

    A shallow embedding of the action's three handlers ([invoke], [error],
    [halt]) together with credential acquisition ([getAccessToken]) and the
    delete call ([deleteWorkforceUser]).

    Several variants of the action live in the repository:
    - [Script]: src/script.mjs, which signs a service-account assertion,
      exchanges it for an access token and classifies failures with
      [RetryableError] / [FatalError];
    - [UtilsVariant]: the variant that obtains its authorization header
      and base URL from the [@sgnl-actions/utils] package;
    - [NoAuthVariant]: the variant that sends the request without any
      credential;
    - [JwtVariant]: the variant that sends the request through a client of
      the [google-auth-library] package.

    The handlers are asynchronous JavaScript functions.  One invocation runs
    its awaits one after the other, so a handler is modelled as a
    computation that reads the history of effects performed so far,
    produces the effects it performs itself (console output and HTTP
    exchanges, in order) and either returns a value or throws.

    Two steps that can fail without being calls of the action's own are
    modelled as steps: the conversion of a value to a string inside a
    template literal, which throws a TypeError for some objects
    ([template]), and the reading of the body of a response, which happens
    after [fetch] has resolved and can fail on its own ([response_text],
    [response_json]). *)

From Stdlib Require Import ZArith Ascii String DecimalString.
From stdpp Require Import base option list strings gmap.

Local Open Scope string_scope.
Local Open Scope list_scope.
Local Open Scope Z_scope.
Local Set Warnings "-register-all".

(** ** JavaScript values *)

(** The values that reach the handlers: JSON data and [undefined].
    [JNum n] is the number that the integer [n] denotes (the double
    nearest to it); [JNonInteger text] is any other number (a fraction,
    an infinity, NaN), given by the text JavaScript prints for it.  The
    code only tests numbers for truthiness and type, compares a status
    code and prints them.  Strings are sequences of code units below
    256. *)
Inductive JSValue : Type :=
  | JUndefined
  | JNull
  | JBool (b : bool)
  | JNum (n : Z)
  | JNonInteger (text : string)
  | JStr (s : string)
  | JArr (items : list JSValue)
  | JObj (fields : list (string * JSValue)).

(** ToBoolean.  Among the numbers, zero and NaN are false. *)
Definition truthy (v : JSValue) : bool :=
  match v with
  | JUndefined | JNull => false
  | JBool b => b
  | JNum n => negb (n =? 0)
  | JNonInteger text => negb (String.eqb text "NaN")
  | JStr s => negb (String.eqb s "")
  | JArr _ | JObj _ => true
  end.

(** The [typeof] operator. *)
Definition typeof (v : JSValue) : string :=
  match v with
  | JUndefined => "undefined"
  | JNull => "object"
  | JBool _ => "boolean"
  | JNum _ | JNonInteger _ => "number"
  | JStr _ => "string"
  | JArr _ | JObj _ => "object"
  end.

(** [a || b]. *)
Definition js_or (a b : JSValue) : JSValue := if truthy a then a else b.

(** Own property lookup in an object literal, first binding wins. *)
Fixpoint assoc (k : string) (fields : list (string * JSValue)) : JSValue :=
  match fields with
  | [] => JUndefined
  | (k', v) :: rest => if String.eqb k k' then v else assoc k rest
  end.

Definition has_field (k : string) (fields : list (string * JSValue)) : bool :=
  existsb (fun kv => String.eqb k (fst kv)) fields.

(** ** Number::toString *)

Definition decimal (n : Z) : string := NilZero.string_of_int (Z.to_int n).

Definition decimal_length (n : Z) : Z := Z.of_nat (String.length (decimal n)).

(** The double nearest to a natural number, ties going to the even
    significand; a natural number below 2^53 is a double. *)
Definition nearest_double (n : Z) : Z :=
  if n <? 2 ^ 53 then n
  else
    let e := Z.log2 n - 52 in
    let q := Z.shiftr n e in
    let r := n - Z.shiftl q e in
    let half := Z.shiftl 1 (e - 1) in
    let m := if (half <? r) || ((r =? half) && Z.odd q) then q + 1 else q in
    Z.shiftl m e.

(** The number with [k] significant digits that is closest to the double
    [d] and still denotes it, if there is one. *)
Definition with_digits (d k : Z) : option Z :=
  let scale := 10 ^ (decimal_length d - k) in
  let lo := (d / scale) * scale in
  let hi := lo + scale in
  let ok_lo := nearest_double lo =? d in
  let ok_hi := nearest_double hi =? d in
  if ok_lo && ok_hi then
    if d - lo <? hi - d then Some lo
    else if hi - d <? d - lo then Some hi
    else if Z.even (lo / scale) then Some lo else Some hi
  else if ok_lo then Some lo
  else if ok_hi then Some hi
  else None.

(** The number with the fewest significant digits that denotes [d]. *)
Fixpoint shortest (d : Z) (ks : list Z) : Z :=
  match ks with
  | [] => d
  | k :: rest =>
      match with_digits d k with
      | Some v => v
      | None => shortest d rest
      end
  end.

Fixpoint strip_zeros (s : string) : string :=
  match s with
  | EmptyString => EmptyString
  | String c rest =>
      match strip_zeros rest with
      | EmptyString => if Ascii.eqb c "0" then EmptyString else String c EmptyString
      | rest' => String c rest'
      end
  end.

(** [d.ddde+n], used from 10^21 up. *)
Definition exponent_form (v : Z) : string :=
  match strip_zeros (decimal v) with
  | EmptyString => "0"
  | String c EmptyString =>
      String c ("e+" +:+ decimal (decimal_length v - 1))
  | String c rest =>
      String c ("." +:+ rest +:+ "e+" +:+ decimal (decimal_length v - 1))
  end.

Definition natural_to_string (n : Z) : string :=
  if n <? 2 ^ 53 then decimal n
  else
    let d := nearest_double n in
    if 2 ^ 1024 <=? d then "Infinity"
    else
      let v := shortest d [1; 2; 3; 4; 5; 6; 7; 8; 9; 10; 11; 12; 13; 14; 15; 16; 17] in
      if v <? 10 ^ 21 then decimal v else exponent_form v.

(** How JavaScript prints an integer-valued number: all its digits up to
    2^53, the shortest digits that denote the same double (followed by
    zeros) beyond, and the exponent form from 10^21 up. *)
Definition number_to_string (n : Z) : string :=
  if n <? 0 then "-" +:+ natural_to_string (- n) else natural_to_string n.

(** ** ToString *)

(** Whether ToString(v) succeeds.  An object is converted by its
    [toString] method: an object with an own [toString] property, which in
    JSON data is never a function, cannot be converted, and the
    conversion throws a TypeError; any other object inherits the method of
    [Object.prototype].  An array is converted by joining the conversions
    of its elements. *)
Fixpoint stringifiable (v : JSValue) : bool :=
  match v with
  | JArr items => forallb stringifiable items
  | JObj fields => negb (has_field "toString" fields)
  | _ => true
  end.

(** The string ToString(v) yields when it succeeds, as a template literal
    [`${v}`] applies it.  It says nothing of a value that is not
    [stringifiable]: the handlers run [template] (below) on the
    substitutions of every template literal before they use its text. *)
Fixpoint to_string (v : JSValue) : string :=
  match v with
  | JUndefined => "undefined"
  | JNull => "null"
  | JBool true => "true"
  | JBool false => "false"
  | JNum n => number_to_string n
  | JNonInteger text => text
  | JStr s => s
  | JArr items =>
      (fix join (l : list JSValue) : string :=
         match l with
         | [] => ""
         | x :: rest =>
             let sx := match x with
                       | JUndefined | JNull => ""
                       | _ => to_string x
                       end in
             match rest with
             | [] => sx
             | _ :: _ => sx +:+ "," +:+ join rest
             end
         end) items
  | JObj _ => "[object Object]"
  end.

(** ** String.prototype.trim *)

(** WhiteSpace and LineTerminator code units below 256. *)
Definition is_white_space (c : ascii) : bool :=
  let n := Ascii.N_of_ascii c in
  ((9 <=? n) && (n <=? 13) || (n =? 32) || (n =? 160))%N.

Fixpoint trimStart (s : string) : string :=
  match s with
  | EmptyString => EmptyString
  | String c rest => if is_white_space c then trimStart rest else s
  end.

Definition trimEnd (s : string) : string :=
  String.rev (trimStart (String.rev s)).

Definition trim (s : string) : string := trimEnd (trimStart s).

(** A string made of white space only (the empty string included). *)
Fixpoint all_white_space (s : string) : bool :=
  match s with
  | EmptyString => true
  | String c rest => is_white_space c && all_white_space rest
  end.

(** ** Effects *)

Inductive Method : Type := GET | POST | DELETE.

Record Request : Type := mkRequest {
  req_url : string;
  req_method : Method;
  req_headers : list (string * string);
  req_body : list (string * string)   (* URLSearchParams entries *)
}.

(** A response as the Fetch API delivers it: the status, known as soon
    as [fetch] resolves, and the body, which is read afterwards with
    [response.text()] or [response.json()].  [body] is the text the body
    yields when it can be read; whether it can is for the runtime to say
    ([body_failure] below). *)
Record Response : Type := mkResponse {
  status : Z;
  body : string
}.

(** [Response.ok]: the status is in the range 200-299. *)
Definition ok (r : Response) : bool := (200 <=? status r) && (status r <=? 299).

(** What [await fetch(...)] amounts to: the exchange delivers a
    response, or it rejects with an error that is none of the action's own
    classes. *)
Inductive FetchOutcome : Type :=
  | Resolves (r : Response)
  | Rejects (message : string).

Inductive Event : Type :=
  | EvLog (line : string)                         (* console.log *)
  | EvError (line : string)                       (* console.error *)
  | EvFetch (req : Request) (out : FetchOutcome). (* one HTTP exchange *)

(** The thrown values.  [RetryableError] and [FatalError] are the two
    classes of src/script.mjs; [OtherError] is any other [Error]
    (TypeError, SyntaxError, a transport failure, a plain [new Error]),
    with its optional [statusCode] property. *)
Inductive Exn : Type :=
  | RetryableError (message : string)
  | FatalError (message : string)
  | OtherError (message : string) (statusCode : option Z).

Definition exn_message (e : Exn) : string :=
  match e with
  | RetryableError m | FatalError m | OtherError m _ => m
  end.

(** The [retryable] property set by the constructors; other errors have none. *)
Definition retryable (e : Exn) : option bool :=
  match e with
  | RetryableError _ => Some true
  | FatalError _ => Some false
  | OtherError _ _ => None
  end.

Inductive Outcome (A : Type) : Type :=
  | Returns (a : A)
  | Throws (e : Exn).
Arguments Returns {A} a.
Arguments Throws {A} e.

(** A computation: from the history (the events before it started, oldest
    first) to its outcome and the events it performed itself. *)
Definition M (A : Type) : Type := list Event -> Outcome A * list Event.

#[global] Instance M_ret : MRet M := fun A a _ => (Returns a, []).

#[global] Instance M_bind : MBind M := fun A B f m h =>
  match m h with
  | (Returns a, es) =>
      match f a (h ++ es) with
      | (r, es') => (r, es ++ es')
      end
  | (Throws e, es) => (Throws e, es)
  end.

#[global] Instance M_throw : MThrow Exn M := fun A e _ => (Throws e, []).

(** [try { m } catch (e) { handler e }]. *)
Definition try_catch {A} (m : M A) (handler : Exn -> M A) : M A := fun h =>
  match m h with
  | (Returns a, es) => (Returns a, es)
  | (Throws e, es) =>
      match handler e (h ++ es) with
      | (r, es') => (r, es ++ es')
      end
  end.

Definition emit (e : Event) : M unit := fun _ => (Returns tt, [e]).

Definition console_log (line : string) : M unit := emit (EvLog line).
Definition console_error (line : string) : M unit := emit (EvError line).

(** The TypeError of a value that cannot be converted to a string. *)
Definition conversion_message : string :=
  "Cannot convert object to primitive value".

Definition conversion_error : Exn := OtherError conversion_message None.

(** A template literal converts its substitutions to strings, from left
    to right, before anything is done with the text: [template vs] is
    that step for the substitutions [vs].  It throws when one of them
    cannot be converted; the text is then built with [to_string]. *)
Definition template (vs : list JSValue) : M unit :=
  if forallb stringifiable vs then mret tt else mthrow conversion_error.

(** The HTTP requests among a list of events, in order. *)
Fixpoint requests (es : list Event) : list Request :=
  match es with
  | [] => []
  | EvFetch req _ :: rest => req :: requests rest
  | _ :: rest => requests rest
  end.

Definition is_delete (r : Request) : bool :=
  match req_method r with DELETE => true | _ => false end.

(** ** The runtime the action runs on *)

(** The platform functions the handlers call.  They are not part of the
    repository, so the model takes them as they come. *)
Record World : Type := mkWorld {
  (* the network: the answer may depend on everything that happened before *)
  fetch_oracle : list Event -> Request -> FetchOutcome;
  (* response.text() and response.json(): [None] when the body of the
     response can be read, the message of the error they reject with when
     it cannot (the connection broke before the body arrived) *)
  body_failure : Response -> option string;
  (* Date.now(), in milliseconds *)
  date_now : list Event -> Z;
  (* Date.prototype.toISOString on a millisecond time stamp *)
  toISOString : Z -> string;
  (* Buffer.from(s, 'base64').toString() *)
  base64_decode : string -> string;
  (* Buffer.from(s).toString('base64url') *)
  base64url : string -> string;
  (* JSON.parse: the value, or the message of the SyntaxError *)
  JSON_parse : string -> JSValue + string;
  JSON_stringify : JSValue -> string;
  (* crypto.createSign('RSA-SHA256').update(input).sign(key, 'base64url'):
     the signature, or the message of the error thrown *)
  rsa_sha256_sign : string -> JSValue -> string + string
}.

(** Job input parameters: a JSON object; [params[field]] is [undefined]
    for a field that is not there. *)
Definition param (params : gmap string JSValue) (field : string) : JSValue :=
  default JUndefined (params !! field).

(** The execution context: [secrets] may be missing altogether. *)
Record Context : Type := mkContext {
  secrets : option (gmap string string);
  environment : gmap string string
}.

(** [context.secrets?.name], [None] standing for [undefined]. *)
Definition secret (context : Context) (name : string) : option string :=
  secrets context ≫= (fun m => m !! name).

(** ** Platform calls as computations *)

Section Runtime.
Variable w : World.

(** [await fetch(url, options)], recorded as one HTTP exchange. *)
Definition fetch (req : Request) : M Response := fun h =>
  match fetch_oracle w h req with
  | Resolves r => (Returns r, [EvFetch req (Resolves r)])
  | Rejects msg => (Throws (OtherError msg None), [EvFetch req (Rejects msg)])
  end.

Definition parse_json (text : string) : M JSValue :=
  match JSON_parse w text with
  | inl v => mret v
  | inr msg => mthrow (OtherError msg None)
  end.

(** [await response.text()]. *)
Definition response_text (response : Response) : M string :=
  match body_failure w response with
  | None => mret (body response)
  | Some msg => mthrow (OtherError msg None)
  end.

(** [await response.json()]. *)
Definition response_json (response : Response) : M JSValue :=
  text ← response_text response;
  parse_json text.

(** [v.k] for the property names the action reads ([client_email],
    [private_key], [project_id], [access_token], [message],
    [retryable]): a TypeError on [null] and [undefined], [undefined] on
    the other primitives and on arrays. *)
Definition get_prop (v : JSValue) (k : string) : M JSValue :=
  match v with
  | JUndefined | JNull =>
      mthrow (OtherError ("Cannot read properties of " +:+ to_string v +:+
                          " (reading '" +:+ k +:+ "')") None)
  | JObj fields => mret (assoc k fields)
  | _ => mret JUndefined
  end.

Definition sign (input : string) (key : JSValue) : M string :=
  match rsa_sha256_sign w input key with
  | inl signature => mret signature
  | inr msg => mthrow (OtherError msg None)
  end.

(** [Math.floor(Date.now() / 1000)]. *)
Definition now_seconds : M Z := fun h => (Returns (date_now w h / 1000), []).

(** [new Date().toISOString()]. *)
Definition now_iso : M string := fun h =>
  (Returns (toISOString w (date_now w h)), []).

End Runtime.

(** ** src/script.mjs *)

Module Script.
Section WithWorld.
Variable w : World.

Definition token_url : string := "https://oauth2.googleapis.com/token".

Definition token_request (jwt : string) : Request :=
  {| req_url := token_url;
     req_method := POST;
     req_headers := [("Content-Type", "application/x-www-form-urlencoded")];
     req_body := [("grant_type", "urn:ietf:params:oauth:grant-type:jwt-bearer");
                  ("assertion", jwt)] |}.

(** The body of the [try] block of [getAccessToken]. *)
Definition getAccessToken_try (serviceAccountKey : string) : M JSValue :=
  keyData ← parse_json w (base64_decode w serviceAccountKey);
  now ← now_seconds w;
  let header := JObj [("alg", JStr "RS256"); ("typ", JStr "JWT")] in
  iss ← get_prop keyData "client_email";
  let payload :=
    JObj [("iss", iss);
          ("scope", JStr "https://www.googleapis.com/auth/cloud-platform");
          ("aud", JStr "https://oauth2.googleapis.com/token");
          ("exp", JNum (now + 3600));
          ("iat", JNum now)] in
  let headerEncoded := base64url w (JSON_stringify w header) in
  let payloadEncoded := base64url w (JSON_stringify w payload) in
  let signatureInput := headerEncoded +:+ "." +:+ payloadEncoded in
  private_key ← get_prop keyData "private_key";
  signature ← sign w signatureInput private_key;
  let jwt := signatureInput +:+ "." +:+ signature in
  tokenResponse ← fetch w (token_request jwt);
  if negb (ok tokenResponse) then
    error ← response_text w tokenResponse;
    mthrow (FatalError ("Failed to get access token: " +:+ error))
  else
    tokenData ← response_json w tokenResponse;
    get_prop tokenData "access_token".

(** Its [catch] clause. *)
Definition getAccessToken_catch (error : Exn) : M JSValue :=
  match error with
  | FatalError _ => mthrow error
  | _ => mthrow (FatalError ("Invalid service account key: " +:+ exn_message error))
  end.

Definition getAccessToken (serviceAccountKey : string) : M JSValue :=
  try_catch (getAccessToken_try serviceAccountKey) getAccessToken_catch.

Definition delete_url (workforcePoolId subjectId : JSValue) : string :=
  "https://iam.googleapis.com/v1/locations/global/workforcePools/" +:+
  to_string workforcePoolId +:+ "/subjects/" +:+ to_string subjectId.

Definition delete_request (accessToken workforcePoolId subjectId : JSValue)
  : Request :=
  {| req_url := delete_url workforcePoolId subjectId;
     req_method := DELETE;
     req_headers := [("Authorization", "Bearer " +:+ to_string accessToken);
                     ("Content-Type", "application/json")];
     req_body := [] |}.

(** The status is tested first; the body is read only in the two
    branches that report a failure, when the error is built. *)
Definition deleteWorkforceUser
    (accessToken projectId workforcePoolId subjectId : JSValue) : M unit :=
  template [workforcePoolId; subjectId];;     (* the URL *)
  template [subjectId; workforcePoolId];;
  console_log ("Deleting workforce user: " +:+ to_string subjectId +:+
               " from pool: " +:+ to_string workforcePoolId);;
  template [accessToken];;                    (* the Authorization header *)
  response ← fetch w (delete_request accessToken workforcePoolId subjectId);
  if status response =? 404 then
    template [subjectId];;
    console_log ("Workforce user " +:+ to_string subjectId +:+
                 " not found, considering deletion successful")
  else if (status response =? 429) || (500 <=? status response) then
    error ← response_text w response;
    mthrow (RetryableError ("Google Cloud API error (" +:+
              number_to_string (status response) +:+ "): " +:+ error))
  else if negb (ok response) then
    error ← response_text w response;
    mthrow (FatalError ("Failed to delete workforce user (" +:+
              number_to_string (status response) +:+ "): " +:+ error))
  else
    template [subjectId];;
    console_log ("Successfully deleted workforce user: " +:+ to_string subjectId).

(** The test of the loop body of [validateInputs]. *)
Definition invalid_input (v : JSValue) : bool :=
  negb (truthy v)
  || negb (String.eqb (typeof v) "string")
  || match v with
     | JStr s => String.eqb (trim s) ""
     | _ => false
     end.

(** [for (const field of required) { ... }]. *)
Fixpoint check_required (required : list string) (params : gmap string JSValue)
  : M unit :=
  match required with
  | [] => mret tt
  | field :: rest =>
      if invalid_input (param params field) then
        mthrow (FatalError ("Missing or invalid required parameter: " +:+ field))
      else check_required rest params
  end.

Definition validateInputs (params : gmap string JSValue) : M unit :=
  check_required ["workforce_pool_id"; "subject_id"] params.

(** Lines 163-171: the project id, from the parameter or from the key. *)
Definition resolve_project_id (project_id : JSValue) (key : string) : M JSValue :=
  if truthy project_id then mret project_id
  else
    keyData ← parse_json w (base64_decode w key);
    finalProjectId ← get_prop keyData "project_id";
    if truthy finalProjectId then mret finalProjectId
    else mthrow (FatalError
      "Project ID not found in service account key and not provided in parameters").

Definition success_result (workforce_pool_id subject_id : JSValue)
    (deleted_at : string) : JSValue :=
  JObj [("status", JStr "success");
        ("workforce_pool_id", workforce_pool_id);
        ("subject_id", subject_id);
        ("deleted_at", JStr deleted_at)].

(** The body of the [try] block of [invoke]. *)
Definition invoke_try (params : gmap string JSValue) (context : Context)
  : M JSValue :=
  validateInputs params;;
  let workforce_pool_id := param params "workforce_pool_id" in
  let subject_id := param params "subject_id" in
  let project_id := param params "project_id" in
  template [workforce_pool_id];;
  console_log ("Processing workforce pool: " +:+ to_string workforce_pool_id);;
  template [subject_id];;
  console_log ("Deleting subject: " +:+ to_string subject_id);;
  match secret context "service_account_key" with
  | None | Some EmptyString =>
      mthrow (FatalError "Missing required secret: service_account_key")
  | Some key =>
      accessToken ← getAccessToken key;
      finalProjectId ← resolve_project_id project_id key;
      template [finalProjectId];;
      console_log ("Using project ID: " +:+ to_string finalProjectId);;
      deleteWorkforceUser accessToken finalProjectId workforce_pool_id subject_id;;
      deleted_at ← now_iso w;
      let result := success_result workforce_pool_id subject_id deleted_at in
      console_log "Workforce user deletion completed successfully";;
      mret result
  end.

(** Its [catch] clause. *)
Definition invoke_catch (error : Exn) : M JSValue :=
  console_error ("Error deleting workforce user: " +:+ exn_message error);;
  match error with
  | RetryableError _ | FatalError _ => mthrow error
  | OtherError _ _ => mthrow (FatalError ("Unexpected error: " +:+ exn_message error))
  end.

Definition invoke (params : gmap string JSValue) (context : Context) : M JSValue :=
  console_log "Starting Google Delete Workforce User action";;
  try_catch (invoke_try params context) invoke_catch.

Definition failed_result (retry : bool) (message workforce_pool_id subject_id : JSValue)
  : JSValue :=
  JObj [("status", JStr "failed");
        ("retryable", JBool retry);
        ("error", message);
        ("workforce_pool_id", workforce_pool_id);
        ("subject_id", subject_id)].

(** The [error] handler. *)
Definition error (params : gmap string JSValue) (_context : Context) : M JSValue :=
  let error := param params "error" in
  let workforce_pool_id := param params "workforce_pool_id" in
  let subject_id := param params "subject_id" in
  template [workforce_pool_id; subject_id];;
  message ← get_prop error "message";
  template [message];;
  console_error ("Error handler called for workforce pool " +:+
                 to_string workforce_pool_id +:+ ", subject " +:+
                 to_string subject_id +:+ ": " +:+ to_string message);;
  retry ← get_prop error "retryable";
  if truthy retry then
    console_log "Error is retryable, will be retried by job scheduler";;
    message ← get_prop error "message";
    mret (failed_result true message workforce_pool_id subject_id)
  else
    console_error "Fatal error encountered, will not retry";;
    message ← get_prop error "message";
    mret (failed_result false message workforce_pool_id subject_id).

(** The [halt] handler. *)
Definition halt (params : gmap string JSValue) (_context : Context) : M JSValue :=
  let reason := param params "reason" in
  let workforce_pool_id := param params "workforce_pool_id" in
  let subject_id := param params "subject_id" in
  template [reason; workforce_pool_id; subject_id];;
  console_log ("Job is being halted (" +:+ to_string reason +:+
               ") for workforce pool " +:+ to_string workforce_pool_id +:+
               ", subject " +:+ to_string subject_id);;
  halted_at ← now_iso w;
  mret (JObj [("status", JStr "halted");
              ("workforce_pool_id", js_or workforce_pool_id (JStr "unknown"));
              ("subject_id", js_or subject_id (JStr "unknown"));
              ("reason", reason);
              ("halted_at", JStr halted_at)]).

End WithWorld.
End Script.

(** ** The variant built on [@sgnl-actions/utils] *)

Module UtilsVariant.
Section WithWorld.
Variable w : World.

(** The two helpers imported from the [@sgnl-actions/utils] package,
    which is not part of the repository: [getBaseURL] returns the base
    URL or throws (the message of the error), [getAuthorizationHeader]
    is an asynchronous call that yields the header value. *)
Variable getBaseURL : gmap string JSValue -> Context -> string + string.
Variable getAuthorizationHeader : Context -> M string.

(** What the helper [deleteWorkforceUser] returns. *)
Record DeleteResult : Type := mkDeleteResult {
  success : bool;
  result_status : Z;
  data : JSValue
}.

Definition delete_request (url authHeader : string) : Request :=
  {| req_url := url;
     req_method := DELETE;
     req_headers := [("Authorization", authHeader)];
     req_body := [] |}.

Definition subject_url (baseUrl : string) (workforcePoolId subjectId : JSValue)
  : string :=
  baseUrl +:+ "/v1/locations/global/workforcePools/" +:+
  to_string workforcePoolId +:+ "/subjects/" +:+ to_string subjectId.

(** [responseData]: the body is read and parsed inside a try block
    whose catch is empty. *)
Definition response_data (response : Response) : JSValue :=
  match body_failure w response with
  | Some _ => JNull
  | None =>
      if String.eqb (body response) "" then JNull
      else match JSON_parse w (body response) with
           | inl v => v
           | inr _ => JNull
           end
  end.

Definition deleteWorkforceUser (workforcePoolId subjectId : JSValue)
    (baseUrl authHeader : string) : M DeleteResult :=
  template [workforcePoolId; subjectId];;
  let url := subject_url baseUrl workforcePoolId subjectId in
  response ← fetch w (delete_request url authHeader);
  mret {| success := ok response;
          result_status := status response;
          data := response_data response |}.

Definition invalid_id (v : JSValue) : bool :=
  negb (truthy v) || negb (String.eqb (typeof v) "string").

Definition deleted_result (subjectId workforcePoolId : JSValue)
    (deletedAt : string) : JSValue :=
  JObj [("subjectId", subjectId);
        ("workforcePoolId", workforcePoolId);
        ("deleted", JBool true);
        ("deletedAt", JStr deletedAt)].

Definition already_deleted_result (subjectId workforcePoolId : JSValue)
    (deletedAt : string) : JSValue :=
  JObj [("subjectId", subjectId);
        ("workforcePoolId", workforcePoolId);
        ("deleted", JBool true);
        ("alreadyDeleted", JBool true);
        ("deletedAt", JStr deletedAt)].

(** [try { baseUrl = getBaseURL(params, context) } catch { default }]. *)
Definition base_url (params : gmap string JSValue) (context : Context) : string :=
  match getBaseURL params context with
  | inl url => url
  | inr _ => "https://iam.googleapis.com"
  end.

Definition ev_starting (params : gmap string JSValue) : Event :=
  EvLog ("Starting Google Workforce user deletion for subject " +:+
         to_string (param params "subjectId") +:+ " in pool " +:+
         to_string (param params "workforcePoolId")).

Definition invoke (params : gmap string JSValue) (context : Context) : M JSValue :=
  let workforcePoolId := param params "workforcePoolId" in
  let subjectId := param params "subjectId" in
  template [subjectId; workforcePoolId];;
  emit (ev_starting params);;
  if invalid_id subjectId then
    mthrow (OtherError "Invalid or missing subjectId parameter" None)
  else if invalid_id workforcePoolId then
    mthrow (OtherError "Invalid or missing workforcePoolId parameter" None)
  else
    let baseUrl := base_url params context in
    authHeader ← getAuthorizationHeader context;
    result ← deleteWorkforceUser workforcePoolId subjectId baseUrl authHeader;
    if success result then
      template [subjectId];;
      console_log ("Successfully deleted workforce user " +:+ to_string subjectId);;
      deletedAt ← now_iso w;
      mret (deleted_result subjectId workforcePoolId deletedAt)
    else
      let statusCode := result_status result in
      if statusCode =? 404 then
        template [subjectId];;
        console_log ("Workforce user " +:+ to_string subjectId +:+
                     " not found - already deleted");;
        deletedAt ← now_iso w;
        mret (already_deleted_result subjectId workforcePoolId deletedAt)
      else
        (* the result has no [error] property, so the message keeps the
           status code *)
        let errorMessage := "Failed to delete workforce user: " +:+
                            number_to_string statusCode in
        console_error "Google API error: undefined";;
        mthrow (OtherError errorMessage (Some statusCode)).

(** The [halt] handler of this variant. *)
Definition halt (params : gmap string JSValue) (_context : Context) : M JSValue :=
  let reason := param params "reason" in
  let subjectId := param params "subjectId" in
  let workforcePoolId := param params "workforcePoolId" in
  template [reason; subjectId; workforcePoolId];;
  console_log ("Workforce user deletion job is being halted (" +:+
               to_string reason +:+ ") for " +:+ to_string subjectId +:+
               " in pool " +:+ to_string workforcePoolId);;
  haltedAt ← now_iso w;
  mret (JObj [("subjectId", js_or subjectId (JStr "unknown"));
              ("workforcePoolId", js_or workforcePoolId (JStr "unknown"));
              ("reason", reason);
              ("haltedAt", JStr haltedAt);
              ("cleanupCompleted", JBool true)]).

End WithWorld.
End UtilsVariant.

(** ** The variant that leaves authentication to the caller *)

(** The first script of src/unnamed/part_000: the DELETE request is sent
    to the fixed host without any header. *)
Module NoAuthVariant.
Section WithWorld.
Variable w : World.

Definition subject_url (workforcePoolId subjectId : JSValue) : string :=
  "https://iam.googleapis.com/v1/locations/global/workforcePools/" +:+
  to_string workforcePoolId +:+ "/subjects/" +:+ to_string subjectId.

Definition delete_request (workforcePoolId subjectId : JSValue) : Request :=
  {| req_url := subject_url workforcePoolId subjectId;
     req_method := DELETE;
     req_headers := [];
     req_body := [] |}.

Definition deleteWorkforceUser (workforcePoolId subjectId : JSValue)
  : M UtilsVariant.DeleteResult :=
  template [workforcePoolId; subjectId];;
  response ← fetch w (delete_request workforcePoolId subjectId);
  mret {| UtilsVariant.success := ok response;
          UtilsVariant.result_status := status response;
          UtilsVariant.data := UtilsVariant.response_data w response |}.

Definition invoke (params : gmap string JSValue) (context : Context) : M JSValue :=
  let workforcePoolId := param params "workforcePoolId" in
  let subjectId := param params "subjectId" in
  template [subjectId; workforcePoolId];;
  emit (UtilsVariant.ev_starting params);;
  if UtilsVariant.invalid_id workforcePoolId then
    mthrow (OtherError "Invalid or missing workforcePoolId parameter" None)
  else if UtilsVariant.invalid_id subjectId then
    mthrow (OtherError "Invalid or missing subjectId parameter" None)
  else
    result ← deleteWorkforceUser workforcePoolId subjectId;
    if UtilsVariant.success result then
      template [subjectId];;
      console_log ("Successfully deleted workforce user " +:+ to_string subjectId);;
      deletedAt ← now_iso w;
      mret (UtilsVariant.deleted_result subjectId workforcePoolId deletedAt)
    else
      let statusCode := UtilsVariant.result_status result in
      if statusCode =? 404 then
        template [subjectId];;
        console_log ("Workforce user " +:+ to_string subjectId +:+
                     " not found - already deleted");;
        deletedAt ← now_iso w;
        mret (UtilsVariant.already_deleted_result subjectId workforcePoolId deletedAt)
      else
        (* the result has no [error] property, so the message keeps the
           status code *)
        let errorMessage := "Failed to delete workforce user: " +:+
                            number_to_string statusCode in
        console_error "Google API error: undefined";;
        mthrow (OtherError errorMessage (Some statusCode)).

End WithWorld.
End NoAuthVariant.

(** ** The variant built on [google-auth-library] *)

(** The second script of src/unnamed/part_000.  The request is made by a
    [JWT] client of the [google-auth-library] package, which is not part of
    the repository: [authClient.request] is taken as it comes.  It either
    resolves with a response object or rejects with the value the library
    throws.  The error this variant throws carries a [statusCode] that need
    not be a number, so its outcomes have a type of their own. *)
Module JwtVariant.

Inductive JwtOutcome : Type :=
  | JwtReturns (result : JSValue)
  (* [new Error(errorMessage)] with its [statusCode] property *)
  | JwtFailure (message : string) (statusCode : JSValue)
  (* any other error: a plain [Error], a TypeError, a SyntaxError *)
  | JwtThrows (message : string).

(** What the helper [deleteWorkforceUser] returns; a property that the
    object literal does not have reads as [undefined]. *)
Record JwtResult : Type := mkJwtResult {
  success : bool;
  result_status : JSValue;
  data : JSValue;
  error : JSValue
}.

(** [v === n] for a number literal [n]. *)
Definition is_number (v : JSValue) (n : Z) : bool :=
  match v with
  | JNum m => m =? n
  | _ => false
  end.

(** [v?.k] for the property names read here. *)
Definition opt_prop (v : JSValue) (k : string) : JSValue :=
  match v with
  | JObj fields => assoc k fields
  | _ => JUndefined
  end.

Section WithLibrary.
Variable w : World.

(** [authClient.request({url, method})] of the client that [new JWT]
    builds from the key's [client_email] and [private_key] (the
    constructor only records its options). *)
Variable authClient_request :
  JSValue -> JSValue -> list Event -> Request -> JSValue + JSValue.

(** How [console.error] prints its second argument. *)
Variable inspect : JSValue -> string.

Definition subject_url (workforcePoolId subjectId : JSValue) : string :=
  "https://iam.googleapis.com/v1/locations/global/workforcePools/" +:+
  to_string workforcePoolId +:+ "/subjects/" +:+ to_string subjectId.

Definition delete_request (workforcePoolId subjectId : JSValue) : Request :=
  {| req_url := subject_url workforcePoolId subjectId;
     req_method := DELETE;
     req_headers := [];
     req_body := [] |}.

(** The helper: [inl] is the message of an error it throws. *)
Definition deleteWorkforceUser (workforcePoolId subjectId : JSValue)
    (serviceAccountKey : string) (h : list Event) : string + JwtResult :=
  match JSON_parse w serviceAccountKey with
  | inr msg => inl msg
  | inl keyData =>
      match keyData with
      | JUndefined | JNull =>
          inl ("Cannot read properties of " +:+ to_string keyData +:+
               " (reading 'client_email')")
      | _ =>
          let email := opt_prop keyData "client_email" in
          let key := opt_prop keyData "private_key" in
          (* the URL is a template literal *)
          if negb (forallb stringifiable [workforcePoolId; subjectId]) then
            inl conversion_message
          else
          match authClient_request email key h
                  (delete_request workforcePoolId subjectId) with
          | inl response =>
              match response with
              | JUndefined | JNull =>
                  (* the TypeError of [response.status] is caught by the
                     catch clause: it has a message, no response, no code *)
                  inr {| success := false;
                         result_status := JUndefined;
                         data := JUndefined;
                         error := JStr ("Cannot read properties of " +:+
                                        to_string response +:+
                                        " (reading 'status')") |}
              | _ =>
                  inr {| success := true;
                         result_status := opt_prop response "status";
                         data := opt_prop response "data";
                         error := JUndefined |}
              end
          | inr thrown =>
              match thrown with
              | JUndefined | JNull =>
                  inl ("Cannot read properties of " +:+ to_string thrown +:+
                       " (reading 'response')")
              | _ =>
                  let response := opt_prop thrown "response" in
                  inr {| success := false;
                         result_status := js_or (opt_prop response "status")
                                                (opt_prop thrown "code");
                         data := JUndefined;
                         error := js_or (opt_prop response "data")
                                        (opt_prop thrown "message") |}
              end
          end
      end
  end.

Definition ev_starting (params : gmap string JSValue) : Event :=
  EvLog ("Starting Google Workforce user deletion for subject " +:+
         to_string (param params "subjectId") +:+ " in pool " +:+
         to_string (param params "workforcePoolId")).

Definition invalid_id (v : JSValue) : bool :=
  negb (truthy v) || negb (String.eqb (typeof v) "string").

(** The message of the error thrown for a failed delete; [None] when a
    template literal meets a value that cannot be converted to a string.
    The message is first built from the status code, then replaced. *)
Definition error_message (result : JwtResult) : option string :=
  if negb (stringifiable (result_status result)) then None
  else
    let apiMessage := opt_prop (opt_prop (error result) "error") "message" in
    if truthy apiMessage then
      if stringifiable apiMessage then
        Some ("Failed to delete workforce user: " +:+ to_string apiMessage)
      else None
    else if String.eqb (typeof (error result)) "string" then
      Some ("Failed to delete workforce user: " +:+ to_string (error result))
    else
      Some ("Failed to delete workforce user: " +:+
            to_string (result_status result)).

(** The identifiers are converted to strings for the start line, before
    they are validated; the later template literals convert the same two
    values again, which then succeeds. *)
Definition invoke (params : gmap string JSValue) (context : Context)
    (h : list Event) : JwtOutcome * list Event :=
  let workforcePoolId := param params "workforcePoolId" in
  let subjectId := param params "subjectId" in
  let start := [ev_starting params] in
  if negb (forallb stringifiable [subjectId; workforcePoolId]) then
    (JwtThrows conversion_message, [])
  else if invalid_id workforcePoolId then
    (JwtThrows "Invalid or missing workforcePoolId parameter", start)
  else if invalid_id subjectId then
    (JwtThrows "Invalid or missing subjectId parameter", start)
  else
    match secret context "GOOGLE_SERVICE_ACCOUNT_KEY" with
    | None | Some EmptyString =>
        (JwtThrows "Missing required secret: GOOGLE_SERVICE_ACCOUNT_KEY", start)
    | Some serviceAccountKey =>
        match deleteWorkforceUser workforcePoolId subjectId serviceAccountKey
                (h ++ start) with
        | inl msg => (JwtThrows msg, start)
        | inr result =>
            if success result then
              let es := start ++
                [EvLog ("Successfully deleted workforce user " +:+
                        to_string subjectId)] in
              (JwtReturns (JObj [("subjectId", subjectId);
                                 ("workforcePoolId", workforcePoolId);
                                 ("deleted", JBool true);
                                 ("deletedAt",
                                  JStr (toISOString w (date_now w (h ++ es))))]),
               es)
            else
              let statusCode := result_status result in
              if is_number statusCode 404 then
                let es := start ++
                  [EvLog ("Workforce user " +:+ to_string subjectId +:+
                          " not found - already deleted")] in
                (JwtReturns (JObj [("subjectId", subjectId);
                                   ("workforcePoolId", workforcePoolId);
                                   ("deleted", JBool true);
                                   ("alreadyDeleted", JBool true);
                                   ("deletedAt",
                                    JStr (toISOString w (date_now w (h ++ es))))]),
                 es)
              else
                match error_message result with
                | None => (JwtThrows conversion_message, start)
                | Some errorMessage =>
                    (JwtFailure errorMessage statusCode,
                     start ++ [EvError ("Google API error: " +:+
                                        inspect (error result))])
                end
        end
    end.

End WithLibrary.
End JwtVariant.

(** ** A concrete runtime, after tests/script.test.js *)

Module TestDouble.

Definition mockServiceAccountKey : string := "bW9jay1rZXk=".

Definition mockKeyData (with_project : bool) : JSValue :=
  JObj ([("client_email", JStr "test@example-project.iam.gserviceaccount.com");
         ("private_key", JStr "MOCK_KEY")] ++
        if with_project then [("project_id", JStr "test-project-123")] else []).

(** The token endpoint answers [token_status]; the IAM endpoint answers
    [delete_status]. *)
Definition world (with_project : bool) (token_status delete_status : Z) : World :=
  {| fetch_oracle := fun _ req =>
       match req_method req with
       | POST => Resolves {| status := token_status; body := "token-body" |}
       | _ => Resolves {| status := delete_status; body := "User not found" |}
       end;
     body_failure := fun _ => None;
     date_now := fun _ => 1700000000000;
     toISOString := fun _ => "2023-11-14T22:13:20.000Z";
     base64_decode := fun _ => "key-json";
     base64url := fun s => s;
     JSON_parse := fun text =>
       if String.eqb text "key-json" then inl (mockKeyData with_project)
       else if String.eqb text "token-body"
            then inl (JObj [("access_token", JStr "mock-access-token")])
            else inr "Unexpected token";
     JSON_stringify := fun _ => "{}";
     rsa_sha256_sign := fun _ _ => inl "signature" |}.

(** The token is granted, then the connection to the IAM endpoint fails. *)
Definition offline_world : World :=
  {| fetch_oracle := fun _ req =>
       match req_method req with
       | POST => Resolves {| status := 200; body := "token-body" |}
       | _ => Rejects "fetch failed"
       end;
     body_failure := body_failure (world true 200 200);
     date_now := date_now (world true 200 200);
     toISOString := toISOString (world true 200 200);
     base64_decode := base64_decode (world true 200 200);
     base64url := base64url (world true 200 200);
     JSON_parse := JSON_parse (world true 200 200);
     JSON_stringify := JSON_stringify (world true 200 200);
     rsa_sha256_sign := rsa_sha256_sign (world true 200 200) |}.

Definition mockContext : Context :=
  {| secrets := Some {[ "service_account_key" := mockServiceAccountKey ]};
     environment := {[ "ENVIRONMENT" := "test" ]} |}.

Definition params : gmap string JSValue :=
  {[ "workforce_pool_id" := JStr "test-pool-123";
     "subject_id" := JStr "user123@example.com" ]}.

(** Input of the variant built on [@sgnl-actions/utils]: no address is
    configured, and the header comes from a bearer token. *)
Definition getBaseURL (_ : gmap string JSValue) (_ : Context) : string + string :=
  inr "No URL specified. Provide address parameter or ADDRESS environment variable".

Definition getAuthorizationHeader (_ : Context) : M string :=
  mret "Bearer mock-token".

Definition utils_params : gmap string JSValue :=
  {[ "workforcePoolId" := JStr "test-pool-123";
     "subjectId" := JStr "user123@example.com" ]}.

(** The runtime of [world true 200 200] with another network, JSON parser
    and signer. *)
Definition world_with
    (network : Request -> FetchOutcome)
    (parser : string -> JSValue + string)
    (signer : string -> JSValue -> string + string) : World :=
  {| fetch_oracle := fun _ req => network req;
     body_failure := body_failure (world true 200 200);
     date_now := date_now (world true 200 200);
     toISOString := toISOString (world true 200 200);
     base64_decode := base64_decode (world true 200 200);
     base64url := base64url (world true 200 200);
     JSON_parse := parser;
     JSON_stringify := JSON_stringify (world true 200 200);
     rsa_sha256_sign := signer |}.

(** The runtime of [world true token_status delete_status] on a
    connection that delivers the status of a response and breaks before
    the body named [broken] has arrived. *)
Definition broken_body_world (token_status delete_status : Z) (broken : string)
  : World :=
  {| fetch_oracle := fetch_oracle (world true token_status delete_status);
     body_failure := fun r => if String.eqb (body r) broken
                              then Some "terminated" else None;
     date_now := date_now (world true 200 200);
     toISOString := toISOString (world true 200 200);
     base64_decode := base64_decode (world true 200 200);
     base64url := base64url (world true 200 200);
     JSON_parse := JSON_parse (world true 200 200);
     JSON_stringify := JSON_stringify (world true 200 200);
     rsa_sha256_sign := rsa_sha256_sign (world true 200 200) |}.

(** The secret does not decode to JSON. *)
Definition garbled_key_world : World :=
  world_with (fetch_oracle (world true 200 200) [])
             (fun _ => inr "Unexpected token")
             (rsa_sha256_sign (world true 200 200)).

(** The private key is refused by the signer. *)
Definition unsigned_world : World :=
  world_with (fetch_oracle (world true 200 200) [])
             (JSON_parse (world true 200 200))
             (fun _ _ => inr "unsupported key").

(** The token endpoint cannot be reached. *)
Definition no_token_endpoint_world : World :=
  world_with (fun _ => Rejects "fetch failed")
             (JSON_parse (world true 200 200))
             (rsa_sha256_sign (world true 200 200)).

(** The token endpoint answers 2xx with a body that is not JSON. *)
Definition not_json_token_world : World :=
  world_with (fetch_oracle (world true 200 200) [])
             (fun text => if String.eqb text "key-json"
                          then inl (mockKeyData true)
                          else inr "Unexpected token")
             (rsa_sha256_sign (world true 200 200)).

(** The token endpoint answers 2xx with an empty JSON object. *)
Definition empty_token_world : World :=
  world_with (fetch_oracle (world true 200 200) [])
             (fun text => if String.eqb text "key-json"
                          then inl (mockKeyData true)
                          else inl (JObj []))
             (rsa_sha256_sign (world true 200 200)).

(** For the variant built on [google-auth-library]: the secret, a client
    whose request is refused with the error [thrown], a client whose
    request is answered with [response], and a console that prints every
    object alike. *)
Definition jwt_context : Context :=
  {| secrets := Some {[ "GOOGLE_SERVICE_ACCOUNT_KEY" := "key-json" ]};
     environment := ∅ |}.

Definition refusing_client (thrown : JSValue)
  : JSValue -> JSValue -> list Event -> Request -> JSValue + JSValue :=
  fun _ _ _ _ => inr thrown.

Definition answering_client (response : JSValue)
  : JSValue -> JSValue -> list Event -> Request -> JSValue + JSValue :=
  fun _ _ _ _ => inl response.

Definition inspect (_ : JSValue) : string := "[Object]".

(** A helper that fails to produce the authorization header. *)
Definition failingAuthorizationHeader (_ : Context) : M string :=
  mthrow (OtherError "No authentication configured" None).

(** A configured base URL. *)
Definition configuredBaseURL (_ : gmap string JSValue) (_ : Context)
  : string + string :=
  inl "https://iam.example.test".

End TestDouble.

(** * Describing runs *)

(** How a run of [getAccessToken] can end, with the events it performed. *)
Inductive token_exchange : Outcome JSValue -> list Event -> Prop :=
  | tx_no_request m :
      token_exchange (Throws (FatalError m)) []
  | tx_rejected jwt msg :
      token_exchange
        (Throws (FatalError ("Invalid service account key: " +:+ msg)))
        [EvFetch (Script.token_request jwt) (Rejects msg)]
  | tx_failed jwt resp m :
      token_exchange (Throws (FatalError m))
        [EvFetch (Script.token_request jwt) (Resolves resp)]
  | tx_granted jwt resp token :
      ok resp = true ->
      token_exchange (Returns token)
        [EvFetch (Script.token_request jwt) (Resolves resp)].

(** What [getAccessToken] makes of the answer of the token endpoint. *)
Definition token_of_response (w : World) (r : Response) : Outcome JSValue :=
  match body_failure w r with
  | Some msg => Throws (FatalError ("Invalid service account key: " +:+ msg))
  | None =>
      if ok r then
        match JSON_parse w (body r) with
        | inr msg => Throws (FatalError ("Invalid service account key: " +:+ msg))
        | inl (JObj fields) => Returns (assoc "access_token" fields)
        | inl JUndefined =>
            Throws (FatalError
              "Invalid service account key: Cannot read properties of undefined (reading 'access_token')")
        | inl JNull =>
            Throws (FatalError
              "Invalid service account key: Cannot read properties of null (reading 'access_token')")
        | inl _ => Returns JUndefined
        end
      else Throws (FatalError ("Failed to get access token: " +:+ body r))
  end.

(** ** The paths through [invoke] *)

Definition ev_start : Event :=
  EvLog "Starting Google Delete Workforce User action".

Definition ev_caught (e : Exn) : Event :=
  EvError ("Error deleting workforce user: " +:+ exn_message e).

Definition ev_project (projectId : JSValue) : Event :=
  EvLog ("Using project ID: " +:+ to_string projectId).

Definition ev_completed : Event :=
  EvLog "Workforce user deletion completed successfully".

(** What leaves [invoke] when its [try] block throws [e]. *)
Definition rethrown (e : Exn) : Exn :=
  match e with
  | OtherError m _ => FatalError ("Unexpected error: " +:+ m)
  | _ => e
  end.

Definition missing_parameter (field : string) : Exn :=
  FatalError ("Missing or invalid required parameter: " +:+ field).

Definition missing_secret : Exn :=
  FatalError "Missing required secret: service_account_key".

Definition missing_project : Exn :=
  FatalError
    "Project ID not found in service account key and not provided in parameters".

(** What leaves [invoke] when a value cannot be converted to a string,
    and when the body of the delete response cannot be read. *)
Definition unexpected (message : string) : Exn :=
  FatalError ("Unexpected error: " +:+ message).

(** The two errors [deleteWorkforceUser] builds from a response. *)
Definition api_error (r : Response) : Exn :=
  RetryableError ("Google Cloud API error (" +:+
                  number_to_string (status r) +:+ "): " +:+ body r).

Definition delete_failure (r : Response) : Exn :=
  FatalError ("Failed to delete workforce user (" +:+
              number_to_string (status r) +:+ "): " +:+ body r).

Section Paths.
Variable w : World.
Variable params : gmap string JSValue.
Variable context : Context.
Variable h : list Event.

Local Abbreviation pool := (param params "workforce_pool_id").
Local Abbreviation subj := (param params "subject_id").

(** The console lines written before the secret is looked at. *)
Definition prologue : list Event :=
  [ev_start;
   EvLog ("Processing workforce pool: " +:+ to_string pool);
   EvLog ("Deleting subject: " +:+ to_string subj)].

Definition ev_deleting : Event :=
  EvLog ("Deleting workforce user: " +:+ to_string subj +:+
         " from pool: " +:+ to_string pool).

Definition ev_not_found : Event :=
  EvLog ("Workforce user " +:+ to_string subj +:+
         " not found, considering deletion successful").

Definition ev_deleted : Event :=
  EvLog ("Successfully deleted workforce user: " +:+ to_string subj).

(** Validation passed, the secret is there and the token was granted. *)
Definition has_token (key : string) (token : JSValue) (tes : list Event) : Prop :=
  Script.invalid_input pool = false /\
  Script.invalid_input subj = false /\
  secret context "service_account_key" = Some key /\
  key <> "" /\
  Script.getAccessToken w key (h ++ prologue) = (Returns token, tes).

(** ... and the project id was found. *)
Definition has_project (key : string) (token : JSValue) (tes : list Event)
    (projectId : JSValue) : Prop :=
  has_token key token tes /\
  Script.resolve_project_id w (param params "project_id") key
    (h ++ prologue ++ tes) = (Returns projectId, []).

(** ... and both the project id and the token can be written into a
    string: the delete request is sent, and answered by [out]. *)
Definition reaches_delete (key : string) (token : JSValue) (tes : list Event)
    (projectId : JSValue) (out : FetchOutcome) : Prop :=
  has_project key token tes projectId /\
  stringifiable projectId = true /\
  stringifiable token = true /\
  fetch_oracle w (h ++ prologue ++ tes ++ [ev_project projectId; ev_deleting])
    (Script.delete_request token pool subj) = out.

Inductive invoke_path : Outcome JSValue -> list Event -> Prop :=
  | path_bad_pool :
      Script.invalid_input pool = true ->
      invoke_path (Throws (missing_parameter "workforce_pool_id"))
        [ev_start; ev_caught (missing_parameter "workforce_pool_id")]
  | path_bad_subject :
      Script.invalid_input pool = false ->
      Script.invalid_input subj = true ->
      invoke_path (Throws (missing_parameter "subject_id"))
        [ev_start; ev_caught (missing_parameter "subject_id")]
  | path_no_secret :
      Script.invalid_input pool = false ->
      Script.invalid_input subj = false ->
      secret context "service_account_key" = None \/
      secret context "service_account_key" = Some "" ->
      invoke_path (Throws missing_secret) (prologue ++ [ev_caught missing_secret])
  | path_no_token key m tes :
      Script.invalid_input pool = false ->
      Script.invalid_input subj = false ->
      secret context "service_account_key" = Some key ->
      key <> "" ->
      Script.getAccessToken w key (h ++ prologue) = (Throws (FatalError m), tes) ->
      invoke_path (Throws (FatalError m))
        (prologue ++ tes ++ [ev_caught (FatalError m)])
  | path_no_project key token tes e :
      has_token key token tes ->
      Script.resolve_project_id w (param params "project_id") key
        (h ++ prologue ++ tes) = (Throws e, []) ->
      invoke_path (Throws (rethrown e)) (prologue ++ tes ++ [ev_caught e])
  | path_project_unprintable key token tes projectId :
      has_project key token tes projectId ->
      stringifiable projectId = false ->
      invoke_path (Throws (unexpected conversion_message))
        (prologue ++ tes ++ [ev_caught conversion_error])
  | path_token_unprintable key token tes projectId :
      has_project key token tes projectId ->
      stringifiable projectId = true ->
      stringifiable token = false ->
      invoke_path (Throws (unexpected conversion_message))
        (prologue ++ tes ++
         [ev_project projectId; ev_deleting; ev_caught conversion_error])
  | path_transport key token tes projectId msg :
      reaches_delete key token tes projectId (Rejects msg) ->
      invoke_path (Throws (FatalError ("Unexpected error: " +:+ msg)))
        (prologue ++ tes ++
         [ev_project projectId; ev_deleting;
          EvFetch (Script.delete_request token pool subj) (Rejects msg);
          ev_caught (OtherError msg None)])
  | path_not_found key token tes projectId r deleted_at :
      reaches_delete key token tes projectId (Resolves r) ->
      status r = 404 ->
      invoke_path (Returns (Script.success_result pool subj deleted_at))
        (prologue ++ tes ++
         [ev_project projectId; ev_deleting;
          EvFetch (Script.delete_request token pool subj) (Resolves r);
          ev_not_found; ev_completed])
  | path_unreadable key token tes projectId r msg :
      reaches_delete key token tes projectId (Resolves r) ->
      status r <> 404 ->
      ok r = false ->
      body_failure w r = Some msg ->
      invoke_path (Throws (unexpected msg))
        (prologue ++ tes ++
         [ev_project projectId; ev_deleting;
          EvFetch (Script.delete_request token pool subj) (Resolves r);
          ev_caught (OtherError msg None)])
  | path_retryable key token tes projectId r :
      reaches_delete key token tes projectId (Resolves r) ->
      status r <> 404 ->
      status r = 429 \/ 500 <= status r ->
      body_failure w r = None ->
      let e := api_error r in
      invoke_path (Throws e)
        (prologue ++ tes ++
         [ev_project projectId; ev_deleting;
          EvFetch (Script.delete_request token pool subj) (Resolves r);
          ev_caught e])
  | path_fatal key token tes projectId r :
      reaches_delete key token tes projectId (Resolves r) ->
      status r <> 404 ->
      status r <> 429 ->
      status r < 500 ->
      ok r = false ->
      body_failure w r = None ->
      let e := delete_failure r in
      invoke_path (Throws e)
        (prologue ++ tes ++
         [ev_project projectId; ev_deleting;
          EvFetch (Script.delete_request token pool subj) (Resolves r);
          ev_caught e])
  | path_deleted key token tes projectId r deleted_at :
      reaches_delete key token tes projectId (Resolves r) ->
      ok r = true ->
      invoke_path (Returns (Script.success_result pool subj deleted_at))
        (prologue ++ tes ++
         [ev_project projectId; ev_deleting;
          EvFetch (Script.delete_request token pool subj) (Resolves r);
          ev_deleted; ev_completed]).

(** The branch [invoke] takes once the delete request has been answered. *)
Inductive delete_verdict (r : Response) : Outcome JSValue -> Prop :=
  | verdict_not_found deleted_at :
      status r = 404 ->
      delete_verdict r (Returns (Script.success_result pool subj deleted_at))
  | verdict_unreadable msg :
      status r <> 404 -> ok r = false -> body_failure w r = Some msg ->
      delete_verdict r (Throws (unexpected msg))
  | verdict_retryable :
      status r <> 404 -> status r = 429 \/ 500 <= status r ->
      body_failure w r = None ->
      delete_verdict r (Throws (api_error r))
  | verdict_fatal :
      status r <> 404 -> status r <> 429 -> status r < 500 -> ok r = false ->
      body_failure w r = None ->
      delete_verdict r (Throws (delete_failure r))
  | verdict_deleted deleted_at :
      ok r = true ->
      delete_verdict r (Returns (Script.success_result pool subj deleted_at)).

End Paths.

(** The delete request of this run of [src/script.mjs] was answered 404. *)
Definition script_answered_404 (w : World) (params : gmap string JSValue)
    (context : Context) (h : list Event) : Prop :=
  exists req r,
    In (EvFetch req (Resolves r)) (snd (Script.invoke w params context h)) /\
    req_method req = DELETE /\ status r = 404.

(** The same for the variant built on [@sgnl-actions/utils]: the
    identifiers are accepted, the header is obtained, and the delete
    request is answered 404. *)
Definition utils_answered_404 (w : World)
    (getBaseURL : gmap string JSValue -> Context -> string + string)
    (getAuthorizationHeader : Context -> M string)
    (params : gmap string JSValue) (context : Context) (h : list Event) : Prop :=
  UtilsVariant.invalid_id (param params "subjectId") = false /\
  UtilsVariant.invalid_id (param params "workforcePoolId") = false /\
  exists authHeader aes r,
    getAuthorizationHeader context (h ++ [UtilsVariant.ev_starting params])
      = (Returns authHeader, aes) /\
    fetch_oracle w (h ++ UtilsVariant.ev_starting params :: aes)
      (UtilsVariant.delete_request
         (UtilsVariant.subject_url
            (UtilsVariant.base_url getBaseURL params context)
            (param params "workforcePoolId") (param params "subjectId"))
         authHeader) = Resolves r /\
    status r = 404.

(** What the variants that only test [!id || typeof id !== 'string']
    accept as an identifier: a string that is not empty. *)
Definition nonempty_string (v : JSValue) : Prop :=
  exists s, v = JStr s /\ s <> "".

(** An identifier the action cannot use: missing, not a string, or a
    string that is empty or made of white space only. *)
Inductive unusable (params : gmap string JSValue) (field : string) : Prop :=
  | id_missing :
      params !! field = None -> unusable params field
  | id_not_a_string v :
      params !! field = Some v -> typeof v <> "string" -> unusable params field
  | id_blank s :
      params !! field = Some (JStr s) -> all_white_space s = true ->
      unusable params field.

(** * Properties *)

(** ** White space and [trim] *)

Lemma rev_app_empty (s acc : string) :
  String.rev_app s acc = "" -> s = "" /\ acc = "".
Proof.
  revert acc. induction s as [|c s IH]; intros acc H; simpl in H.
  - auto.
  - apply IH in H as [_ H]. discriminate.
Qed.

Lemma all_white_space_rev_app (s acc : string) :
  all_white_space (String.rev_app s acc) = all_white_space s && all_white_space acc.
Proof.
  revert acc. induction s as [|c s IH]; intros acc; simpl.
  - reflexivity.
  - rewrite IH. simpl. destruct (is_white_space c), (all_white_space s); simpl; auto.
Qed.

Lemma trimStart_empty (s : string) :
  trimStart s = "" <-> all_white_space s = true.
Proof.
  induction s as [|c s IH]; simpl.
  - tauto.
  - destruct (is_white_space c); simpl.
    + exact IH.
    + split; discriminate.
Qed.

Lemma trimStart_white (s : string) :
  all_white_space (trimStart s) = true -> all_white_space s = true.
Proof.
  induction s as [|c s IH]; simpl.
  - auto.
  - destruct (is_white_space c) eqn:E; simpl.
    + exact IH.
    + rewrite E. discriminate.
Qed.

(** [s.trim() === ''] holds exactly for the strings made of white space. *)
Lemma trim_empty (s : string) :
  String.eqb (trim s) "" = all_white_space s.
Proof.
  destruct (all_white_space s) eqn:E.
  - apply String.eqb_eq. unfold trim, trimEnd.
    apply trimStart_empty in E. rewrite E. reflexivity.
  - apply String.eqb_neq. intros H. unfold trim, trimEnd, String.rev in H.
    apply rev_app_empty in H as [H _].
    apply trimStart_empty in H.
    rewrite all_white_space_rev_app in H.
    apply andb_prop in H as [H _].
    apply trimStart_white in H. congruence.
Qed.

(** ** Printing numbers and converting values *)

Example number_to_string_examples :
  map number_to_string
      [0; -42; 404; 2 ^ 53 - 1; 2 ^ 53 + 1; 2 ^ 64; 10 ^ 21 - 1; 10 ^ 21;
       15 * 10 ^ 20; 2 ^ 70; - 10 ^ 21; 2 ^ 1024]
  = ["0"; "-42"; "404"; "9007199254740991"; "9007199254740992";
     "18446744073709552000"; "1e+21"; "1e+21"; "1.5e+21";
     "1.1805916207174113e+21"; "-1e+21"; "Infinity"].
Proof. vm_compute. reflexivity. Qed.

Example conversion_examples :
  map stringifiable
      [JUndefined; JNum 7; JStr ""; JObj []; JObj [("valueOf", JNum 1)];
       JObj [("toString", JNum 1)]; JArr [JNull; JObj [("toString", JNull)]]]
  = [true; true; true; true; true; false; false] /\
  map to_string
      [JUndefined; JNull; JBool true; JNum (10 ^ 21); JNonInteger "1.5";
       JArr [JNum 1; JNull; JStr "a"]; JObj [("a", JNum 1)]]
  = ["undefined"; "null"; "true"; "1e+21"; "1.5"; "1,,a"; "[object Object]"].
Proof. split; vm_compute; reflexivity. Qed.

(** ** The scenarios of tests/script.test.js *)

Example invoke_with_valid_params :
  fst (Script.invoke (TestDouble.world true 200 200) TestDouble.params
         TestDouble.mockContext [])
  = Returns (JObj [("status", JStr "success");
                   ("workforce_pool_id", JStr "test-pool-123");
                   ("subject_id", JStr "user123@example.com");
                   ("deleted_at", JStr "2023-11-14T22:13:20.000Z")]).
Proof. vm_compute. reflexivity. Qed.

Example invoke_user_not_found :
  fst (Script.invoke (TestDouble.world true 200 404) TestDouble.params
         TestDouble.mockContext [])
  = Returns (JObj [("status", JStr "success");
                   ("workforce_pool_id", JStr "test-pool-123");
                   ("subject_id", JStr "user123@example.com");
                   ("deleted_at", JStr "2023-11-14T22:13:20.000Z")]).
Proof. vm_compute. reflexivity. Qed.

Example invoke_missing_subject_id :
  Script.invoke (TestDouble.world true 200 200)
    {[ "workforce_pool_id" := JStr "test-pool-123" ]} TestDouble.mockContext []
  = (Throws (FatalError "Missing or invalid required parameter: subject_id"),
     [EvLog "Starting Google Delete Workforce User action";
      EvError "Error deleting workforce user: Missing or invalid required parameter: subject_id"]).
Proof. vm_compute. reflexivity. Qed.

Example invoke_blank_subject_id :
  fst (Script.invoke (TestDouble.world true 200 200)
         (<[ "subject_id" := JStr "   " ]> TestDouble.params)
         TestDouble.mockContext [])
  = Throws (FatalError "Missing or invalid required parameter: subject_id").
Proof. vm_compute. reflexivity. Qed.

Example invoke_missing_service_account_key :
  fst (Script.invoke (TestDouble.world true 200 200) TestDouble.params
         {| secrets := Some ∅; environment := ∅ |} [])
  = Throws (FatalError "Missing required secret: service_account_key").
Proof. vm_compute. reflexivity. Qed.

Example error_handler_fatal :
  fst (Script.error
         {[ "workforce_pool_id" := JStr "test-pool-123";
            "subject_id" := JStr "user123@example.com";
            "error" := JObj [("message", JStr "Invalid credentials");
                             ("retryable", JBool false)] ]}
         TestDouble.mockContext [])
  = Returns (JObj [("status", JStr "failed");
                   ("retryable", JBool false);
                   ("error", JStr "Invalid credentials");
                   ("workforce_pool_id", JStr "test-pool-123");
                   ("subject_id", JStr "user123@example.com")]).
Proof. vm_compute. reflexivity. Qed.

(** ** Running computations *)

Ltac unfold_monad :=
  unfold template, mbind, M_bind, mret, M_ret, mthrow, M_throw, try_catch,
         console_log, console_error, emit in *.

(** The same, leaving the conversions of template literals folded. *)
Ltac unfold_steps :=
  unfold mbind, M_bind, mret, M_ret, mthrow, M_throw, try_catch,
         console_log, console_error, emit in *.

Ltac flatten_events := rewrite ?app_nil_r, <- ?app_assoc; simpl (_ ++ _).

(** Split on the next platform answer or test the computation waits on. *)
Ltac case_step :=
  match goal with
  | |- context [match ?x with _ => _ end] =>
      match x with
      | context [match _ with _ => _ end] => fail 1
      | _ => destruct x eqn:?
      end
  | |- context [if ?x then _ else _] =>
      match x with
      | context [if _ then _ else _] => fail 1
      | _ => destruct x eqn:?
      end
  end.

Ltac same_events :=
  simpl; rewrite <- ?app_assoc; simpl; rewrite ?app_nil_r; reflexivity.

Ltac run_all := repeat (simpl; try case_step).

Arguments Script.getAccessToken : simpl never.
Arguments Script.resolve_project_id : simpl never.
Arguments number_to_string : simpl never.
Arguments template : simpl never.

(** ** Conversions to strings *)

Lemma template_converts (vs : list JSValue) (h : list Event) :
  forallb stringifiable vs = true -> template vs h = (Returns tt, []).
Proof. intros H. unfold template. rewrite H. reflexivity. Qed.

Lemma template_throws (vs : list JSValue) (h : list Event) :
  forallb stringifiable vs = false -> template vs h = (Throws conversion_error, []).
Proof. intros H. unfold template. rewrite H. reflexivity. Qed.

Lemma valid_id_stringifiable (v : JSValue) :
  UtilsVariant.invalid_id v = false -> stringifiable v = true.
Proof.
  unfold UtilsVariant.invalid_id. intros H.
  destruct v; simpl in H; try reflexivity;
    rewrite ?orb_true_r in H; simpl in H; discriminate.
Qed.

Lemma valid_input_stringifiable (v : JSValue) :
  Script.invalid_input v = false -> stringifiable v = true.
Proof.
  unfold Script.invalid_input. intros H.
  destruct v; simpl in H; try reflexivity;
    rewrite ?orb_true_r in H; simpl in H; discriminate.
Qed.

(** ** The token exchange *)

Section TokenExchange.
Variable w : World.

Lemma getAccessToken_exchange (key : string) (h : list Event) :
  token_exchange (fst (Script.getAccessToken w key h))
                 (snd (Script.getAccessToken w key h)).
Proof.
  unfold Script.getAccessToken, Script.getAccessToken_try,
    Script.getAccessToken_catch, response_json, response_text, parse_json,
    now_seconds, get_prop, sign, fetch.
  unfold_monad.
  run_all.
  all: try (apply tx_no_request).
  all: try (apply tx_rejected).
  all: try (apply tx_granted; apply negb_false_iff; assumption).
  all: try (apply tx_failed).
Qed.

End TokenExchange.

(** ** The paths through [invoke] *)

Section InvokePaths.
Variable w : World.
Variable params : gmap string JSValue.
Variable context : Context.
Variable h : list Event.

Local Abbreviation pool := (param params "workforce_pool_id").
Local Abbreviation subj := (param params "subject_id").
Local Abbreviation invoke_path := (invoke_path w params context h).

Lemma path_as o es o' es' :
  invoke_path o es -> o = o' -> es = es' -> invoke_path o' es'.
Proof. intros H -> ->. exact H. Qed.

Lemma resolve_project_id_silent (project_id : JSValue) (key : string)
    (h' : list Event) :
  snd (Script.resolve_project_id w project_id key h') = [].
Proof.
  unfold Script.resolve_project_id, parse_json, get_prop. unfold_monad.
  run_all; reflexivity.
Qed.

Lemma getAccessToken_throws_fatal (key : string) (h' : list Event) e tes :
  Script.getAccessToken w key h' = (Throws e, tes) ->
  exists m, e = FatalError m.
Proof.
  intros E. pose proof (getAccessToken_exchange w key h') as X.
  rewrite E in X. simpl in X. inversion X; subst; eauto.
Qed.

Lemma invoke_paths :
  invoke_path (fst (Script.invoke w params context h))
              (snd (Script.invoke w params context h)).
Proof.
  unfold Script.invoke, Script.invoke_try, Script.invoke_catch,
    Script.validateInputs, Script.check_required, Script.deleteWorkforceUser,
    response_text, now_iso, fetch.
  unfold_steps. simpl.
  destruct (Script.invalid_input pool) eqn:Hpool; simpl.
  { apply path_bad_pool; assumption. }
  destruct (Script.invalid_input subj) eqn:Hsubj; simpl.
  { apply path_bad_subject; assumption. }
  pose proof (valid_input_stringifiable _ Hpool) as Spool.
  pose proof (valid_input_stringifiable _ Hsubj) as Ssubj.
  assert (Stwo : forallb stringifiable [pool; subj] = true)
    by (simpl; rewrite Spool, Ssubj; reflexivity).
  assert (Sowt : forallb stringifiable [subj; pool] = true)
    by (simpl; rewrite Spool, Ssubj; reflexivity).
  assert (Sone : forallb stringifiable [pool] = true)
    by (simpl; rewrite Spool; reflexivity).
  assert (Seno : forallb stringifiable [subj] = true)
    by (simpl; rewrite Ssubj; reflexivity).
  rewrite (template_converts [pool]), (template_converts [subj]) by assumption.
  simpl.
  destruct (secret context "service_account_key") as [key|] eqn:Hsecret; simpl.
  2: { apply path_no_secret; auto. }
  destruct key as [|c key']; simpl.
  { apply path_no_secret; auto. }
  assert (Hkey : String c key' <> "") by discriminate.
  revert Hsecret Hkey. generalize (String c key'). intros key Hsecret Hkey.
  flatten_events.
  destruct (Script.getAccessToken w key _) as [[token|e] tes] eqn:Htoken;
    change (h ++ _) with (h ++ prologue params) in Htoken; simpl.
  2: { destruct (getAccessToken_throws_fatal _ _ _ _ Htoken) as [m ->]. simpl.
       eapply path_as; [eapply path_no_token; eauto | |]; same_events. }
  assert (Htok : has_token w params context h key token tes) by (unfold has_token; auto).
  flatten_events.
  pose proof (resolve_project_id_silent (param params "project_id") key
                (h ++ prologue params ++ tes)) as Hsilent.
  change (h ++ prologue params ++ tes) with (h ++ ev_start :: tl (prologue params) ++ tes) in Hsilent.
  simpl tl in Hsilent.
  destruct (Script.resolve_project_id w (param params "project_id") key _)
    as [[projectId|e] pes] eqn:Hproject;
    change (h ++ _) with (h ++ prologue params ++ tes) in Hproject;
    simpl in Hsilent; subst pes; simpl.
  2: { eapply path_as; [eapply path_no_project; eauto | |].
       - destruct e; reflexivity.
       - destruct e; same_events. }
  assert (Hproj : has_project w params context h key token tes projectId)
    by (unfold has_project; auto).
  destruct (stringifiable projectId) eqn:Sproject.
  2: { rewrite (template_throws [projectId]) by (simpl; rewrite Sproject; reflexivity).
       simpl.
       eapply path_as; [eapply path_project_unprintable; eauto | |]; same_events. }
  rewrite (template_converts [projectId]) by (simpl; rewrite Sproject; reflexivity).
  rewrite (template_converts [pool; subj]), (template_converts [subj; pool])
    by assumption.
  simpl.
  destruct (stringifiable token) eqn:Stoken.
  2: { rewrite (template_throws [token]) by (simpl; rewrite Stoken; reflexivity).
       simpl.
       eapply path_as; [eapply path_token_unprintable; eauto | |]; same_events. }
  rewrite (template_converts [token]) by (simpl; rewrite Stoken; reflexivity).
  simpl. flatten_events.
  destruct (fetch_oracle w _ (Script.delete_request token pool subj))
    as [r|msg] eqn:Hfetch;
    change (h ++ _)
      with (h ++ prologue params ++ tes ++ [ev_project projectId; ev_deleting params]) in Hfetch;
    simpl.
  2: { eapply path_as; [eapply path_transport; unfold reaches_delete; eauto | |];
         same_events. }
  assert (Hreach : reaches_delete w params context h key token tes projectId (Resolves r))
    by (unfold reaches_delete; auto).
  destruct (status r =? 404) eqn:H404; simpl.
  { apply Z.eqb_eq in H404.
    rewrite (template_converts [subj]) by assumption.
    simpl.
    eapply path_as; [eapply path_not_found; eauto | |]; same_events. }
  apply Z.eqb_neq in H404.
  destruct ((status r =? 429) || (500 <=? status r)) eqn:Hretry; simpl.
  { assert (Hs : status r = 429 \/ 500 <= status r)
      by (apply orb_true_iff in Hretry as [H|H]; [left; lia | right; lia]).
    assert (Hok : ok r = false) by (unfold ok; destruct Hs; lia).
    destruct (body_failure w r) as [msg|] eqn:Hbody; simpl.
    - eapply path_as; [eapply path_unreadable; eauto | |]; same_events.
    - eapply path_as; [eapply path_retryable; eauto | |]; same_events. }
  apply orb_false_iff in Hretry as [H429 H500].
  destruct (ok r) eqn:Hok; simpl.
  - rewrite (template_converts [subj]) by assumption.
    simpl.
    eapply path_as; [eapply path_deleted; eauto | |]; same_events.
  - destruct (body_failure w r) as [msg|] eqn:Hbody; simpl.
    + eapply path_as; [eapply path_unreadable; eauto | |]; same_events.
    + eapply path_as; [eapply path_fatal; eauto; lia | |]; same_events.
Qed.

End InvokePaths.

(** ** What a run of [invoke] tells about its HTTP exchanges *)

Section InvokeFacts.
Variable w : World.
Variable params : gmap string JSValue.
Variable context : Context.
Variable h : list Event.

Local Abbreviation pool := (param params "workforce_pool_id").
Local Abbreviation subj := (param params "subject_id").

(** The only request of [getAccessToken] is a POST to the token endpoint. *)
Lemma token_events_post (o : Outcome JSValue) (tes : list Event) req out :
  token_exchange o tes -> In (EvFetch req out) tes ->
  exists jwt, req = Script.token_request jwt.
Proof.
  intros X Hin. inversion X; subst; simpl in Hin;
    repeat match goal with
           | H : _ \/ _ |- _ => destruct H
           | H : False |- _ => destruct H
           | H : EvFetch _ _ = EvFetch _ _ |- _ => injection H as <- <-
           end; eauto.
Qed.

Lemma has_token_exchange key token tes :
  has_token w params context h key token tes -> token_exchange (Returns token) tes.
Proof.
  intros (_ & _ & _ & _ & E).
  pose proof (getAccessToken_exchange w key (h ++ prologue params)) as X.
  rewrite E in X. exact X.
Qed.

Ltac find_event :=
  repeat match goal with
         | H : In _ (_ ++ _) |- _ => apply in_app_or in H as [H|H]
         | H : In _ (_ :: _) |- _ => destruct H as [H|H]
         | H : In _ [] |- _ => destruct H
         | H : EvLog _ = EvFetch _ _ |- _ => discriminate H
         | H : EvError _ = EvFetch _ _ |- _ => discriminate H
         | H : ev_caught _ = EvFetch _ _ |- _ => discriminate H
         | H : EvFetch _ _ = EvFetch _ _ |- _ => injection H as <- <-
         end.

Ltac not_a_delete :=
  match goal with
  | X : token_exchange _ ?tes, H : In (EvFetch ?req _) ?tes,
    D : req_method ?req = DELETE |- _ =>
      destruct (token_events_post _ _ _ _ X H) as [? ->]; discriminate D
  end.

Lemma delete_response_verdict req r :
  In (EvFetch req (Resolves r)) (snd (Script.invoke w params context h)) ->
  req_method req = DELETE ->
  delete_verdict w params r (fst (Script.invoke w params context h)).
Proof.
  intros Hin Hdel.
  pose proof (invoke_paths w params context h) as Hpath.
  destruct (Script.invoke w params context h) as [o es]. simpl in *.
  inversion Hpath; subst; clear Hpath;
    try match goal with
        | H : reaches_delete _ _ _ _ _ _ _ _ _ |- _ =>
            pose proof (has_token_exchange _ _ _ (proj1 (proj1 H)))
        | H : has_project _ _ _ _ _ _ _ _ |- _ =>
            pose proof (has_token_exchange _ _ _ (proj1 H))
        | H : has_token _ _ _ _ _ _ _ |- _ =>
            pose proof (has_token_exchange _ _ _ H)
        end;
    try match goal with
        | H : Script.getAccessToken w ?key ?h' = (?o, ?tes) |- _ =>
            let X := fresh "X" in
            pose proof (getAccessToken_exchange w key h') as X;
            rewrite H in X; simpl in X
        end;
    unfold prologue, ev_start, ev_project, ev_deleting, ev_not_found,
      ev_deleted, ev_completed in Hin;
    find_event; try not_a_delete; try discriminate.
  - eapply verdict_not_found; eauto.
  - eapply verdict_unreadable; eauto.
  - apply verdict_retryable; auto.
  - apply verdict_fatal; auto.
  - eapply verdict_deleted; eauto.
Qed.

End InvokeFacts.

(** ** [getAccessToken] *)

Section TokenRuns.
Variable w : World.
Variable key : string.
Variable h : list Event.

Lemma getAccessToken_resolved (req : Request) (r : Response) :
  In (EvFetch req (Resolves r)) (snd (Script.getAccessToken w key h)) ->
  fst (Script.getAccessToken w key h) = token_of_response w r.
Proof.
  unfold token_of_response.
  unfold Script.getAccessToken, Script.getAccessToken_try,
    Script.getAccessToken_catch, response_json, response_text, parse_json,
    now_seconds, get_prop, sign, fetch.
  unfold_monad.
  run_all; intros Hin; simpl in Hin;
    repeat match goal with
           | H : _ \/ _ |- _ => destruct H
           | H : False |- _ => destruct H
           | H : EvFetch _ _ = EvFetch _ _ |- _ => injection H as <- <-
           end;
    try discriminate;
    repeat match goal with
           | H : negb (ok ?r) = true |- _ => apply negb_true_iff in H
           | H : negb (ok ?r) = false |- _ => apply negb_false_iff in H
           end;
    try congruence;
    repeat match goal with
           | H : ok ?r = _ |- context [ok ?r] => rewrite H
           | H : body_failure w ?r = _ |- context [body_failure w ?r] => rewrite H
           | H : JSON_parse w (body ?r) = _ |- context [JSON_parse w (body ?r)] =>
               rewrite H
           end;
    reflexivity.
Qed.

Lemma getAccessToken_rejected (req : Request) (msg : string) :
  In (EvFetch req (Rejects msg)) (snd (Script.getAccessToken w key h)) ->
  fst (Script.getAccessToken w key h)
  = Throws (FatalError ("Invalid service account key: " +:+ msg)).
Proof.
  intros Hin.
  pose proof (getAccessToken_exchange w key h) as X.
  destruct (Script.getAccessToken w key h) as [o es]. simpl in *.
  inversion X; subst; simpl in Hin;
    repeat match goal with
           | H : _ \/ _ |- _ => destruct H
           | H : False |- _ => destruct H
           | H : EvFetch _ _ = EvFetch _ _ |- _ => injection H as <- <-
           end;
    try discriminate; reflexivity.
Qed.

End TokenRuns.

(** * The claims *)

(** C7: when the token endpoint answers the exchange with a status
    outside 200-299, [getAccessToken] throws a [FatalError] (retryable =
    false): it carries the response text, or, when the body of the
    response cannot be read, the message of that failure.  Whatever
    happens, it never throws a [RetryableError]. *)
Theorem failed_token_exchange_is_fatal
    (w : World) (key : string) (h : list Event) (req : Request) (r : Response) :
  In (EvFetch req (Resolves r)) (snd (Script.getAccessToken w key h)) ->
  ok r = false ->
  (body_failure w r = None ->
     fst (Script.getAccessToken w key h)
     = Throws (FatalError ("Failed to get access token: " +:+ body r))) /\
  (forall msg, body_failure w r = Some msg ->
     fst (Script.getAccessToken w key h)
     = Throws (FatalError ("Invalid service account key: " +:+ msg))) /\
  (exists m, fst (Script.getAccessToken w key h) = Throws (FatalError m) /\
             retryable (FatalError m) = Some false) /\
  forall m, fst (Script.getAccessToken w key h) <> Throws (RetryableError m).
Proof.
  intros Hin Hok.
  rewrite (getAccessToken_resolved w key h req r Hin).
  unfold token_of_response. rewrite Hok.
  destruct (body_failure w r) as [msg|]; repeat split;
    try discriminate; try congruence; eauto.
Qed.

Lemma failed_token_exchange_is_fatal_witness :
  fst (Script.getAccessToken (TestDouble.world true 500 200)
         TestDouble.mockServiceAccountKey [])
  = Throws (FatalError "Failed to get access token: token-body") /\
  fst (Script.getAccessToken (TestDouble.broken_body_world 500 200 "token-body")
         TestDouble.mockServiceAccountKey [])
  = Throws (FatalError "Invalid service account key: terminated").
Proof.
  split.
  - refine (proj1 (failed_token_exchange_is_fatal
              (TestDouble.world true 500 200) TestDouble.mockServiceAccountKey []
              (Script.token_request "{}.{}.signature")
              {| status := 500; body := "token-body" |} _ _) _).
    + vm_compute. left. reflexivity.
    + reflexivity.
    + reflexivity.
  - refine (proj1 (proj2 (failed_token_exchange_is_fatal
              (TestDouble.broken_body_world 500 200 "token-body")
              TestDouble.mockServiceAccountKey []
              (Script.token_request "{}.{}.signature")
              {| status := 500; body := "token-body" |} _ _)) "terminated" _).
    + vm_compute. left. reflexivity.
    + reflexivity.
    + reflexivity.
Defined.

(** A delete response of 503 whose body cannot be read: the read fails
    before the [RetryableError] is built, and [invoke] throws a
    [FatalError], whose retryable is false. *)
Lemma unreadable_503_is_fatal :
  let run := Script.invoke (TestDouble.broken_body_world 200 503 "User not found")
               TestDouble.params TestDouble.mockContext [] in
  let r := {| status := 503; body := "User not found" |} in
  In (EvFetch (Script.delete_request (JStr "mock-access-token")
                 (JStr "test-pool-123") (JStr "user123@example.com"))
              (Resolves r)) (snd run) /\
  In (status r) [429; 502; 503; 504] /\
  fst run = Throws (FatalError "Unexpected error: terminated") /\
  ~ (exists e, fst run = Throws e /\ retryable e = Some true).
Proof.
  repeat split.
  - vm_compute. do 6 right. left. reflexivity.
  - simpl. lia.
  - intros (e & He & Hr). vm_compute in He. injection He as <-. discriminate.
Qed.

(** C3 (amended): when the delete request is answered with status 429,
    502, 503 or 504 and the body of the response can be read, the error
    [invoke] throws has retryable = true; when the body cannot be read,
    the error is a [FatalError] "Unexpected error: ..." carrying the
    message of the failed read, and its retryable is false.  When the
    request is answered with 400, 401 or 403, the error has
    retryable = false (whether the body can be read or not). *)
Theorem delete_status_classification
    (w : World) (params : gmap string JSValue) (context : Context)
    (h : list Event) (req : Request) (r : Response) :
  In (EvFetch req (Resolves r)) (snd (Script.invoke w params context h)) ->
  req_method req = DELETE ->
  (In (status r) [429; 502; 503; 504] ->
     (body_failure w r = None ->
        exists e, fst (Script.invoke w params context h) = Throws e /\
                  retryable e = Some true) /\
     (forall msg, body_failure w r = Some msg ->
        fst (Script.invoke w params context h)
          = Throws (FatalError ("Unexpected error: " +:+ msg)) /\
        retryable (FatalError ("Unexpected error: " +:+ msg)) = Some false)) /\
  (In (status r) [400; 401; 403] ->
     exists e, fst (Script.invoke w params context h) = Throws e /\
               retryable e = Some false).
Proof.
  intros Hin Hdel.
  pose proof (delete_response_verdict w params context h req r Hin Hdel) as V.
  destruct V as [ts H404 | msg Hn Hok Hb | Hn Hr Hb | Hn H429 H500 Hok Hb | ts Hok];
    unfold ok in *; split; intros Hs; simpl in Hs; try lia.
  - split; [congruence|]. intros msg' E. rewrite Hb in E. injection E as <-.
    split; reflexivity.
  - exists (unexpected msg). split; reflexivity.
  - split; [|congruence]. intros _. exists (api_error r). split; reflexivity.
  - exists (delete_failure r). split; reflexivity.
Qed.

Lemma delete_status_classification_witness :
  (exists e, fst (Script.invoke (TestDouble.world true 200 429)
                    TestDouble.params TestDouble.mockContext []) = Throws e /\
             retryable e = Some true) /\
  fst (Script.invoke (TestDouble.broken_body_world 200 503 "User not found")
         TestDouble.params TestDouble.mockContext [])
    = Throws (FatalError "Unexpected error: terminated") /\
  (exists e, fst (Script.invoke (TestDouble.world true 200 403)
                    TestDouble.params TestDouble.mockContext []) = Throws e /\
             retryable e = Some false).
Proof.
  split; [|split].
  - refine (proj1 (proj1 (delete_status_classification
              (TestDouble.world true 200 429) TestDouble.params
              TestDouble.mockContext []
              (Script.delete_request (JStr "mock-access-token")
                 (JStr "test-pool-123") (JStr "user123@example.com"))
              {| status := 429; body := "User not found" |} _ _) _) _).
    + vm_compute. do 6 right. left. reflexivity.
    + reflexivity.
    + simpl. lia.
    + reflexivity.
  - refine (proj1 (proj2 (proj1 (delete_status_classification
              (TestDouble.broken_body_world 200 503 "User not found")
              TestDouble.params TestDouble.mockContext []
              (Script.delete_request (JStr "mock-access-token")
                 (JStr "test-pool-123") (JStr "user123@example.com"))
              {| status := 503; body := "User not found" |} _ _) _)
            "terminated" _)).
    + vm_compute. do 6 right. left. reflexivity.
    + reflexivity.
    + simpl. lia.
    + reflexivity.
  - refine (proj2 (delete_status_classification
              (TestDouble.world true 200 403) TestDouble.params
              TestDouble.mockContext []
              (Script.delete_request (JStr "mock-access-token")
                 (JStr "test-pool-123") (JStr "user123@example.com"))
              {| status := 403; body := "User not found" |} _ _) _).
    + vm_compute. do 6 right. left. reflexivity.
    + reflexivity.
    + simpl. lia.
Defined.

(** A 404 answer in [src/script.mjs]: the success result has the four
    fields [status], [workforce_pool_id], [subject_id], [deleted_at] and no
    [alreadyDeleted] field. *)
Lemma script_404_result_has_no_alreadyDeleted :
  let run := Script.invoke (TestDouble.world true 200 404)
               TestDouble.params TestDouble.mockContext [] in
  In (EvFetch (Script.delete_request (JStr "mock-access-token")
                 (JStr "test-pool-123") (JStr "user123@example.com"))
              (Resolves {| status := 404; body := "User not found" |}))
     (snd run) /\
  exists fields,
    fst run = Returns (JObj fields) /\
    assoc "status" fields = JStr "success" /\
    has_field "alreadyDeleted" fields = false /\
    assoc "alreadyDeleted" fields <> JBool true.
Proof.
  split.
  - vm_compute. do 6 right. left. reflexivity.
  - eexists. split; [vm_compute; reflexivity|].
    repeat split; try reflexivity. vm_compute. discriminate.
Qed.

Lemma utils_invoke_404
    (w : World)
    (getBaseURL : gmap string JSValue -> Context -> string + string)
    (getAuthorizationHeader : Context -> M string)
    (params : gmap string JSValue) (context : Context) (h : list Event)
    (authHeader : string) (aes : list Event) (r : Response) :
  UtilsVariant.invalid_id (param params "subjectId") = false ->
  UtilsVariant.invalid_id (param params "workforcePoolId") = false ->
  getAuthorizationHeader context (h ++ [UtilsVariant.ev_starting params])
    = (Returns authHeader, aes) ->
  fetch_oracle w (h ++ UtilsVariant.ev_starting params :: aes)
    (UtilsVariant.delete_request
       (UtilsVariant.subject_url
          (UtilsVariant.base_url getBaseURL params context)
          (param params "workforcePoolId") (param params "subjectId"))
       authHeader) = Resolves r ->
  status r = 404 ->
  exists deletedAt,
    fst (UtilsVariant.invoke w getBaseURL getAuthorizationHeader params context h)
    = Returns (UtilsVariant.already_deleted_result (param params "subjectId")
                 (param params "workforcePoolId") deletedAt).
Proof.
  intros Hs Hp Hauth Hfetch H404.
  pose proof (valid_id_stringifiable _ Hs) as Ss.
  pose proof (valid_id_stringifiable _ Hp) as Sp.
  unfold UtilsVariant.invoke, UtilsVariant.deleteWorkforceUser, fetch, now_iso.
  unfold_monad. simpl.
  rewrite Ss, Sp, Hs, Hp. simpl. flatten_events. rewrite Hauth. simpl.
  flatten_events. rewrite Hfetch. simpl.
  assert (Hok : ok r = false) by (unfold ok; rewrite H404; reflexivity).
  rewrite Hok, H404. simpl. eexists. reflexivity.
Qed.

(** C1 (amended): a delete response of 404 makes [invoke] return a
    success result, and two invocations that both meet a 404 (whatever
    happened before each of them) return results of the same shape, equal
    up to the time stamp.  In [src/script.mjs] that result is
    [{status: "success", workforce_pool_id, subject_id, deleted_at}], with
    no [alreadyDeleted] field; in the variant built on
    [@sgnl-actions/utils] it is
    [{subjectId, workforcePoolId, deleted: true, alreadyDeleted: true,
    deletedAt}]. *)
Theorem not_found_is_success
    (w : World)
    (getBaseURL : gmap string JSValue -> Context -> string + string)
    (getAuthorizationHeader : Context -> M string)
    (params : gmap string JSValue) (context : Context) (h1 h2 : list Event) :
  (script_answered_404 w params context h1 ->
   script_answered_404 w params context h2 ->
   exists t1 t2,
     fst (Script.invoke w params context h1)
       = Returns (JObj [("status", JStr "success");
                        ("workforce_pool_id", param params "workforce_pool_id");
                        ("subject_id", param params "subject_id");
                        ("deleted_at", JStr t1)]) /\
     fst (Script.invoke w params context h2)
       = Returns (JObj [("status", JStr "success");
                        ("workforce_pool_id", param params "workforce_pool_id");
                        ("subject_id", param params "subject_id");
                        ("deleted_at", JStr t2)])) /\
  (utils_answered_404 w getBaseURL getAuthorizationHeader params context h1 ->
   utils_answered_404 w getBaseURL getAuthorizationHeader params context h2 ->
   exists t1 t2,
     fst (UtilsVariant.invoke w getBaseURL getAuthorizationHeader params context h1)
       = Returns (JObj [("subjectId", param params "subjectId");
                        ("workforcePoolId", param params "workforcePoolId");
                        ("deleted", JBool true);
                        ("alreadyDeleted", JBool true);
                        ("deletedAt", JStr t1)]) /\
     fst (UtilsVariant.invoke w getBaseURL getAuthorizationHeader params context h2)
       = Returns (JObj [("subjectId", param params "subjectId");
                        ("workforcePoolId", param params "workforcePoolId");
                        ("deleted", JBool true);
                        ("alreadyDeleted", JBool true);
                        ("deletedAt", JStr t2)])).
Proof.
  assert (script_run : forall h, script_answered_404 w params context h ->
            exists t, fst (Script.invoke w params context h)
                      = Returns (Script.success_result
                                   (param params "workforce_pool_id")
                                   (param params "subject_id") t)).
  { intros h (req & r & Hin & Hdel & H404).
    pose proof (delete_response_verdict w params context h req r Hin Hdel) as V.
    destruct V as [ts _ | msg Hn _ _ | Hn _ _ | Hn _ _ _ _ | ts Hok];
      eauto; contradiction. }
  assert (utils_run : forall h,
            utils_answered_404 w getBaseURL getAuthorizationHeader params context h ->
            exists t,
              fst (UtilsVariant.invoke w getBaseURL getAuthorizationHeader
                     params context h)
              = Returns (UtilsVariant.already_deleted_result
                           (param params "subjectId")
                           (param params "workforcePoolId") t)).
  { intros h (Hs & Hp & hdr & aes & r & Hauth & Hfetch & H404).
    eapply utils_invoke_404; eauto. }
  split; intros A1 A2.
  - destruct (script_run h1 A1) as [t1 E1], (script_run h2 A2) as [t2 E2].
    exists t1, t2. split; assumption.
  - destruct (utils_run h1 A1) as [t1 E1], (utils_run h2 A2) as [t2 E2].
    exists t1, t2. split; assumption.
Qed.

Lemma script_mock_answered_404 (h : list Event) :
  script_answered_404 (TestDouble.world true 200 404) TestDouble.params
    TestDouble.mockContext h.
Proof.
  exists (Script.delete_request (JStr "mock-access-token")
            (JStr "test-pool-123") (JStr "user123@example.com")),
         {| status := 404; body := "User not found" |}.
  split; [|split; reflexivity].
  vm_compute. do 6 right. left. reflexivity.
Defined.

Lemma utils_mock_answered_404 (h : list Event) :
  utils_answered_404 (TestDouble.world true 200 404) TestDouble.getBaseURL
    TestDouble.getAuthorizationHeader TestDouble.utils_params
    TestDouble.mockContext h.
Proof.
  split; [reflexivity|]. split; [reflexivity|].
  exists "Bearer mock-token", [], {| status := 404; body := "User not found" |}.
  repeat split; reflexivity.
Defined.

Lemma not_found_is_success_witness :
  (exists t1 t2,
     fst (Script.invoke (TestDouble.world true 200 404) TestDouble.params
            TestDouble.mockContext [])
       = Returns (JObj [("status", JStr "success");
                        ("workforce_pool_id", JStr "test-pool-123");
                        ("subject_id", JStr "user123@example.com");
                        ("deleted_at", JStr t1)]) /\
     fst (Script.invoke (TestDouble.world true 200 404) TestDouble.params
            TestDouble.mockContext [ev_start])
       = Returns (JObj [("status", JStr "success");
                        ("workforce_pool_id", JStr "test-pool-123");
                        ("subject_id", JStr "user123@example.com");
                        ("deleted_at", JStr t2)])) /\
  (exists t1 t2,
     fst (UtilsVariant.invoke (TestDouble.world true 200 404)
            TestDouble.getBaseURL TestDouble.getAuthorizationHeader
            TestDouble.utils_params TestDouble.mockContext [])
       = Returns (JObj [("subjectId", JStr "user123@example.com");
                        ("workforcePoolId", JStr "test-pool-123");
                        ("deleted", JBool true);
                        ("alreadyDeleted", JBool true);
                        ("deletedAt", JStr t1)]) /\
     fst (UtilsVariant.invoke (TestDouble.world true 200 404)
            TestDouble.getBaseURL TestDouble.getAuthorizationHeader
            TestDouble.utils_params TestDouble.mockContext [ev_start])
       = Returns (JObj [("subjectId", JStr "user123@example.com");
                        ("workforcePoolId", JStr "test-pool-123");
                        ("deleted", JBool true);
                        ("alreadyDeleted", JBool true);
                        ("deletedAt", JStr t2)])).
Proof.
  pose proof (not_found_is_success (TestDouble.world true 200 404)
                TestDouble.getBaseURL TestDouble.getAuthorizationHeader
                TestDouble.params TestDouble.mockContext [] [ev_start]) as [S _].
  pose proof (not_found_is_success (TestDouble.world true 200 404)
                TestDouble.getBaseURL TestDouble.getAuthorizationHeader
                TestDouble.utils_params TestDouble.mockContext [] [ev_start]) as [_ U].
  split.
  - exact (S (script_mock_answered_404 []) (script_mock_answered_404 [ev_start])).
  - exact (U (utils_mock_answered_404 []) (utils_mock_answered_404 [ev_start])).
Defined.

(** A delete response of 500 (not 2xx, not 404, none of 429, 502, 503,
    504): [invoke] throws a [RetryableError], whose retryable is true. *)
Lemma status_500_is_retryable :
  let run := Script.invoke (TestDouble.world true 200 500)
               TestDouble.params TestDouble.mockContext [] in
  let r := {| status := 500; body := "User not found" |} in
  In (EvFetch (Script.delete_request (JStr "mock-access-token")
                 (JStr "test-pool-123") (JStr "user123@example.com"))
              (Resolves r)) (snd run) /\
  ok r = false /\ status r <> 404 /\ ~ In (status r) [429; 502; 503; 504] /\
  fst run = Throws (RetryableError "Google Cloud API error (500): User not found") /\
  ~ (exists e, fst run = Throws e /\ retryable e = Some false).
Proof.
  repeat split.
  - vm_compute. do 6 right. left. reflexivity.
  - discriminate.
  - simpl. lia.
  - intros (e & He & Hr). vm_compute in He. injection He as <-. discriminate.
Qed.

(** C4 (amended): a delete response whose status is not 2xx and not 404
    is classified by one test when its body can be read: status 429 or
    any status from 500 up (500 and 501 included) gives a
    [RetryableError] (retryable = true); every other such status, that is
    one below 500 other than 429, gives a [FatalError] (retryable =
    false).  When the body of such a response cannot be read, the error
    is a [FatalError] "Unexpected error: ..." (retryable = false)
    whatever the status. *)
Theorem delete_failure_classification
    (w : World) (params : gmap string JSValue) (context : Context)
    (h : list Event) (req : Request) (r : Response) :
  In (EvFetch req (Resolves r)) (snd (Script.invoke w params context h)) ->
  req_method req = DELETE ->
  ok r = false ->
  status r <> 404 ->
  (body_failure w r = None ->
     (status r = 429 \/ 500 <= status r ->
        fst (Script.invoke w params context h) = Throws (api_error r) /\
        retryable (api_error r) = Some true) /\
     (status r <> 429 -> status r < 500 ->
        fst (Script.invoke w params context h) = Throws (delete_failure r) /\
        retryable (delete_failure r) = Some false)) /\
  (forall msg, body_failure w r = Some msg ->
     fst (Script.invoke w params context h)
       = Throws (FatalError ("Unexpected error: " +:+ msg)) /\
     retryable (FatalError ("Unexpected error: " +:+ msg)) = Some false).
Proof.
  intros Hin Hdel Hok H404.
  pose proof (delete_response_verdict w params context h req r Hin Hdel) as V.
  destruct V as [ts E | msg Hn _ Hb | Hn Hr Hb | Hn H429 H500 _ Hb | ts Hok'];
    try contradiction; try congruence.
  - split; [congruence|]. intros msg' E. rewrite Hb in E. injection E as <-.
    split; reflexivity.
  - split; [|congruence]. intros _.
    split; [intros _; split; reflexivity | intros; lia].
  - split; [|congruence]. intros _.
    split; [intros; lia | intros _ _; split; reflexivity].
Qed.

Lemma delete_failure_classification_witness :
  fst (Script.invoke (TestDouble.world true 200 501)
         TestDouble.params TestDouble.mockContext [])
    = Throws (RetryableError "Google Cloud API error (501): User not found") /\
  fst (Script.invoke (TestDouble.world true 200 403)
         TestDouble.params TestDouble.mockContext [])
    = Throws (FatalError "Failed to delete workforce user (403): User not found") /\
  fst (Script.invoke (TestDouble.broken_body_world 200 500 "User not found")
         TestDouble.params TestDouble.mockContext [])
    = Throws (FatalError "Unexpected error: terminated").
Proof.
  split; [|split].
  - refine (proj1 (proj1 (proj1 (delete_failure_classification
              (TestDouble.world true 200 501) TestDouble.params
              TestDouble.mockContext []
              (Script.delete_request (JStr "mock-access-token")
                 (JStr "test-pool-123") (JStr "user123@example.com"))
              {| status := 501; body := "User not found" |} _ _ _ _) _) _)).
    + vm_compute. do 6 right. left. reflexivity.
    + reflexivity.
    + reflexivity.
    + simpl. lia.
    + reflexivity.
    + simpl. lia.
  - refine (proj1 (proj2 (proj1 (delete_failure_classification
              (TestDouble.world true 200 403) TestDouble.params
              TestDouble.mockContext []
              (Script.delete_request (JStr "mock-access-token")
                 (JStr "test-pool-123") (JStr "user123@example.com"))
              {| status := 403; body := "User not found" |} _ _ _ _) _) _ _)).
    + vm_compute. do 6 right. left. reflexivity.
    + reflexivity.
    + reflexivity.
    + simpl. lia.
    + reflexivity.
    + simpl. lia.
    + simpl. lia.
  - refine (proj1 (proj2 (delete_failure_classification
              (TestDouble.broken_body_world 200 500 "User not found")
              TestDouble.params TestDouble.mockContext []
              (Script.delete_request (JStr "mock-access-token")
                 (JStr "test-pool-123") (JStr "user123@example.com"))
              {| status := 500; body := "User not found" |} _ _ _ _)
            "terminated" _)).
    + vm_compute. do 6 right. left. reflexivity.
    + reflexivity.
    + reflexivity.
    + simpl. lia.
    + reflexivity.
Defined.

(** ** Validation *)

Lemma unusable_invalid (params : gmap string JSValue) (field : string) :
  unusable params field <-> Script.invalid_input (param params field) = true.
Proof.
  unfold Script.invalid_input, param. split.
  - intros [Hm | v Hv Ht | s Hs Hw].
    + rewrite Hm. reflexivity.
    + rewrite Hv. simpl. destruct v; simpl in *; try reflexivity;
        try contradiction; rewrite ?orb_true_r; reflexivity.
    + rewrite Hs. simpl. rewrite trim_empty, Hw.
      rewrite !orb_true_r. reflexivity.
  - destruct (params !! field) as [v|] eqn:E; simpl.
    + intros H. destruct v; simpl in H;
        try (apply (id_not_a_string _ _ _ E); simpl; discriminate).
      apply (id_blank _ _ _ E). rewrite trim_empty in H.
      destruct s as [|c s]; [reflexivity|]. simpl in H. exact H.
    + intros _. apply id_missing. exact E.
Qed.

(** C2: when [workforce_pool_id] or [subject_id] is missing, not a
    string, empty or made of white space only, [invoke] throws a
    [FatalError] (retryable = false) naming the parameter, and the run
    performs no HTTP request at all: neither the token exchange nor the
    delete. *)
Theorem invalid_identifier_rejected_before_network
    (w : World) (params : gmap string JSValue) (context : Context)
    (h : list Event) :
  unusable params "workforce_pool_id" \/ unusable params "subject_id" ->
  exists field,
    unusable params field /\
    fst (Script.invoke w params context h)
      = Throws (FatalError ("Missing or invalid required parameter: " +:+ field)) /\
    retryable (FatalError ("Missing or invalid required parameter: " +:+ field))
      = Some false /\
    requests (snd (Script.invoke w params context h)) = [].
Proof.
  intros Hbad.
  assert (Hinv : Script.invalid_input (param params "workforce_pool_id") = true \/
                 Script.invalid_input (param params "subject_id") = true).
  { destruct Hbad as [H|H]; apply unusable_invalid in H; auto. }
  pose proof (invoke_paths w params context h) as Hpath.
  destruct (Script.invoke w params context h) as [o es]. simpl in *.
  inversion Hpath; subst; clear Hpath;
    try match goal with
        | H : reaches_delete _ _ _ _ _ _ _ _ _ |- _ => destruct H as [H _]
        end;
    try match goal with
        | H : has_project _ _ _ _ _ _ _ _ |- _ => destruct H as [H _]
        end;
    try match goal with
        | H : has_token _ _ _ _ _ _ _ |- _ => destruct H as (? & ? & _)
        end;
    try (destruct Hinv; congruence).
  - exists "workforce_pool_id". repeat split; try reflexivity.
    apply unusable_invalid. assumption.
  - exists "subject_id". repeat split; try reflexivity.
    apply unusable_invalid. assumption.
Qed.

Lemma invalid_identifier_rejected_before_network_witness :
  exists field,
    unusable {[ "workforce_pool_id" := JStr "test-pool-123" ]} field /\
    fst (Script.invoke (TestDouble.world true 200 200)
           {[ "workforce_pool_id" := JStr "test-pool-123" ]}
           TestDouble.mockContext [])
      = Throws (FatalError ("Missing or invalid required parameter: " +:+ field)) /\
    retryable (FatalError ("Missing or invalid required parameter: " +:+ field))
      = Some false /\
    requests (snd (Script.invoke (TestDouble.world true 200 200)
                     {[ "workforce_pool_id" := JStr "test-pool-123" ]}
                     TestDouble.mockContext [])) = [].
Proof.
  apply (invalid_identifier_rejected_before_network
           (TestDouble.world true 200 200)
           {[ "workforce_pool_id" := JStr "test-pool-123" ]}
           TestDouble.mockContext []).
  right. apply id_missing. reflexivity.
Defined.

(** ** The [error] and [halt] handlers *)

(** What the [error] handler does with an error object: its log line
    converts the two identifiers and the message to strings, and the
    result is built from the same values. *)
Lemma error_handler_run
    (params : gmap string JSValue) (context : Context) (h : list Event)
    (fields : list (string * JSValue)) :
  params !! "error" = Some (JObj fields) ->
  let pool := param params "workforce_pool_id" in
  let subj := param params "subject_id" in
  let message := assoc "message" fields in
  fst (Script.error params context h)
    = (if stringifiable pool && stringifiable subj && stringifiable message
       then Returns (Script.failed_result (truthy (assoc "retryable" fields))
                       message pool subj)
       else Throws conversion_error) /\
  (stringifiable pool && stringifiable subj && stringifiable message = false ->
     snd (Script.error params context h) = []) /\
  requests (snd (Script.error params context h)) = [].
Proof.
  intros Herr pool subj message.
  unfold Script.error, get_prop. fold pool subj.
  replace (param params "error") with (JObj fields)
    by (unfold param; rewrite Herr; reflexivity).
  fold message. unfold_monad. simpl.
  destruct (stringifiable pool), (stringifiable subj); simpl;
    try (repeat split; reflexivity).
  destruct (stringifiable message); simpl; try (repeat split; reflexivity).
  destruct (truthy (assoc "retryable" fields)); simpl;
    repeat split; try reflexivity; discriminate.
Qed.

(** C5: given the error object [{message, retryable}] and the
    identifiers, the [error] handler sends no HTTP request and returns
    [{status: "failed", retryable, error, workforce_pool_id, subject_id}]
    whose [retryable] is the one of the error it was given (true stays
    true, false stays false) and whose [error] is its message, unchanged.
    The handler first writes the identifiers and the message into a log
    line: should one of them be a value that cannot be converted to a
    string, the handler throws the TypeError of that conversion instead,
    having written and sent nothing. *)
Theorem error_handler_passes_classification_through
    (params : gmap string JSValue) (context : Context) (h : list Event)
    (fields : list (string * JSValue)) (b : bool) :
  params !! "error" = Some (JObj fields) ->
  assoc "retryable" fields = JBool b ->
  let pool := param params "workforce_pool_id" in
  let subj := param params "subject_id" in
  let message := assoc "message" fields in
  (stringifiable pool = true -> stringifiable subj = true ->
   stringifiable message = true ->
     fst (Script.error params context h)
     = Returns (JObj [("status", JStr "failed");
                      ("retryable", JBool b);
                      ("error", message);
                      ("workforce_pool_id", pool);
                      ("subject_id", subj)])) /\
  (stringifiable pool = false \/ stringifiable subj = false \/
   stringifiable message = false ->
     Script.error params context h = (Throws conversion_error, [])) /\
  requests (snd (Script.error params context h)) = [].
Proof.
  intros Herr Hretry pool subj message.
  destruct (error_handler_run params context h fields Herr) as (E & Hsilent & Hreq).
  fold pool subj message in E, Hsilent.
  split; [|split; [|exact Hreq]].
  - intros Sp Ss Sm. rewrite E, Sp, Ss, Sm, Hretry. destruct b; reflexivity.
  - intros Hbad.
    assert (Hall : stringifiable pool && stringifiable subj && stringifiable message
                   = false).
    { destruct Hbad as [H | [H | H]]; rewrite H;
        rewrite ?andb_false_r; reflexivity. }
    rewrite Hall in E. specialize (Hsilent Hall).
    destruct (Script.error params context h) as [o es]. simpl in *. congruence.
Qed.

Lemma error_handler_passes_classification_through_witness :
  let params : gmap string JSValue :=
    {[ "workforce_pool_id" := JStr "test-pool-123";
       "subject_id" := JStr "user123@example.com";
       "error" := JObj [("message", JStr "Rate limit exceeded");
                        ("retryable", JBool true)] ]} in
  fst (Script.error params TestDouble.mockContext [])
    = Returns (JObj [("status", JStr "failed");
                     ("retryable", JBool true);
                     ("error", JStr "Rate limit exceeded");
                     ("workforce_pool_id", JStr "test-pool-123");
                     ("subject_id", JStr "user123@example.com")]).
Proof.
  intros params.
  refine (proj1 (error_handler_passes_classification_through params
                   TestDouble.mockContext []
                   [("message", JStr "Rate limit exceeded");
                    ("retryable", JBool true)] true _ _) _ _ _).
  - reflexivity.
  - reflexivity.
  - reflexivity.
  - reflexivity.
  - reflexivity.
Defined.

(** What [halt] does: its log line converts the reason and the two
    identifiers to strings, and the result is built from the same
    values. *)
Lemma halt_run
    (w : World) (params : gmap string JSValue) (context : Context)
    (h : list Event) :
  let reason := param params "reason" in
  let pool := param params "workforce_pool_id" in
  let subj := param params "subject_id" in
  (forallb stringifiable [reason; pool; subj] = true ->
     exists halted_at,
       fst (Script.halt w params context h)
       = Returns (JObj [("status", JStr "halted");
                        ("workforce_pool_id", js_or pool (JStr "unknown"));
                        ("subject_id", js_or subj (JStr "unknown"));
                        ("reason", reason);
                        ("halted_at", JStr halted_at)])) /\
  (forallb stringifiable [reason; pool; subj] = false ->
     Script.halt w params context h = (Throws conversion_error, [])) /\
  requests (snd (Script.halt w params context h)) = [].
Proof.
  intros reason pool subj.
  unfold Script.halt, now_iso. fold reason pool subj. unfold_steps.
  split; [|split].
  - intros S. rewrite (template_converts _ _ S). simpl. eexists. reflexivity.
  - intros S. rewrite (template_throws _ _ S). reflexivity.
  - destruct (forallb stringifiable [reason; pool; subj]) eqn:S.
    + rewrite (template_converts _ _ S). reflexivity.
    + rewrite (template_throws _ _ S). reflexivity.
Qed.

(** A halt whose reason is an object with a [toString] property (JSON
    [{"reason": {"toString": 1}}]): the log line cannot be built, and
    [halt] throws. *)
Lemma halt_throws_on_unprintable_reason :
  let params : gmap string JSValue :=
    {[ "reason" := JObj [("toString", JNum 1)];
       "workforce_pool_id" := JStr "test-pool-123";
       "subject_id" := JStr "user123@example.com" ]} in
  Script.halt (TestDouble.world true 200 200) params TestDouble.mockContext []
  = (Throws (OtherError "Cannot convert object to primitive value" None), []) /\
  ~ (exists result,
       fst (Script.halt (TestDouble.world true 200 200) params
              TestDouble.mockContext []) = Returns result).
Proof.
  split.
  - vm_compute. reflexivity.
  - intros (result & E). vm_compute in E. discriminate E.
Qed.

(** C6 (amended): for every params object whose reason and identifiers
    can be converted to strings (they are absent, or strings, numbers,
    booleans, null, arrays of such values, or objects without a
    [toString] property of their own), [halt] returns, and its result is
    [{status: "halted", workforce_pool_id, subject_id, reason, halted_at}]
    in which an identifier that is absent from params is reported as
    ["unknown"] (and so is one that JavaScript treats as false).  For any
    other params object [halt] throws the TypeError of its log line.  In
    both cases it sends no HTTP request. *)
Theorem halt_acknowledges_printable_params
    (w : World) (params : gmap string JSValue) (context : Context)
    (h : list Event) :
  let reported field :=
    match params !! field with
    | None => JStr "unknown"
    | Some v => if truthy v then v else JStr "unknown"
    end in
  (stringifiable (param params "reason") = true ->
   stringifiable (param params "workforce_pool_id") = true ->
   stringifiable (param params "subject_id") = true ->
   exists halted_at,
     fst (Script.halt w params context h)
       = Returns (JObj [("status", JStr "halted");
                        ("workforce_pool_id", reported "workforce_pool_id");
                        ("subject_id", reported "subject_id");
                        ("reason", param params "reason");
                        ("halted_at", JStr halted_at)])) /\
  (stringifiable (param params "reason") = false \/
   stringifiable (param params "workforce_pool_id") = false \/
   stringifiable (param params "subject_id") = false ->
   Script.halt w params context h = (Throws conversion_error, [])) /\
  requests (snd (Script.halt w params context h)) = [].
Proof.
  intros reported.
  assert (Hrep : forall field,
            js_or (param params field) (JStr "unknown") = reported field).
  { intros field. unfold js_or, reported, param.
    destruct (params !! field); reflexivity. }
  destruct (halt_run w params context h) as (Hret & Hthrow & Hreq).
  split; [|split; [|exact Hreq]].
  - intros Sr Sp Ss. rewrite <- !Hrep. apply Hret.
    simpl. rewrite Sr, Sp, Ss. reflexivity.
  - intros Hbad. apply Hthrow. simpl.
    destruct Hbad as [H | [H | H]]; rewrite H; rewrite ?andb_false_r; reflexivity.
Qed.

Lemma halt_acknowledges_printable_params_witness :
  (exists halted_at,
     fst (Script.halt (TestDouble.world true 200 200)
            {[ "reason" := JStr "timeout";
               "subject_id" := JStr "user123@example.com" ]}
            TestDouble.mockContext [])
     = Returns (JObj [("status", JStr "halted");
                      ("workforce_pool_id", JStr "unknown");
                      ("subject_id", JStr "user123@example.com");
                      ("reason", JStr "timeout");
                      ("halted_at", JStr halted_at)])) /\
  Script.halt (TestDouble.world true 200 200)
    {[ "reason" := JObj [("toString", JNum 1)] ]} TestDouble.mockContext []
  = (Throws conversion_error, []).
Proof.
  split.
  - refine (proj1 (halt_acknowledges_printable_params
              (TestDouble.world true 200 200)
              {[ "reason" := JStr "timeout";
                 "subject_id" := JStr "user123@example.com" ]}
              TestDouble.mockContext []) _ _ _); reflexivity.
  - refine (proj1 (proj2 (halt_acknowledges_printable_params
              (TestDouble.world true 200 200)
              {[ "reason" := JObj [("toString", JNum 1)] ]}
              TestDouble.mockContext [])) _).
    left. reflexivity.
Defined.

(** The second halt test of tests/script.test.js: no identifiers at all. *)
Example halt_without_parameters :
  fst (Script.halt (TestDouble.world true 200 200)
         {[ "reason" := JStr "system_shutdown" ]} TestDouble.mockContext [])
  = Returns (JObj [("status", JStr "halted");
                   ("workforce_pool_id", JStr "unknown");
                   ("subject_id", JStr "unknown");
                   ("reason", JStr "system_shutdown");
                   ("halted_at", JStr "2023-11-14T22:13:20.000Z")]).
Proof. vm_compute. reflexivity. Qed.

(** ** Errors leaving [invoke] *)

(** [invoke] is its start line, its [try] block and, when that block
    throws, its [catch] clause. *)
Lemma invoke_after_try
    (w : World) (params : gmap string JSValue) (context : Context)
    (h : list Event) :
  Script.invoke w params context h
  = match Script.invoke_try w params context (h ++ [ev_start]) with
    | (Returns result, es) => (Returns result, ev_start :: es)
    | (Throws e, es) => (Throws (rethrown e), ev_start :: es ++ [ev_caught e])
    end.
Proof.
  unfold Script.invoke, Script.invoke_catch. unfold_steps. simpl.
  change (h ++ [EvLog "Starting Google Delete Workforce User action"])
    with (h ++ [ev_start]).
  destruct (Script.invoke_try w params context (h ++ [ev_start])) as [[v|e] es];
    simpl; [reflexivity|].
  destruct e; reflexivity.
Qed.

(** C10: an error that leaves [invoke] always has a boolean [retryable].
    A [RetryableError] thrown in the [try] block leaves unchanged, with
    retryable = true; a [FatalError] thrown there leaves unchanged, with
    retryable = false; any other error, which has no [retryable] at all,
    leaves as [FatalError ("Unexpected error: " + message)], whose
    retryable is false. *)
Theorem invoke_errors_are_classified
    (w : World) (params : gmap string JSValue) (context : Context)
    (h : list Event) :
  fst (Script.invoke w params context h)
    = match fst (Script.invoke_try w params context (h ++ [ev_start])) with
      | Returns result => Returns result
      | Throws (RetryableError m) => Throws (RetryableError m)
      | Throws (FatalError m) => Throws (FatalError m)
      | Throws (OtherError m _) => Throws (FatalError ("Unexpected error: " +:+ m))
      end
  /\ match fst (Script.invoke w params context h) with
     | Returns _ => True
     | Throws e => exists b : bool, retryable e = Some b
     end
  /\ (forall m,
        fst (Script.invoke_try w params context (h ++ [ev_start]))
          = Throws (RetryableError m) ->
        fst (Script.invoke w params context h) = Throws (RetryableError m) /\
        retryable (RetryableError m) = Some true)
  /\ (forall m,
        fst (Script.invoke_try w params context (h ++ [ev_start]))
          = Throws (FatalError m) ->
        fst (Script.invoke w params context h) = Throws (FatalError m) /\
        retryable (FatalError m) = Some false)
  /\ (forall m code,
        fst (Script.invoke_try w params context (h ++ [ev_start]))
          = Throws (OtherError m code) ->
        retryable (OtherError m code) = None /\
        exists e,
          fst (Script.invoke w params context h) = Throws e /\
          e = FatalError ("Unexpected error: " +:+ m) /\
          retryable e = Some false)
  /\ (forall e,
        fst (Script.invoke w params context h) = Throws e ->
        (exists m, e = RetryableError m /\ retryable e = Some true) \/
        (exists m, e = FatalError m /\ retryable e = Some false)).
Proof.
  assert (E : fst (Script.invoke w params context h)
              = match fst (Script.invoke_try w params context (h ++ [ev_start])) with
                | Returns result => Returns result
                | Throws (RetryableError m) => Throws (RetryableError m)
                | Throws (FatalError m) => Throws (FatalError m)
                | Throws (OtherError m _) =>
                    Throws (FatalError ("Unexpected error: " +:+ m))
                end).
  { rewrite invoke_after_try.
    destruct (Script.invoke_try w params context (h ++ [ev_start])) as [[v|e] es];
      simpl; [reflexivity|].
    destruct e; reflexivity. }
  split; [exact E|]. rewrite E.
  destruct (fst (Script.invoke_try w params context (h ++ [ev_start])))
    as [v|[m|m|m c]]; simpl;
    repeat split; eauto; intros; try discriminate;
    repeat match goal with
           | H : Throws _ = Throws _ |- _ => injection H as ?; subst
           end;
    eauto.
Qed.

Lemma invoke_errors_are_classified_witness :
  retryable (OtherError "fetch failed" None) = None /\
  exists e,
    fst (Script.invoke TestDouble.offline_world TestDouble.params
           TestDouble.mockContext []) = Throws e /\
    e = FatalError "Unexpected error: fetch failed" /\
    retryable e = Some false.
Proof.
  refine (proj1 (proj2 (proj2 (proj2 (proj2 (invoke_errors_are_classified
            TestDouble.offline_world TestDouble.params
            TestDouble.mockContext []))))) "fetch failed" None _).
  vm_compute. reflexivity.
Defined.

(** A transport failure of the delete call is no [RetryableError] or
    [FatalError] when it is thrown; it leaves [invoke] wrapped. *)
Example transport_failure_is_wrapped :
  fst (Script.invoke_try TestDouble.offline_world TestDouble.params
         TestDouble.mockContext [ev_start])
    = Throws (OtherError "fetch failed" None) /\
  fst (Script.invoke TestDouble.offline_world TestDouble.params
         TestDouble.mockContext [])
    = Throws (FatalError "Unexpected error: fetch failed").
Proof. split; vm_compute; reflexivity. Qed.

(** ** The sequence of HTTP requests *)

Lemma requests_app (es es' : list Event) :
  requests (es ++ es') = requests es ++ requests es'.
Proof.
  induction es as [|[line|line|req out] es IH]; simpl; auto.
  rewrite IH. reflexivity.
Qed.

Section RequestSequence.
Variable w : World.
Variable params : gmap string JSValue.
Variable context : Context.
Variable h : list Event.

Local Abbreviation pool := (param params "workforce_pool_id").
Local Abbreviation subj := (param params "subject_id").

Lemma token_exchange_requests (o : Outcome JSValue) (tes : list Event) :
  token_exchange o tes ->
  requests tes = [] \/ exists jwt, requests tes = [Script.token_request jwt].
Proof. intros X. inversion X; subst; simpl; eauto. Qed.

Lemma granted_token_requests (token : JSValue) (tes : list Event) :
  token_exchange (Returns token) tes ->
  exists jwt, requests tes = [Script.token_request jwt].
Proof. intros X. inversion X; subst; simpl; eauto. Qed.

Ltac use_token_facts :=
  repeat match goal with
         | H : reaches_delete _ _ _ _ _ _ _ _ _ |- _ => destruct H as (H & ? & ? & ?)
         | H : has_project _ _ _ _ _ _ _ _ |- _ => destruct H as (H & ?)
         | H : has_token _ _ _ _ _ _ _ |- _ =>
             pose proof (has_token_exchange _ _ _ _ _ _ _ H);
             destruct H as (? & ? & ? & ? & ?)
         end.

(** Two descriptions of the same run agree on the key, the token and the
    project id. *)
Ltac same_run :=
  repeat match goal with
         | H1 : secret context _ = Some ?k, H2 : secret context _ = Some ?k'
           |- _ => assert (k' = k) by congruence; subst k'; clear H2
         | H1 : Script.getAccessToken w ?k ?hh = _,
           H2 : Script.getAccessToken w ?k ?hh = _ |- _ =>
             rewrite H1 in H2; injection H2 as ? ?; subst
         | H1 : Script.resolve_project_id w ?p ?k ?hh = _,
           H2 : Script.resolve_project_id w ?p ?k ?hh = _ |- _ =>
             rewrite H1 in H2; try discriminate H2; injection H2 as ?; subst
         end.

(** With the token granted and the project id found, the run writes the
    project id to the console; when the token can be written into the
    Authorization header, it sends the token request and then the delete
    request. *)
Lemma run_with_project_id key token tes projectId :
  has_token w params context h key token tes ->
  Script.resolve_project_id w (param params "project_id") key
    (h ++ prologue params ++ tes) = (Returns projectId, []) ->
  stringifiable projectId = true ->
  In (ev_project projectId) (snd (Script.invoke w params context h)) /\
  (stringifiable token = true ->
   exists jwt,
     requests (snd (Script.invoke w params context h))
     = [Script.token_request jwt; Script.delete_request token pool subj]).
Proof.
  intros Htok Hres Sproject.
  pose proof (has_token_exchange _ _ _ _ _ _ _ Htok) as X.
  apply granted_token_requests in X as [jwt Hreq].
  destruct Htok as (Hp & Hs & Hsec & Hkey & Hget).
  pose proof (invoke_paths w params context h) as Hpath.
  destruct (Script.invoke w params context h) as [o es]. simpl in Hpath |- *.
  inversion Hpath; subst; clear Hpath; use_token_facts;
    try congruence;
    try match goal with
        | H : _ \/ _ |- _ => destruct H; congruence
        end;
    same_run; try congruence.
  all: split;
    [ apply in_or_app; right; apply in_or_app; right; left; reflexivity
    | intros Stoken; try congruence;
      exists jwt; rewrite !requests_app, Hreq; reflexivity ].
Qed.

(** With the token granted and a project id that cannot be written into
    the log line, the run ends after the token request. *)
Lemma run_with_unprintable_project_id key token tes projectId :
  has_token w params context h key token tes ->
  Script.resolve_project_id w (param params "project_id") key
    (h ++ prologue params ++ tes) = (Returns projectId, []) ->
  stringifiable projectId = false ->
  fst (Script.invoke w params context h) = Throws (unexpected conversion_message) /\
  exists jwt,
    requests (snd (Script.invoke w params context h)) = [Script.token_request jwt].
Proof.
  intros Htok Hres Sproject.
  pose proof (has_token_exchange _ _ _ _ _ _ _ Htok) as X.
  apply granted_token_requests in X as [jwt Hreq].
  destruct Htok as (Hp & Hs & Hsec & Hkey & Hget).
  pose proof (invoke_paths w params context h) as Hpath.
  destruct (Script.invoke w params context h) as [o es]. simpl in Hpath |- *.
  inversion Hpath; subst; clear Hpath; use_token_facts;
    try congruence;
    try match goal with
        | H : _ \/ _ |- _ => destruct H; congruence
        end;
    same_run; try congruence.
  split; [reflexivity|].
  exists jwt. rewrite !requests_app, Hreq. simpl. reflexivity.
Qed.

(** With the token granted and the project id found, a token that cannot
    be written into the Authorization header ends the run before the
    delete request is sent. *)
Lemma run_with_unprintable_token key token tes projectId :
  has_token w params context h key token tes ->
  Script.resolve_project_id w (param params "project_id") key
    (h ++ prologue params ++ tes) = (Returns projectId, []) ->
  stringifiable projectId = true ->
  stringifiable token = false ->
  fst (Script.invoke w params context h) = Throws (unexpected conversion_message) /\
  exists jwt,
    requests (snd (Script.invoke w params context h)) = [Script.token_request jwt].
Proof.
  intros Htok Hres Sproject Stoken.
  pose proof (has_token_exchange _ _ _ _ _ _ _ Htok) as X.
  apply granted_token_requests in X as [jwt Hreq].
  destruct Htok as (Hp & Hs & Hsec & Hkey & Hget).
  pose proof (invoke_paths w params context h) as Hpath.
  destruct (Script.invoke w params context h) as [o es]. simpl in Hpath |- *.
  inversion Hpath; subst; clear Hpath; use_token_facts;
    try congruence;
    try match goal with
        | H : _ \/ _ |- _ => destruct H; congruence
        end;
    same_run; try congruence.
  split; [reflexivity|].
  exists jwt. rewrite !requests_app, Hreq. simpl. reflexivity.
Qed.

(** With the token granted and no project id, the run ends after the
    token request. *)
Lemma run_without_project_id key token tes e :
  has_token w params context h key token tes ->
  Script.resolve_project_id w (param params "project_id") key
    (h ++ prologue params ++ tes) = (Throws e, []) ->
  fst (Script.invoke w params context h) = Throws (rethrown e) /\
  exists jwt,
    requests (snd (Script.invoke w params context h)) = [Script.token_request jwt].
Proof.
  intros Htok Hres.
  pose proof (has_token_exchange _ _ _ _ _ _ _ Htok) as X.
  apply granted_token_requests in X as [jwt Hreq].
  destruct Htok as (Hp & Hs & Hsec & Hkey & Hget).
  pose proof (invoke_paths w params context h) as Hpath.
  destruct (Script.invoke w params context h) as [o es]. simpl in Hpath |- *.
  inversion Hpath; subst; clear Hpath; use_token_facts;
    try congruence;
    try match goal with
        | H : _ \/ _ |- _ => destruct H; congruence
        end;
    same_run.
  split; [reflexivity|].
  exists jwt. rewrite !requests_app, Hreq. simpl. reflexivity.
Qed.

(** Whatever happens, the requests of a run are a prefix of: one token
    request, then one delete request. *)
Lemma request_sequence :
  let reqs := requests (snd (Script.invoke w params context h)) in
  reqs = [] \/
  (exists jwt, reqs = [Script.token_request jwt]) \/
  (exists jwt token,
     reqs = [Script.token_request jwt; Script.delete_request token pool subj]).
Proof.
  pose proof (invoke_paths w params context h) as Hpath.
  destruct (Script.invoke w params context h) as [o es]. simpl in Hpath |- *.
  inversion Hpath; subst; clear Hpath; use_token_facts;
    try match goal with
        | H : Script.getAccessToken w ?key ?h' = (?o, ?tes) |- _ =>
            let X := fresh "X" in
            pose proof (getAccessToken_exchange w key h') as X;
            rewrite H in X; simpl in X
        end;
    try match goal with
        | X : token_exchange (Returns _) _ |- _ =>
            apply granted_token_requests in X as [jwt Hreq]
        | X : token_exchange _ _ |- _ =>
            apply token_exchange_requests in X as [Hreq | [jwt Hreq]]
        end;
    rewrite ?requests_app, ?Hreq; simpl; eauto.
Qed.

End RequestSequence.

Lemma mock_has_token (with_project : bool) (delete_status : Z)
    (params : gmap string JSValue) :
  Script.invalid_input (param params "workforce_pool_id") = false ->
  Script.invalid_input (param params "subject_id") = false ->
  has_token (TestDouble.world with_project 200 delete_status) params
    TestDouble.mockContext [] TestDouble.mockServiceAccountKey
    (JStr "mock-access-token")
    [EvFetch (Script.token_request "{}.{}.signature")
       (Resolves {| status := 200; body := "token-body" |})].
Proof.
  intros Hp Hs. unfold has_token.
  split; [exact Hp|]. split; [exact Hs|]. split; [reflexivity|].
  split; [discriminate|].
  destruct with_project; reflexivity.
Defined.

(** Validation passes and the token is granted, but neither the
    parameters nor the key hold a project id: the run stops after the
    token request and sends no DELETE request. *)
Lemma token_granted_yet_no_delete :
  let w := TestDouble.world false 200 200 in
  let run := Script.invoke w TestDouble.params TestDouble.mockContext [] in
  fst (Script.validateInputs TestDouble.params [ev_start]) = Returns tt /\
  fst (Script.getAccessToken w TestDouble.mockServiceAccountKey
         (prologue TestDouble.params)) = Returns (JStr "mock-access-token") /\
  requests (snd run) = [Script.token_request "{}.{}.signature"] /\
  List.filter is_delete (requests (snd run)) = [] /\
  fst run = Throws missing_project.
Proof. repeat split; vm_compute; reflexivity. Qed.

(** C9 (amended): the HTTP requests of one run of [invoke] are a prefix
    of the sequence "one token request, one delete request": at most one
    DELETE is sent, nothing is sent twice, and the token request comes
    before the delete request.  Exactly one DELETE is sent when validation
    passes, the token is granted and a project id is found (in the
    parameters or in the key), both being values that can be written into
    a string, as the log line and the Authorization header require; when
    one of them cannot, no DELETE is sent. *)
Theorem single_delete_after_token
    (w : World) (params : gmap string JSValue) (context : Context)
    (h : list Event) :
  let reqs := requests (snd (Script.invoke w params context h)) in
  let pool := param params "workforce_pool_id" in
  let subj := param params "subject_id" in
  (reqs = [] \/
   (exists jwt, reqs = [Script.token_request jwt]) \/
   (exists jwt token,
      reqs = [Script.token_request jwt; Script.delete_request token pool subj])) /\
  (length (List.filter is_delete reqs) <= 1)%nat /\
  (forall key token tes projectId,
     has_token w params context h key token tes ->
     Script.resolve_project_id w (param params "project_id") key
       (h ++ prologue params ++ tes) = (Returns projectId, []) ->
     stringifiable projectId = true ->
     stringifiable token = true ->
     exists jwt,
       reqs = [Script.token_request jwt; Script.delete_request token pool subj] /\
       length (List.filter is_delete reqs) = 1%nat) /\
  (forall key token tes projectId,
     has_token w params context h key token tes ->
     Script.resolve_project_id w (param params "project_id") key
       (h ++ prologue params ++ tes) = (Returns projectId, []) ->
     stringifiable projectId = false \/ stringifiable token = false ->
     List.filter is_delete reqs = []).
Proof.
  intros reqs pool subj.
  pose proof (request_sequence w params context h) as Hseq. simpl in Hseq.
  fold reqs in Hseq.
  split; [exact Hseq|]. split; [|split].
  - destruct Hseq as [-> | [[jwt ->] | (jwt & token & ->)]]; simpl; lia.
  - intros key token tes projectId Htok Hres Sproject Stoken.
    destruct (run_with_project_id w params context h key token tes projectId
                Htok Hres Sproject) as [_ Hsent].
    destruct (Hsent Stoken) as [jwt Hreq].
    exists jwt. fold reqs in Hreq. rewrite Hreq. split; reflexivity.
  - intros key token tes projectId Htok Hres Hbad.
    destruct (stringifiable projectId) eqn:Sproject.
    + destruct Hbad as [Hbad | Stoken]; [discriminate|].
      destruct (run_with_unprintable_token w params context h key token tes
                  projectId Htok Hres Sproject Stoken) as [_ [jwt Hreq]].
      fold reqs in Hreq. rewrite Hreq. reflexivity.
    + destruct (run_with_unprintable_project_id w params context h key token tes
                  projectId Htok Hres Sproject) as [_ [jwt Hreq]].
      fold reqs in Hreq. rewrite Hreq. reflexivity.
Qed.

Lemma single_delete_after_token_witness :
  exists jwt,
    requests (snd (Script.invoke (TestDouble.world true 200 200)
                     TestDouble.params TestDouble.mockContext []))
    = [Script.token_request jwt;
       Script.delete_request (JStr "mock-access-token")
         (JStr "test-pool-123") (JStr "user123@example.com")] /\
    length (List.filter is_delete
              (requests (snd (Script.invoke (TestDouble.world true 200 200)
                                TestDouble.params TestDouble.mockContext []))))
    = 1%nat.
Proof.
  refine (proj1 (proj2 (proj2 (single_delete_after_token
            (TestDouble.world true 200 200) TestDouble.params
            TestDouble.mockContext [])))
          TestDouble.mockServiceAccountKey (JStr "mock-access-token")
          [EvFetch (Script.token_request "{}.{}.signature")
             (Resolves {| status := 200; body := "token-body" |})]
          (JStr "test-project-123") _ _ _ _).
  - apply mock_has_token; reflexivity.
  - reflexivity.
  - reflexivity.
  - reflexivity.
Defined.

(** ** The project id *)

(** A [project_id] parameter that is present but empty is not used: the
    project id comes from the key. *)
Lemma empty_project_id_is_replaced :
  let w := TestDouble.world true 200 200 in
  let params := <[ "project_id" := JStr "" ]> TestDouble.params in
  let run := Script.invoke w params TestDouble.mockContext [] in
  params !! "project_id" = Some (JStr "") /\
  fst (Script.resolve_project_id w (param params "project_id")
         TestDouble.mockServiceAccountKey []) = Returns (JStr "test-project-123") /\
  In (EvLog "Using project ID: test-project-123") (snd run) /\
  ~ In (EvLog "Using project ID: ") (snd run).
Proof.
  repeat split.
  - vm_compute. do 4 right. left. reflexivity.
  - vm_compute. intros H.
    repeat (destruct H as [H|H]; [discriminate H|]). exact H.
Qed.

(** C8 (amended): once the token is granted, [invoke] settles the project
    id as follows.  A [project_id] parameter that JavaScript treats as true
    (a non-empty string) is used unchanged.  When the parameter is absent,
    or is a value JavaScript treats as false such as the empty string, the
    project id is the [project_id] field of the parsed service-account key;
    and when that field is absent or false too, [invoke] throws a
    [FatalError] and sends no DELETE request.  The project id settled is
    written into a log line; should it be a value that cannot be converted
    to a string (no string is), [invoke] throws a [FatalError] there and
    sends no DELETE request either. *)
Theorem project_id_resolution
    (w : World) (params : gmap string JSValue) (context : Context)
    (h : list Event) (key : string) (token : JSValue) (tes : list Event)
    (fields : list (string * JSValue)) :
  has_token w params context h key token tes ->
  JSON_parse w (base64_decode w key) = inl (JObj fields) ->
  let run := Script.invoke w params context h in
  let given := param params "project_id" in
  let from_key := assoc "project_id" fields in
  let settled := if truthy given then given else from_key in
  (truthy given = true -> stringifiable given = true ->
     In (EvLog ("Using project ID: " +:+ to_string given)) (snd run)) /\
  (truthy given = false -> truthy from_key = true ->
   stringifiable from_key = true ->
     In (EvLog ("Using project ID: " +:+ to_string from_key)) (snd run)) /\
  (truthy given = false -> truthy from_key = false ->
     fst run = Throws (FatalError
       "Project ID not found in service account key and not provided in parameters") /\
     List.filter is_delete (requests (snd run)) = []) /\
  (truthy settled = true -> stringifiable settled = false ->
     fst run = Throws (FatalError
       "Unexpected error: Cannot convert object to primitive value") /\
     List.filter is_delete (requests (snd run)) = []).
Proof.
  intros Htok Hparse run given from_key settled.
  assert (Hres : forall h',
    Script.resolve_project_id w given key h'
    = if truthy given then (Returns given, [])
      else if truthy from_key then (Returns from_key, [])
      else (Throws missing_project, [])).
  { intros h'. unfold Script.resolve_project_id, parse_json, get_prop.
    unfold_monad. destruct (truthy given); [reflexivity|].
    rewrite Hparse. simpl. fold from_key.
    destruct (truthy from_key); reflexivity. }
  split; [|split; [|split]].
  - intros Hg Sg.
    refine (proj1 (run_with_project_id w params context h key token tes given
                     Htok _ Sg)).
    rewrite Hres, Hg. reflexivity.
  - intros Hg Hk Sk.
    refine (proj1 (run_with_project_id w params context h key token tes from_key
                     Htok _ Sk)).
    fold given. rewrite Hres, Hg, Hk. reflexivity.
  - intros Hg Hk.
    destruct (run_without_project_id w params context h key token tes
                missing_project Htok) as [E [jwt Hreq]].
    + fold given. rewrite Hres, Hg, Hk. reflexivity.
    + split; [exact E|]. fold run in Hreq. rewrite Hreq. reflexivity.
  - intros Ht Ss.
    destruct (run_with_unprintable_project_id w params context h key token tes
                settled Htok) as [E [jwt Hreq]].
    + fold given. rewrite Hres. unfold settled in *.
      destruct (truthy given); [reflexivity|]. rewrite Ht. reflexivity.
    + exact Ss.
    + split; [exact E|]. fold run in Hreq. rewrite Hreq. reflexivity.
Qed.

Lemma project_id_resolution_witness :
  In (EvLog "Using project ID: test-project-123")
     (snd (Script.invoke (TestDouble.world true 200 200) TestDouble.params
             TestDouble.mockContext [])) /\
  fst (Script.invoke (TestDouble.world false 200 200) TestDouble.params
         TestDouble.mockContext [])
  = Throws (FatalError
      "Project ID not found in service account key and not provided in parameters").
Proof.
  split.
  - refine (proj1 (proj2 (project_id_resolution
              (TestDouble.world true 200 200) TestDouble.params
              TestDouble.mockContext [] TestDouble.mockServiceAccountKey
              (JStr "mock-access-token")
              [EvFetch (Script.token_request "{}.{}.signature")
                 (Resolves {| status := 200; body := "token-body" |})]
              [("client_email", JStr "test@example-project.iam.gserviceaccount.com");
               ("private_key", JStr "MOCK_KEY");
               ("project_id", JStr "test-project-123")] _ _)) _ _ _).
    + apply mock_has_token; reflexivity.
    + reflexivity.
    + reflexivity.
    + reflexivity.
    + reflexivity.
  - refine (proj1 (proj1 (proj2 (proj2 (project_id_resolution
              (TestDouble.world false 200 200) TestDouble.params
              TestDouble.mockContext [] TestDouble.mockServiceAccountKey
              (JStr "mock-access-token")
              [EvFetch (Script.token_request "{}.{}.signature")
                 (Resolves {| status := 200; body := "token-body" |})]
              [("client_email", JStr "test@example-project.iam.gserviceaccount.com");
               ("private_key", JStr "MOCK_KEY")] _ _))) _ _)).
    + apply mock_has_token; reflexivity.
    + reflexivity.
    + reflexivity.
    + reflexivity.
Defined.

(** * Further properties of src/script.mjs *)

(** ** Validation and the secret *)

Lemma usable_valid (params : gmap string JSValue) (field : string) :
  ~ unusable params field <-> Script.invalid_input (param params field) = false.
Proof.
  rewrite unusable_invalid.
  destruct (Script.invalid_input (param params field)); split; congruence.
Qed.

(** X1: [validateInputs] checks [workforce_pool_id] first and
    [subject_id] second, throws for the first one that is missing, not a
    string or blank, and returns without any effect exactly when both can
    be used. *)
Theorem validateInputs_reports_first_unusable
    (params : gmap string JSValue) (h : list Event) :
  (unusable params "workforce_pool_id" ->
     Script.validateInputs params h
     = (Throws (FatalError
          "Missing or invalid required parameter: workforce_pool_id"), [])) /\
  (~ unusable params "workforce_pool_id" -> unusable params "subject_id" ->
     Script.validateInputs params h
     = (Throws (FatalError
          "Missing or invalid required parameter: subject_id"), [])) /\
  (~ unusable params "workforce_pool_id" -> ~ unusable params "subject_id" ->
     Script.validateInputs params h = (Returns tt, [])).
Proof.
  unfold Script.validateInputs, Script.check_required. unfold_monad.
  split; [|split].
  - intros Hp. apply unusable_invalid in Hp. rewrite Hp. reflexivity.
  - intros Hp Hs. apply usable_valid in Hp. apply unusable_invalid in Hs.
    rewrite Hp, Hs. reflexivity.
  - intros Hp Hs. apply usable_valid in Hp. apply usable_valid in Hs.
    rewrite Hp, Hs. reflexivity.
Qed.

Lemma mock_params_usable (field : string) :
  field = "workforce_pool_id" \/ field = "subject_id" ->
  ~ unusable TestDouble.params field.
Proof.
  intros [-> | ->]; apply usable_valid; reflexivity.
Defined.

Lemma validateInputs_reports_first_unusable_witness :
  Script.validateInputs
    {[ "workforce_pool_id" := JStr " "; "subject_id" := JNum 7 ]} []
  = (Throws (FatalError
       "Missing or invalid required parameter: workforce_pool_id"), []) /\
  Script.validateInputs
    {[ "workforce_pool_id" := JStr "test-pool-123"; "subject_id" := JNum 7 ]} []
  = (Throws (FatalError
       "Missing or invalid required parameter: subject_id"), []) /\
  Script.validateInputs TestDouble.params [] = (Returns tt, []).
Proof.
  split; [|split].
  - apply (proj1 (validateInputs_reports_first_unusable _ [])).
    apply (id_blank _ _ " "); reflexivity.
  - apply (proj1 (proj2 (validateInputs_reports_first_unusable _ []))).
    + apply usable_valid. reflexivity.
    + apply (id_not_a_string _ _ (JNum 7)); [reflexivity | discriminate].
  - apply (proj2 (proj2 (validateInputs_reports_first_unusable _ []))).
    + apply mock_params_usable. left. reflexivity.
    + apply mock_params_usable. right. reflexivity.
Defined.

Section ScriptRuns.
Variable w : World.
Variable params : gmap string JSValue.
Variable context : Context.
Variable h : list Event.

Local Abbreviation pool := (param params "workforce_pool_id").
Local Abbreviation subj := (param params "subject_id").

Ltac token_facts :=
  repeat match goal with
         | H : reaches_delete _ _ _ _ _ _ _ _ _ |- _ => destruct H as (H & ? & ? & ?)
         | H : has_project _ _ _ _ _ _ _ _ |- _ => destruct H as (H & ?)
         | H : has_token _ _ _ _ _ _ _ |- _ =>
             pose proof (has_token_exchange _ _ _ _ _ _ _ H);
             destruct H as (? & ? & ? & ? & ?)
         end.

(** What a run whose inputs are rejected, or whose secret is missing,
    looks like. *)
Lemma run_without_secret :
  Script.invalid_input pool = false ->
  Script.invalid_input subj = false ->
  secret context "service_account_key" = None \/
  secret context "service_account_key" = Some "" ->
  Script.invoke w params context h
  = (Throws missing_secret, prologue params ++ [ev_caught missing_secret]).
Proof.
  intros Hp Hs Hsec.
  pose proof (invoke_paths w params context h) as Hpath.
  destruct (Script.invoke w params context h) as [o es].
  simpl fst in *; simpl snd in *.
  inversion Hpath; subst; clear Hpath; token_facts;
    try congruence; try (destruct Hsec; congruence).
Qed.

Lemma resolve_project_id_throws (project_id : JSValue) (key : string)
    (h' : list Event) (e : Exn) (es : list Event) :
  Script.resolve_project_id w project_id key h' = (Throws e, es) ->
  e = missing_project \/ exists m c, e = OtherError m c.
Proof.
  unfold Script.resolve_project_id, parse_json, get_prop. unfold_monad.
  run_all; intros E; inversion E; subst; eauto.
Qed.

End ScriptRuns.

(** X2: when the identifiers are usable but the secret
    [service_account_key] is absent or empty (or there are no secrets at
    all), [invoke] throws the FatalError "Missing required secret:
    service_account_key" and performs no HTTP request. *)
Theorem missing_secret_stops_before_network
    (w : World) (params : gmap string JSValue) (context : Context)
    (h : list Event) :
  ~ unusable params "workforce_pool_id" ->
  ~ unusable params "subject_id" ->
  secret context "service_account_key" = None \/
  secret context "service_account_key" = Some "" ->
  fst (Script.invoke w params context h)
    = Throws (FatalError "Missing required secret: service_account_key") /\
  requests (snd (Script.invoke w params context h)) = [].
Proof.
  intros Hp Hs Hsec.
  apply usable_valid in Hp. apply usable_valid in Hs.
  rewrite (run_without_secret w params context h Hp Hs Hsec).
  split; reflexivity.
Qed.

Lemma missing_secret_stops_before_network_witness :
  fst (Script.invoke (TestDouble.world true 200 200) TestDouble.params
         {| secrets := None; environment := ∅ |} [])
    = Throws (FatalError "Missing required secret: service_account_key") /\
  requests (snd (Script.invoke (TestDouble.world true 200 200) TestDouble.params
                   {| secrets := None; environment := ∅ |} [])) = [].
Proof.
  apply missing_secret_stops_before_network.
  - apply mock_params_usable. left. reflexivity.
  - apply mock_params_usable. right. reflexivity.
  - left. reflexivity.
Defined.

(** ** What the outcome of [invoke] tells *)

Section ScriptOutcomes.
Variable w : World.
Variable params : gmap string JSValue.
Variable context : Context.
Variable h : list Event.

Local Abbreviation pool := (param params "workforce_pool_id").
Local Abbreviation subj := (param params "subject_id").

Ltac token_facts :=
  repeat match goal with
         | H : reaches_delete _ _ _ _ _ _ _ _ _ |- _ => destruct H as (H & ? & ? & ?)
         | H : has_project _ _ _ _ _ _ _ _ |- _ => destruct H as (H & ?)
         | H : has_token _ _ _ _ _ _ _ |- _ =>
             pose proof (has_token_exchange _ _ _ _ _ _ _ H);
             destruct H as (? & ? & ? & ? & ?)
         end.

(** A run that returns sent the token request and the delete request, and
    the delete request was answered 404 or 2xx. *)
Lemma returning_run (v : JSValue) :
  fst (Script.invoke w params context h) = Returns v ->
  exists jwt token r deleted_at,
    requests (snd (Script.invoke w params context h))
      = [Script.token_request jwt; Script.delete_request token pool subj] /\
    In (EvFetch (Script.delete_request token pool subj) (Resolves r))
       (snd (Script.invoke w params context h)) /\
    (status r = 404 \/ ok r = true) /\
    v = Script.success_result pool subj deleted_at.
Proof.
  intros Hret.
  pose proof (invoke_paths w params context h) as Hpath.
  destruct (Script.invoke w params context h) as [o es].
  simpl fst in *; simpl snd in *. subst o.
  inversion Hpath; subst; clear Hpath; token_facts;
    match goal with
    | X : token_exchange (Returns _) _ |- _ =>
        apply granted_token_requests in X as [jwt Hreq]
    end;
    exists jwt, token, r, deleted_at;
    (split; [rewrite !requests_app, Hreq; reflexivity|]);
    (split; [apply in_or_app; right; apply in_or_app; right;
             right; right; left; reflexivity|]);
    split; auto.
Qed.

(** A [RetryableError] can only come from an answered delete request. *)
Lemma retryable_run (m : string) :
  fst (Script.invoke w params context h) = Throws (RetryableError m) ->
  exists token r,
    In (EvFetch (Script.delete_request token pool subj) (Resolves r))
       (snd (Script.invoke w params context h)) /\
    (status r = 429 \/ 500 <= status r) /\
    RetryableError m = api_error r.
Proof.
  intros Hthrow.
  pose proof (invoke_paths w params context h) as Hpath.
  destruct (Script.invoke w params context h) as [o es].
  simpl fst in *; simpl snd in *. subst o.
  inversion Hpath; subst; clear Hpath; try discriminate.
  - match goal with
    | H : Script.resolve_project_id _ _ _ _ = (Throws _, _) |- _ =>
        apply resolve_project_id_throws in H as [-> | (m' & c & ->)]
    end; discriminate.
  - exists token, r. split; [|split; auto].
    apply in_or_app; right; apply in_or_app; right.
    right; right; left; reflexivity.
Qed.

End ScriptOutcomes.

Lemma assoc_absent (k : string) (fields : list (string * JSValue)) :
  has_field k fields = false -> assoc k fields = JUndefined.
Proof.
  induction fields as [|[k' v] fields IH]; simpl; [reflexivity|].
  destruct (String.eqb k k'); simpl; [discriminate | exact IH].
Qed.

(** X3: [getAccessToken] performs at most one effect: a single POST to
    https://oauth2.googleapis.com/token carrying the jwt-bearer grant type
    and the assertion.  It writes nothing to the console and sends no
    other request. *)
Theorem token_request_is_the_only_effect
    (w : World) (key : string) (h : list Event) :
  snd (Script.getAccessToken w key h) = [] \/
  exists assertion out,
    snd (Script.getAccessToken w key h)
    = [EvFetch
         {| req_url := "https://oauth2.googleapis.com/token";
            req_method := POST;
            req_headers := [("Content-Type", "application/x-www-form-urlencoded")];
            req_body := [("grant_type", "urn:ietf:params:oauth:grant-type:jwt-bearer");
                         ("assertion", assertion)] |}
         out].
Proof.
  pose proof (getAccessToken_exchange w key h) as X.
  destruct (Script.getAccessToken w key h) as [o es]. simpl in *.
  inversion X; subst; eauto.
Qed.

(** X4: a secret that does not decode to JSON, or whose private key the
    signer refuses, makes [getAccessToken] throw the FatalError "Invalid
    service account key: ..." with the message of the underlying error,
    before any request is sent. *)
Theorem unusable_key_is_fatal_without_request
    (w : World) (key : string) (h : list Event) (msg : string) :
  (JSON_parse w (base64_decode w key) = inr msg ->
     Script.getAccessToken w key h
     = (Throws (FatalError ("Invalid service account key: " +:+ msg)), [])) /\
  (forall fields,
     JSON_parse w (base64_decode w key) = inl (JObj fields) ->
     (forall input,
        rsa_sha256_sign w input (assoc "private_key" fields) = inr msg) ->
     Script.getAccessToken w key h
     = (Throws (FatalError ("Invalid service account key: " +:+ msg)), [])).
Proof.
  unfold Script.getAccessToken, Script.getAccessToken_try,
    Script.getAccessToken_catch, parse_json, now_seconds, get_prop, sign, fetch.
  unfold_monad. split.
  - intros Hparse. rewrite Hparse. reflexivity.
  - intros fields Hparse Hsign. rewrite Hparse. simpl. rewrite Hsign. reflexivity.
Qed.

Lemma unusable_key_is_fatal_without_request_witness :
  Script.getAccessToken TestDouble.garbled_key_world
    TestDouble.mockServiceAccountKey []
  = (Throws (FatalError "Invalid service account key: Unexpected token"), []) /\
  Script.getAccessToken TestDouble.unsigned_world
    TestDouble.mockServiceAccountKey []
  = (Throws (FatalError "Invalid service account key: unsupported key"), []).
Proof.
  split.
  - apply (proj1 (unusable_key_is_fatal_without_request
                    TestDouble.garbled_key_world
                    TestDouble.mockServiceAccountKey [] "Unexpected token")).
    reflexivity.
  - apply (proj2 (unusable_key_is_fatal_without_request
                    TestDouble.unsigned_world
                    TestDouble.mockServiceAccountKey [] "unsupported key")
             [("client_email", JStr "test@example-project.iam.gserviceaccount.com");
              ("private_key", JStr "MOCK_KEY");
              ("project_id", JStr "test-project-123")]).
    + reflexivity.
    + intros input. reflexivity.
Defined.

(** X5: when the token endpoint answers 2xx with a JSON object,
    [getAccessToken] returns the [access_token] field of that object as it
    is; when the object has no such field it returns [undefined] rather
    than failing.  (A 2xx answer whose body cannot be read is no JSON
    object: the failed read is reported as an invalid key.) *)
Theorem granted_token_is_access_token_field
    (w : World) (key : string) (h : list Event) (req : Request) (r : Response)
    (fields : list (string * JSValue)) :
  In (EvFetch req (Resolves r)) (snd (Script.getAccessToken w key h)) ->
  ok r = true ->
  JSON_parse w (body r) = inl (JObj fields) ->
  (body_failure w r = None ->
     fst (Script.getAccessToken w key h) = Returns (assoc "access_token" fields) /\
     (has_field "access_token" fields = false ->
        fst (Script.getAccessToken w key h) = Returns JUndefined)) /\
  (forall msg, body_failure w r = Some msg ->
     fst (Script.getAccessToken w key h)
     = Throws (FatalError ("Invalid service account key: " +:+ msg))).
Proof.
  intros Hin Hok Hparse.
  rewrite (getAccessToken_resolved w key h req r Hin).
  unfold token_of_response. rewrite Hok, Hparse.
  destruct (body_failure w r) as [msg|]; split; try discriminate.
  - intros msg' [= <-]. reflexivity.
  - intros _. split; [reflexivity|].
    intros Habsent. rewrite (assoc_absent _ _ Habsent). reflexivity.
Qed.

Lemma granted_token_is_access_token_field_witness :
  fst (Script.getAccessToken (TestDouble.world true 200 200)
         TestDouble.mockServiceAccountKey [])
  = Returns (JStr "mock-access-token") /\
  fst (Script.getAccessToken TestDouble.empty_token_world
         TestDouble.mockServiceAccountKey [])
  = Returns JUndefined.
Proof.
  split.
  - refine (proj1 (proj1 (granted_token_is_access_token_field
              (TestDouble.world true 200 200) TestDouble.mockServiceAccountKey []
              (Script.token_request "{}.{}.signature")
              {| status := 200; body := "token-body" |}
              [("access_token", JStr "mock-access-token")] _ _ _) _)).
    + vm_compute. left. reflexivity.
    + reflexivity.
    + reflexivity.
    + reflexivity.
  - refine (proj2 (proj1 (granted_token_is_access_token_field
              TestDouble.empty_token_world TestDouble.mockServiceAccountKey []
              (Script.token_request "{}.{}.signature")
              {| status := 200; body := "token-body" |} [] _ _ _) _) _).
    + vm_compute. left. reflexivity.
    + reflexivity.
    + reflexivity.
    + reflexivity.
    + reflexivity.
Defined.

(** X6: a token exchange that fails for a reason unrelated to the key is
    still reported as "Invalid service account key: ...": so it is when
    the connection fails, when a 2xx answer is not JSON, and when the body
    of an answer cannot be read.  In all cases the error is a
    FatalError. *)
Theorem unreadable_token_answer_blames_key
    (w : World) (key : string) (h : list Event) (req : Request)
    (msg : string) :
  (In (EvFetch req (Rejects msg)) (snd (Script.getAccessToken w key h)) ->
     fst (Script.getAccessToken w key h)
     = Throws (FatalError ("Invalid service account key: " +:+ msg))) /\
  (forall r,
     In (EvFetch req (Resolves r)) (snd (Script.getAccessToken w key h)) ->
     ok r = true ->
     body_failure w r = None ->
     JSON_parse w (body r) = inr msg ->
     fst (Script.getAccessToken w key h)
     = Throws (FatalError ("Invalid service account key: " +:+ msg))) /\
  (forall r,
     In (EvFetch req (Resolves r)) (snd (Script.getAccessToken w key h)) ->
     body_failure w r = Some msg ->
     fst (Script.getAccessToken w key h)
     = Throws (FatalError ("Invalid service account key: " +:+ msg))).
Proof.
  split; [|split].
  - apply getAccessToken_rejected.
  - intros r Hin Hok Hbody Hparse.
    rewrite (getAccessToken_resolved w key h req r Hin).
    unfold token_of_response. rewrite Hok, Hbody, Hparse. reflexivity.
  - intros r Hin Hbody.
    rewrite (getAccessToken_resolved w key h req r Hin).
    unfold token_of_response. rewrite Hbody. reflexivity.
Qed.

Lemma unreadable_token_answer_blames_key_witness :
  fst (Script.getAccessToken TestDouble.no_token_endpoint_world
         TestDouble.mockServiceAccountKey [])
  = Throws (FatalError "Invalid service account key: fetch failed") /\
  fst (Script.getAccessToken TestDouble.not_json_token_world
         TestDouble.mockServiceAccountKey [])
  = Throws (FatalError "Invalid service account key: Unexpected token") /\
  fst (Script.getAccessToken (TestDouble.broken_body_world 200 200 "token-body")
         TestDouble.mockServiceAccountKey [])
  = Throws (FatalError "Invalid service account key: terminated").
Proof.
  split; [|split].
  - refine (proj1 (unreadable_token_answer_blames_key
              TestDouble.no_token_endpoint_world
              TestDouble.mockServiceAccountKey []
              (Script.token_request "{}.{}.signature") "fetch failed") _).
    vm_compute. left. reflexivity.
  - refine (proj1 (proj2 (unreadable_token_answer_blames_key
              TestDouble.not_json_token_world
              TestDouble.mockServiceAccountKey []
              (Script.token_request "{}.{}.signature") "Unexpected token"))
            {| status := 200; body := "token-body" |} _ _ _ _).
    + vm_compute. left. reflexivity.
    + reflexivity.
    + reflexivity.
    + reflexivity.
  - refine (proj2 (proj2 (unreadable_token_answer_blames_key
              (TestDouble.broken_body_world 200 200 "token-body")
              TestDouble.mockServiceAccountKey []
              (Script.token_request "{}.{}.signature") "terminated"))
            {| status := 200; body := "token-body" |} _ _).
    + vm_compute. left. reflexivity.
    + reflexivity.
Defined.

(** ** Outcomes of [invoke] *)

(** X7: [invoke] returns only after the delete request has been answered
    with 404 or with a 2xx status: a run that returns sent exactly the
    token request and then the delete request, and its result is
    [{status: "success", workforce_pool_id, subject_id, deleted_at}] with
    the identifiers of params. *)
Theorem success_requires_answered_delete
    (w : World) (params : gmap string JSValue) (context : Context)
    (h : list Event) (v : JSValue) :
  fst (Script.invoke w params context h) = Returns v ->
  exists jwt token r deleted_at,
    requests (snd (Script.invoke w params context h))
      = [Script.token_request jwt;
         Script.delete_request token (param params "workforce_pool_id")
           (param params "subject_id")] /\
    In (EvFetch (Script.delete_request token (param params "workforce_pool_id")
                   (param params "subject_id")) (Resolves r))
       (snd (Script.invoke w params context h)) /\
    (status r = 404 \/ ok r = true) /\
    v = JObj [("status", JStr "success");
              ("workforce_pool_id", param params "workforce_pool_id");
              ("subject_id", param params "subject_id");
              ("deleted_at", JStr deleted_at)].
Proof. apply returning_run. Qed.

Lemma success_requires_answered_delete_witness :
  exists jwt token r deleted_at,
    requests (snd (Script.invoke (TestDouble.world true 200 200)
                     TestDouble.params TestDouble.mockContext []))
      = [Script.token_request jwt;
         Script.delete_request token (JStr "test-pool-123")
           (JStr "user123@example.com")] /\
    In (EvFetch (Script.delete_request token (JStr "test-pool-123")
                   (JStr "user123@example.com")) (Resolves r))
       (snd (Script.invoke (TestDouble.world true 200 200)
               TestDouble.params TestDouble.mockContext [])) /\
    (status r = 404 \/ ok r = true) /\
    JObj [("status", JStr "success");
          ("workforce_pool_id", JStr "test-pool-123");
          ("subject_id", JStr "user123@example.com");
          ("deleted_at", JStr "2023-11-14T22:13:20.000Z")]
    = JObj [("status", JStr "success");
            ("workforce_pool_id", JStr "test-pool-123");
            ("subject_id", JStr "user123@example.com");
            ("deleted_at", JStr deleted_at)].
Proof.
  apply (success_requires_answered_delete (TestDouble.world true 200 200)
           TestDouble.params TestDouble.mockContext []).
  vm_compute. reflexivity.
Defined.

(** X8: when the delete request is answered with a 2xx status, [invoke]
    returns [{status: "success", workforce_pool_id, subject_id,
    deleted_at}] with the identifiers of params. *)
Theorem delete_2xx_returns_success
    (w : World) (params : gmap string JSValue) (context : Context)
    (h : list Event) (req : Request) (r : Response) :
  In (EvFetch req (Resolves r)) (snd (Script.invoke w params context h)) ->
  req_method req = DELETE ->
  ok r = true ->
  exists deleted_at,
    fst (Script.invoke w params context h)
    = Returns (JObj [("status", JStr "success");
                     ("workforce_pool_id", param params "workforce_pool_id");
                     ("subject_id", param params "subject_id");
                     ("deleted_at", JStr deleted_at)]).
Proof.
  intros Hin Hdel Hok.
  pose proof (delete_response_verdict w params context h req r Hin Hdel) as V.
  destruct V as [ts H404 | msg Hn Hok' _ | Hn Hr _ | Hn H429 H500 Hok' _ | ts _];
    unfold ok in *; try lia; try congruence; eauto.
Qed.

Lemma delete_2xx_returns_success_witness :
  exists deleted_at,
    fst (Script.invoke (TestDouble.world true 200 204)
           TestDouble.params TestDouble.mockContext [])
    = Returns (JObj [("status", JStr "success");
                     ("workforce_pool_id", JStr "test-pool-123");
                     ("subject_id", JStr "user123@example.com");
                     ("deleted_at", JStr deleted_at)]).
Proof.
  refine (delete_2xx_returns_success
            (TestDouble.world true 200 204) TestDouble.params
            TestDouble.mockContext []
            (Script.delete_request (JStr "mock-access-token")
               (JStr "test-pool-123") (JStr "user123@example.com"))
            {| status := 204; body := "User not found" |} _ _ _).
  - vm_compute. do 6 right. left. reflexivity.
  - reflexivity.
  - reflexivity.
Defined.

(** X9: a [RetryableError] leaves [invoke] only when the delete request
    was answered with status 429 or a status from 500 up; validation,
    the secret, the token exchange, the project id and transport failures
    never produce one. *)
Theorem retryable_only_from_delete_response
    (w : World) (params : gmap string JSValue) (context : Context)
    (h : list Event) (m : string) :
  fst (Script.invoke w params context h) = Throws (RetryableError m) ->
  exists req r,
    In (EvFetch req (Resolves r)) (snd (Script.invoke w params context h)) /\
    req_method req = DELETE /\
    (status r = 429 \/ 500 <= status r) /\
    m = "Google Cloud API error (" +:+ number_to_string (status r) +:+
        "): " +:+ body r.
Proof.
  intros Hthrow.
  destruct (retryable_run w params context h m Hthrow)
    as (token & r & Hin & Hs & Hm).
  exists (Script.delete_request token (param params "workforce_pool_id")
            (param params "subject_id")), r.
  split; [exact Hin|]. split; [reflexivity|]. split; [exact Hs|].
  injection Hm as ->. reflexivity.
Qed.

Lemma retryable_only_from_delete_response_witness :
  exists req r,
    In (EvFetch req (Resolves r))
       (snd (Script.invoke (TestDouble.world true 200 503)
               TestDouble.params TestDouble.mockContext [])) /\
    req_method req = DELETE /\
    (status r = 429 \/ 500 <= status r) /\
    "Google Cloud API error (503): User not found"
    = "Google Cloud API error (" +:+ number_to_string (status r) +:+
      "): " +:+ body r.
Proof.
  apply (retryable_only_from_delete_response (TestDouble.world true 200 503)
           TestDouble.params TestDouble.mockContext []).
  vm_compute. reflexivity.
Defined.

(** X10: whenever [invoke] throws, an error was thrown in its [try]
    block, and the last thing [invoke] did was to write "Error deleting
    workforce user: " followed by the message of that error to the error
    console.  When the error caught is a RetryableError or a FatalError,
    [invoke] throws it unchanged; when it is any other error, [invoke]
    throws the FatalError "Unexpected error: " followed by its message. *)
Theorem failure_is_logged_last
    (w : World) (params : gmap string JSValue) (context : Context)
    (h : list Event) (e : Exn) :
  fst (Script.invoke w params context h) = Throws e ->
  exists caught,
    fst (Script.invoke_try w params context (h ++ [ev_start])) = Throws caught /\
    last (snd (Script.invoke w params context h))
      = Some (EvError ("Error deleting workforce user: " +:+ exn_message caught)) /\
    match caught with
    | RetryableError _ | FatalError _ => e = caught
    | OtherError m _ => e = FatalError ("Unexpected error: " +:+ m)
    end.
Proof.
  rewrite invoke_after_try.
  destruct (Script.invoke_try w params context (h ++ [ev_start])) as [[v|caught] es];
    simpl; [discriminate|].
  intros [= <-]. exists caught. split; [reflexivity|]. split.
  - change (ev_start :: es ++ [ev_caught caught])
      with ((ev_start :: es) ++ [ev_caught caught]).
    apply last_snoc.
  - destruct caught; reflexivity.
Qed.

Lemma failure_is_logged_last_witness :
  exists caught,
    fst (Script.invoke_try TestDouble.offline_world TestDouble.params
           TestDouble.mockContext ([] ++ [ev_start])) = Throws caught /\
    last (snd (Script.invoke TestDouble.offline_world TestDouble.params
                 TestDouble.mockContext []))
      = Some (EvError ("Error deleting workforce user: " +:+ exn_message caught)) /\
    match caught with
    | RetryableError _ | FatalError _ =>
        FatalError "Unexpected error: fetch failed" = caught
    | OtherError m _ =>
        FatalError "Unexpected error: fetch failed"
        = FatalError ("Unexpected error: " +:+ m)
    end.
Proof.
  apply (failure_is_logged_last TestDouble.offline_world TestDouble.params
           TestDouble.mockContext []).
  vm_compute. reflexivity.
Defined.

(** ** What the delete request carries *)

Section DeleteRequest.
Variable w : World.
Variable params : gmap string JSValue.
Variable context : Context.
Variable h : list Event.

Local Abbreviation pool := (param params "workforce_pool_id").
Local Abbreviation subj := (param params "subject_id").

Ltac token_facts :=
  repeat match goal with
         | H : reaches_delete _ _ _ _ _ _ _ _ _ |- _ => destruct H as (H & ? & ? & ?)
         | H : has_project _ _ _ _ _ _ _ _ |- _ => destruct H as (H & ?)
         | H : has_token _ _ _ _ _ _ _ |- _ =>
             pose proof (has_token_exchange _ _ _ _ _ _ _ H);
             destruct H as (? & ? & ? & ? & ?)
         end.

Ltac find_event :=
  repeat match goal with
         | H : In _ (_ ++ _) |- _ => apply in_app_or in H as [H|H]
         | H : In _ (_ :: _) |- _ => destruct H as [H|H]
         | H : In _ [] |- _ => destruct H
         | H : EvLog _ = EvFetch _ _ |- _ => discriminate H
         | H : EvError _ = EvFetch _ _ |- _ => discriminate H
         | H : ev_caught _ = EvFetch _ _ |- _ => discriminate H
         | H : EvFetch _ _ = EvFetch _ _ |- _ => injection H as <- <-
         end.

(** The events of a run that sent a DELETE request: the token exchange
    that returned the token, then the delete request built from it. *)
Lemma delete_in_run (dreq : Request) (out : FetchOutcome) :
  In (EvFetch dreq out) (snd (Script.invoke w params context h)) ->
  req_method dreq = DELETE ->
  exists key token tes,
    Script.getAccessToken w key (h ++ prologue params) = (Returns token, tes) /\
    dreq = Script.delete_request token pool subj /\
    forall treq tout,
      In (EvFetch treq tout) (snd (Script.invoke w params context h)) ->
      req_method treq = POST ->
      In (EvFetch treq tout) tes.
Proof.
  intros Hin Hdel.
  pose proof (invoke_paths w params context h) as Hpath.
  destruct (Script.invoke w params context h) as [o es].
  simpl fst in *; simpl snd in *.
  inversion Hpath; subst; clear Hpath; token_facts;
    try match goal with
        | H : Script.getAccessToken w ?key ?h' = (Throws _, ?tes) |- _ =>
            let X := fresh "X" in
            pose proof (getAccessToken_exchange w key h') as X;
            rewrite H in X; simpl in X
        end;
    unfold prologue, ev_start, ev_project, ev_deleting, ev_not_found,
      ev_deleted, ev_completed in Hin;
    find_event;
    try match goal with
        | X : token_exchange _ ?tes, H : In (EvFetch ?req _) ?tes,
          D : req_method ?req = DELETE |- _ =>
            destruct (token_events_post _ _ _ _ X H) as [? ->]; discriminate D
        end;
    try discriminate.
  all: exists key, token, tes; split; [assumption|]; split; [reflexivity|];
    intros treq tout Hin' Hpost;
    unfold prologue, ev_start, ev_project, ev_deleting, ev_not_found,
      ev_deleted, ev_completed in Hin';
    find_event; try assumption; try discriminate.
Qed.

End DeleteRequest.

(** X11: the DELETE request of a run is built from the identifiers as they
    were given (inserted in the URL without trimming or encoding) and from
    the token the token endpoint has just granted: its Authorization
    header is "Bearer " followed by the [access_token] of the token
    response.  The project id appears nowhere in it. *)
Theorem delete_request_carries_granted_token
    (w : World) (params : gmap string JSValue) (context : Context)
    (h : list Event) (treq dreq : Request) (tr : Response) (out : FetchOutcome)
    (fields : list (string * JSValue)) :
  In (EvFetch treq (Resolves tr)) (snd (Script.invoke w params context h)) ->
  req_method treq = POST ->
  JSON_parse w (body tr) = inl (JObj fields) ->
  In (EvFetch dreq out) (snd (Script.invoke w params context h)) ->
  req_method dreq = DELETE ->
  dreq = {| req_url :=
              "https://iam.googleapis.com/v1/locations/global/workforcePools/" +:+
              to_string (param params "workforce_pool_id") +:+ "/subjects/" +:+
              to_string (param params "subject_id");
            req_method := DELETE;
            req_headers :=
              [("Authorization",
                "Bearer " +:+ to_string (assoc "access_token" fields));
               ("Content-Type", "application/json")];
            req_body := [] |}.
Proof.
  intros Htin Hpost Hparse Hdin Hdel.
  destruct (delete_in_run w params context h dreq out Hdin Hdel)
    as (key & token & tes & Hget & -> & Htes).
  specialize (Htes treq (Resolves tr) Htin Hpost).
  assert (Hres : fst (Script.getAccessToken w key (h ++ prologue params))
                 = token_of_response w tr).
  { apply (getAccessToken_resolved w key _ treq tr). rewrite Hget. exact Htes. }
  rewrite Hget in Hres. simpl in Hres.
  unfold token_of_response in Hres. rewrite Hparse in Hres.
  destruct (body_failure w tr); [discriminate|].
  destruct (ok tr); [|discriminate]. injection Hres as ->. reflexivity.
Qed.

Lemma delete_request_carries_granted_token_witness :
  Script.delete_request (JStr "mock-access-token")
    (JStr "test-pool-123") (JStr "user123@example.com")
  = {| req_url :=
         "https://iam.googleapis.com/v1/locations/global/workforcePools/test-pool-123/subjects/user123@example.com";
       req_method := DELETE;
       req_headers := [("Authorization", "Bearer mock-access-token");
                       ("Content-Type", "application/json")];
       req_body := [] |}.
Proof.
  refine (delete_request_carries_granted_token
            (TestDouble.world true 200 200) TestDouble.params
            TestDouble.mockContext []
            (Script.token_request "{}.{}.signature")
            (Script.delete_request (JStr "mock-access-token")
               (JStr "test-pool-123") (JStr "user123@example.com"))
            {| status := 200; body := "token-body" |}
            (Resolves {| status := 200; body := "User not found" |})
            [("access_token", JStr "mock-access-token")] _ _ _ _ _).
  - vm_compute. do 3 right. left. reflexivity.
  - reflexivity.
  - reflexivity.
  - vm_compute. do 6 right. left. reflexivity.
  - reflexivity.
Defined.

(** ** The [error] handler on unusual input *)

(** X12: for any error object, the [retryable] the [error] handler reports
    is the truthiness of the error's [retryable] property: an error
    without that property is reported as not retryable, and a property
    that is not a boolean is reduced to one.  (The handler reaches its
    result once its log line is written, that is when the identifiers and
    the message can be converted to strings.) *)
Theorem error_handler_reports_truthiness
    (params : gmap string JSValue) (context : Context) (h : list Event)
    (fields : list (string * JSValue)) :
  params !! "error" = Some (JObj fields) ->
  stringifiable (param params "workforce_pool_id") = true ->
  stringifiable (param params "subject_id") = true ->
  stringifiable (assoc "message" fields) = true ->
  fst (Script.error params context h)
    = Returns (JObj [("status", JStr "failed");
                     ("retryable", JBool (truthy (assoc "retryable" fields)));
                     ("error", assoc "message" fields);
                     ("workforce_pool_id", param params "workforce_pool_id");
                     ("subject_id", param params "subject_id")]) /\
  (has_field "retryable" fields = false ->
     fst (Script.error params context h)
     = Returns (JObj [("status", JStr "failed");
                      ("retryable", JBool false);
                      ("error", assoc "message" fields);
                      ("workforce_pool_id", param params "workforce_pool_id");
                      ("subject_id", param params "subject_id")])).
Proof.
  intros Herr Sp Ss Sm.
  destruct (error_handler_run params context h fields Herr) as (E & _ & _).
  simpl in E. rewrite Sp, Ss, Sm in E. simpl in E.
  split; [exact E|].
  intros Habsent. rewrite E, (assoc_absent _ _ Habsent). reflexivity.
Qed.

Lemma error_handler_reports_truthiness_witness :
  fst (Script.error
         {[ "error" := JObj [("message", JStr "socket hang up")] ]}
         TestDouble.mockContext [])
  = Returns (JObj [("status", JStr "failed");
                   ("retryable", JBool false);
                   ("error", JStr "socket hang up");
                   ("workforce_pool_id", JUndefined);
                   ("subject_id", JUndefined)]).
Proof.
  refine (proj2 (error_handler_reports_truthiness
            {[ "error" := JObj [("message", JStr "socket hang up")] ]}
            TestDouble.mockContext []
            [("message", JStr "socket hang up")] _ _ _ _) _).
  - reflexivity.
  - reflexivity.
  - reflexivity.
  - reflexivity.
  - reflexivity.
Defined.

(** X13: called without an error object (no [error] in params, or
    [null]), the [error] handler itself throws: the error is neither a
    RetryableError nor a FatalError, so it has no [retryable] property,
    and nothing was written to the console. *)
Theorem error_handler_needs_error_object
    (params : gmap string JSValue) (context : Context) (h : list Event) :
  params !! "error" = None \/ params !! "error" = Some JNull ->
  exists e,
    Script.error params context h = (Throws e, []) /\
    retryable e = None.
Proof.
  intros Herr. unfold Script.error, get_prop. unfold_monad.
  assert (E : param params "error" = JUndefined \/ param params "error" = JNull)
    by (unfold param; destruct Herr as [-> | ->]; auto).
  destruct (forallb stringifiable
              [param params "workforce_pool_id"; param params "subject_id"]);
    simpl; [|eexists; split; reflexivity].
  destruct E as [-> | ->]; simpl; eexists; split; reflexivity.
Qed.

Lemma error_handler_needs_error_object_witness :
  exists e,
    Script.error TestDouble.params TestDouble.mockContext [] = (Throws e, []) /\
    retryable e = None.
Proof.
  apply error_handler_needs_error_object. left. reflexivity.
Defined.

(** * The variant built on [@sgnl-actions/utils] *)

Lemma invalid_id_spec (v : JSValue) :
  UtilsVariant.invalid_id v = false <-> nonempty_string v.
Proof.
  unfold UtilsVariant.invalid_id, nonempty_string. split.
  - destruct v; simpl; rewrite ?orb_true_r; try discriminate.
    destruct s as [|c s]; [discriminate|].
    intros _. eexists. split; [reflexivity | discriminate].
  - intros (s & -> & Hs). simpl.
    destruct s as [|c s]; [contradiction | reflexivity].
Qed.

Lemma invalid_id_spec_true (v : JSValue) :
  UtilsVariant.invalid_id v = true <-> ~ nonempty_string v.
Proof.
  rewrite <- invalid_id_spec.
  destruct (UtilsVariant.invalid_id v); split; congruence.
Qed.

Section UtilsRuns.
Variable w : World.
Variable getBaseURL : gmap string JSValue -> Context -> string + string.
Variable getAuthorizationHeader : Context -> M string.
Variable params : gmap string JSValue.
Variable context : Context.
Variable h : list Event.

Local Abbreviation pool := (param params "workforcePoolId").
Local Abbreviation subj := (param params "subjectId").
Local Abbreviation run :=
  (UtilsVariant.invoke w getBaseURL getAuthorizationHeader params context h).
Local Abbreviation target :=
  (UtilsVariant.subject_url (UtilsVariant.base_url getBaseURL params context)
     pool subj).

(** The run once the identifiers are accepted and the header obtained:
    one DELETE request, then the branch chosen by the answer. *)
Lemma utils_run_with_header (authHeader : string) (aes : list Event) :
  nonempty_string subj ->
  nonempty_string pool ->
  getAuthorizationHeader context (h ++ [UtilsVariant.ev_starting params])
    = (Returns authHeader, aes) ->
  let dreq := UtilsVariant.delete_request target authHeader in
  let out := fetch_oracle w (h ++ UtilsVariant.ev_starting params :: aes) dreq in
  requests (snd run) = requests aes ++ [dreq] /\
  In (EvFetch dreq out) (snd run) /\
  match out with
  | Rejects msg => fst run = Throws (OtherError msg None)
  | Resolves r =>
      if ok r then
        exists deletedAt,
          fst run = Returns (UtilsVariant.deleted_result subj pool deletedAt)
      else if status r =? 404 then
        exists deletedAt,
          fst run = Returns (UtilsVariant.already_deleted_result subj pool deletedAt)
      else
        fst run = Throws (OtherError ("Failed to delete workforce user: " +:+
                                      number_to_string (status r))
                            (Some (status r)))
  end.
Proof.
  intros Hs Hp Hauth dreq out.
  apply invalid_id_spec in Hs. apply invalid_id_spec in Hp.
  pose proof (valid_id_stringifiable _ Hs) as Ss.
  pose proof (valid_id_stringifiable _ Hp) as Sp.
  unfold UtilsVariant.invoke, UtilsVariant.deleteWorkforceUser, fetch, now_iso.
  unfold_monad. simpl. rewrite Ss, Sp, Hs, Hp. simpl.
  flatten_events. rewrite Hauth. simpl.
  flatten_events. fold dreq. fold out.
  destruct out as [r|msg]; simpl.
  - destruct (ok r); simpl.
    + rewrite !requests_app. simpl. split; [reflexivity|].
      split; [right; apply in_or_app; right; left; reflexivity|].
      eexists. reflexivity.
    + destruct (status r =? 404); simpl; rewrite !requests_app; simpl;
        (split; [reflexivity|]);
        (split; [right; apply in_or_app; right; left; reflexivity|]).
      * eexists. reflexivity.
      * reflexivity.
  - rewrite !requests_app. simpl. split; [reflexivity|].
    split; [right; apply in_or_app; right; left; reflexivity|]. reflexivity.
Qed.

End UtilsRuns.

(** X14: in the variant built on [@sgnl-actions/utils], [invoke] first
    writes both identifiers into its start line: an identifier that cannot
    be converted to a string makes it throw the TypeError of that
    conversion, with nothing logged.  It then checks [subjectId] first and
    [workforcePoolId] second; an identifier that is not a non-empty string
    makes it throw a plain error naming the parameter after the start line
    is logged and before the authorization helper is called or any request
    is sent. *)
Theorem utils_rejects_identifiers_before_any_call
    (w : World)
    (getBaseURL : gmap string JSValue -> Context -> string + string)
    (getAuthorizationHeader : Context -> M string)
    (params : gmap string JSValue) (context : Context) (h : list Event) :
  let subj := param params "subjectId" in
  let pool := param params "workforcePoolId" in
  (stringifiable subj = false \/ stringifiable pool = false ->
     UtilsVariant.invoke w getBaseURL getAuthorizationHeader params context h
     = (Throws (OtherError "Cannot convert object to primitive value" None), [])) /\
  (stringifiable subj = true -> stringifiable pool = true ->
   ~ nonempty_string subj ->
     UtilsVariant.invoke w getBaseURL getAuthorizationHeader params context h
     = (Throws (OtherError "Invalid or missing subjectId parameter" None),
        [UtilsVariant.ev_starting params])) /\
  (nonempty_string subj -> stringifiable pool = true ->
   ~ nonempty_string pool ->
     UtilsVariant.invoke w getBaseURL getAuthorizationHeader params context h
     = (Throws (OtherError "Invalid or missing workforcePoolId parameter" None),
        [UtilsVariant.ev_starting params])).
Proof.
  intros subj pool.
  unfold UtilsVariant.invoke. fold subj pool. unfold_monad. simpl.
  split; [|split].
  - intros [S | S]; rewrite S; rewrite ?andb_false_r; reflexivity.
  - intros Ss Sp Hs. apply invalid_id_spec_true in Hs.
    rewrite Ss, Sp, Hs. reflexivity.
  - intros Hs Sp Hp. apply invalid_id_spec in Hs.
    apply invalid_id_spec_true in Hp.
    rewrite (valid_id_stringifiable _ Hs), Sp, Hs, Hp. reflexivity.
Qed.

Lemma utils_mock_identifiers :
  nonempty_string (param TestDouble.utils_params "subjectId") /\
  nonempty_string (param TestDouble.utils_params "workforcePoolId").
Proof.
  split; eexists; (split; [reflexivity | discriminate]).
Defined.

Lemma utils_rejects_identifiers_before_any_call_witness :
  UtilsVariant.invoke (TestDouble.world true 200 200) TestDouble.getBaseURL
    TestDouble.getAuthorizationHeader
    {[ "subjectId" := JObj [("toString", JNull)];
       "workforcePoolId" := JStr "test-pool-123" ]} TestDouble.mockContext []
  = (Throws (OtherError "Cannot convert object to primitive value" None), []) /\
  UtilsVariant.invoke (TestDouble.world true 200 200) TestDouble.getBaseURL
    TestDouble.getAuthorizationHeader
    {[ "workforcePoolId" := JStr "test-pool-123" ]} TestDouble.mockContext []
  = (Throws (OtherError "Invalid or missing subjectId parameter" None),
     [UtilsVariant.ev_starting {[ "workforcePoolId" := JStr "test-pool-123" ]}]) /\
  UtilsVariant.invoke (TestDouble.world true 200 200) TestDouble.getBaseURL
    TestDouble.getAuthorizationHeader
    {[ "subjectId" := JStr "user123@example.com"; "workforcePoolId" := JStr "" ]}
    TestDouble.mockContext []
  = (Throws (OtherError "Invalid or missing workforcePoolId parameter" None),
     [UtilsVariant.ev_starting
        {[ "subjectId" := JStr "user123@example.com";
           "workforcePoolId" := JStr "" ]}]).
Proof.
  split; [|split].
  - apply (proj1 (utils_rejects_identifiers_before_any_call _ _ _ _ _ _)).
    left. reflexivity.
  - apply (proj1 (proj2 (utils_rejects_identifiers_before_any_call _ _ _ _ _ _))).
    + reflexivity.
    + reflexivity.
    + intros (s & Hs & _). discriminate Hs.
  - apply (proj2 (proj2 (utils_rejects_identifiers_before_any_call _ _ _ _ _ _))).
    + exists "user123@example.com". split; [reflexivity | discriminate].
    + reflexivity.
    + intros (s & Hs & Hne). vm_compute in Hs. injection Hs as <-.
      apply Hne. reflexivity.
Defined.

(** X15: in that variant, a delete response with a 2xx status makes
    [invoke] return [{subjectId, workforcePoolId, deleted: true,
    deletedAt}], without an [alreadyDeleted] field, whatever the body of
    the response is (empty, JSON or not). *)
Theorem utils_2xx_returns_deleted
    (w : World)
    (getBaseURL : gmap string JSValue -> Context -> string + string)
    (getAuthorizationHeader : Context -> M string)
    (params : gmap string JSValue) (context : Context) (h : list Event)
    (authHeader : string) (aes : list Event) (r : Response) :
  nonempty_string (param params "subjectId") ->
  nonempty_string (param params "workforcePoolId") ->
  getAuthorizationHeader context (h ++ [UtilsVariant.ev_starting params])
    = (Returns authHeader, aes) ->
  fetch_oracle w (h ++ UtilsVariant.ev_starting params :: aes)
    (UtilsVariant.delete_request
       (UtilsVariant.subject_url
          (UtilsVariant.base_url getBaseURL params context)
          (param params "workforcePoolId") (param params "subjectId"))
       authHeader) = Resolves r ->
  ok r = true ->
  exists deletedAt,
    fst (UtilsVariant.invoke w getBaseURL getAuthorizationHeader params context h)
    = Returns (JObj [("subjectId", param params "subjectId");
                     ("workforcePoolId", param params "workforcePoolId");
                     ("deleted", JBool true);
                     ("deletedAt", JStr deletedAt)]).
Proof.
  intros Hs Hp Hauth Hfetch Hok.
  destruct (utils_run_with_header w getBaseURL getAuthorizationHeader params
              context h authHeader aes Hs Hp Hauth) as (_ & _ & Hout).
  rewrite Hfetch, Hok in Hout. exact Hout.
Qed.

Lemma utils_2xx_returns_deleted_witness :
  exists deletedAt,
    fst (UtilsVariant.invoke (TestDouble.world true 200 200)
           TestDouble.getBaseURL TestDouble.getAuthorizationHeader
           TestDouble.utils_params TestDouble.mockContext [])
    = Returns (JObj [("subjectId", JStr "user123@example.com");
                     ("workforcePoolId", JStr "test-pool-123");
                     ("deleted", JBool true);
                     ("deletedAt", JStr deletedAt)]).
Proof.
  refine (utils_2xx_returns_deleted (TestDouble.world true 200 200)
            TestDouble.getBaseURL TestDouble.getAuthorizationHeader
            TestDouble.utils_params TestDouble.mockContext []
            "Bearer mock-token" []
            {| status := 200; body := "User not found" |} _ _ _ _ _).
  - apply utils_mock_identifiers.
  - apply utils_mock_identifiers.
  - reflexivity.
  - reflexivity.
  - reflexivity.
Defined.

(** X16: in that variant a failed delete is thrown unclassified.  A
    response that is neither 2xx nor 404 (429, 500 and 503 included) gives
    a plain error "Failed to delete workforce user: <status>" whose
    [statusCode] is the status; a transport failure is thrown as it came.
    Neither has a [retryable] property. *)
Theorem utils_failure_is_unclassified
    (w : World)
    (getBaseURL : gmap string JSValue -> Context -> string + string)
    (getAuthorizationHeader : Context -> M string)
    (params : gmap string JSValue) (context : Context) (h : list Event)
    (authHeader : string) (aes : list Event) :
  nonempty_string (param params "subjectId") ->
  nonempty_string (param params "workforcePoolId") ->
  getAuthorizationHeader context (h ++ [UtilsVariant.ev_starting params])
    = (Returns authHeader, aes) ->
  let out :=
    fetch_oracle w (h ++ UtilsVariant.ev_starting params :: aes)
      (UtilsVariant.delete_request
         (UtilsVariant.subject_url
            (UtilsVariant.base_url getBaseURL params context)
            (param params "workforcePoolId") (param params "subjectId"))
         authHeader) in
  (forall r, out = Resolves r -> ok r = false -> status r <> 404 ->
     exists e,
       fst (UtilsVariant.invoke w getBaseURL getAuthorizationHeader
              params context h) = Throws e /\
       e = OtherError ("Failed to delete workforce user: " +:+
                       number_to_string (status r)) (Some (status r)) /\
       retryable e = None) /\
  (forall msg, out = Rejects msg ->
     exists e,
       fst (UtilsVariant.invoke w getBaseURL getAuthorizationHeader
              params context h) = Throws e /\
       e = OtherError msg None /\
       retryable e = None).
Proof.
  intros Hs Hp Hauth out.
  destruct (utils_run_with_header w getBaseURL getAuthorizationHeader params
              context h authHeader aes Hs Hp Hauth) as (_ & _ & Hout).
  fold out in Hout. split.
  - intros r Hr Hok H404. rewrite Hr, Hok in Hout.
    apply Z.eqb_neq in H404. rewrite H404 in Hout.
    eexists. split; [exact Hout|]. split; reflexivity.
  - intros msg Hr. rewrite Hr in Hout.
    eexists. split; [exact Hout|]. split; reflexivity.
Qed.

Lemma utils_failure_is_unclassified_witness :
  (exists e,
     fst (UtilsVariant.invoke (TestDouble.world true 200 503)
            TestDouble.getBaseURL TestDouble.getAuthorizationHeader
            TestDouble.utils_params TestDouble.mockContext []) = Throws e /\
     e = OtherError "Failed to delete workforce user: 503" (Some 503) /\
     retryable e = None) /\
  (exists e,
     fst (UtilsVariant.invoke TestDouble.offline_world
            TestDouble.getBaseURL TestDouble.getAuthorizationHeader
            TestDouble.utils_params TestDouble.mockContext []) = Throws e /\
     e = OtherError "fetch failed" None /\
     retryable e = None).
Proof.
  split.
  - refine (proj1 (utils_failure_is_unclassified (TestDouble.world true 200 503)
              TestDouble.getBaseURL TestDouble.getAuthorizationHeader
              TestDouble.utils_params TestDouble.mockContext []
              "Bearer mock-token" [] _ _ _)
            {| status := 503; body := "User not found" |} _ _ _).
    + apply utils_mock_identifiers.
    + apply utils_mock_identifiers.
    + reflexivity.
    + reflexivity.
    + reflexivity.
    + simpl. lia.
  - refine (proj2 (utils_failure_is_unclassified TestDouble.offline_world
              TestDouble.getBaseURL TestDouble.getAuthorizationHeader
              TestDouble.utils_params TestDouble.mockContext []
              "Bearer mock-token" [] _ _ _) "fetch failed" _).
    + apply utils_mock_identifiers.
    + apply utils_mock_identifiers.
    + reflexivity.
    + reflexivity.
Defined.

(** X17: in that variant, once the identifiers are accepted and the
    authorization header obtained, [invoke] itself sends exactly one
    request: a DELETE to
    <base>/v1/locations/global/workforcePools/<pool>/subjects/<subject>
    whose only header is Authorization, set to the value the helper
    returned.  <base> is what [getBaseURL] returns, and
    https://iam.googleapis.com when [getBaseURL] throws. *)
Theorem utils_request_target
    (w : World)
    (getBaseURL : gmap string JSValue -> Context -> string + string)
    (getAuthorizationHeader : Context -> M string)
    (params : gmap string JSValue) (context : Context) (h : list Event)
    (authHeader : string) (aes : list Event) :
  nonempty_string (param params "subjectId") ->
  nonempty_string (param params "workforcePoolId") ->
  getAuthorizationHeader context (h ++ [UtilsVariant.ev_starting params])
    = (Returns authHeader, aes) ->
  let base := match getBaseURL params context with
              | inl url => url
              | inr _ => "https://iam.googleapis.com"
              end in
  let dreq :=
    {| req_url := base +:+ "/v1/locations/global/workforcePools/" +:+
                  to_string (param params "workforcePoolId") +:+ "/subjects/" +:+
                  to_string (param params "subjectId");
       req_method := DELETE;
       req_headers := [("Authorization", authHeader)];
       req_body := [] |} in
  requests (snd (UtilsVariant.invoke w getBaseURL getAuthorizationHeader
                   params context h))
  = requests aes ++ [dreq].
Proof.
  intros Hs Hp Hauth base dreq.
  destruct (utils_run_with_header w getBaseURL getAuthorizationHeader params
              context h authHeader aes Hs Hp Hauth) as (Hreq & _ & _).
  exact Hreq.
Qed.

Lemma utils_request_target_witness :
  requests (snd (UtilsVariant.invoke (TestDouble.world true 200 200)
                   TestDouble.getBaseURL TestDouble.getAuthorizationHeader
                   TestDouble.utils_params TestDouble.mockContext []))
  = [ {| req_url := "https://iam.googleapis.com/v1/locations/global/workforcePools/test-pool-123/subjects/user123@example.com";
         req_method := DELETE;
         req_headers := [("Authorization", "Bearer mock-token")];
         req_body := [] |} ] /\
  requests (snd (UtilsVariant.invoke (TestDouble.world true 200 200)
                   TestDouble.configuredBaseURL TestDouble.getAuthorizationHeader
                   TestDouble.utils_params TestDouble.mockContext []))
  = [ {| req_url := "https://iam.example.test/v1/locations/global/workforcePools/test-pool-123/subjects/user123@example.com";
         req_method := DELETE;
         req_headers := [("Authorization", "Bearer mock-token")];
         req_body := [] |} ].
Proof.
  split.
  - refine (utils_request_target (TestDouble.world true 200 200)
              TestDouble.getBaseURL TestDouble.getAuthorizationHeader
              TestDouble.utils_params TestDouble.mockContext []
              "Bearer mock-token" [] _ _ _).
    + apply utils_mock_identifiers.
    + apply utils_mock_identifiers.
    + reflexivity.
  - refine (utils_request_target (TestDouble.world true 200 200)
              TestDouble.configuredBaseURL TestDouble.getAuthorizationHeader
              TestDouble.utils_params TestDouble.mockContext []
              "Bearer mock-token" [] _ _ _).
    + apply utils_mock_identifiers.
    + apply utils_mock_identifiers.
    + reflexivity.
Defined.

(** X18: in that variant, when the authorization helper throws, [invoke]
    throws the same error unchanged and sends no request of its own: the
    run consists of the start line and of what the helper did. *)
Theorem utils_authorization_failure_propagates
    (w : World)
    (getBaseURL : gmap string JSValue -> Context -> string + string)
    (getAuthorizationHeader : Context -> M string)
    (params : gmap string JSValue) (context : Context) (h : list Event)
    (e : Exn) (aes : list Event) :
  nonempty_string (param params "subjectId") ->
  nonempty_string (param params "workforcePoolId") ->
  getAuthorizationHeader context (h ++ [UtilsVariant.ev_starting params])
    = (Throws e, aes) ->
  UtilsVariant.invoke w getBaseURL getAuthorizationHeader params context h
  = (Throws e, UtilsVariant.ev_starting params :: aes).
Proof.
  intros Hs Hp Hauth.
  apply invalid_id_spec in Hs. apply invalid_id_spec in Hp.
  unfold UtilsVariant.invoke. unfold_monad. simpl.
  rewrite (valid_id_stringifiable _ Hs), (valid_id_stringifiable _ Hp), Hs, Hp.
  simpl. flatten_events. rewrite Hauth. reflexivity.
Qed.

Lemma utils_authorization_failure_propagates_witness :
  UtilsVariant.invoke (TestDouble.world true 200 200) TestDouble.getBaseURL
    TestDouble.failingAuthorizationHeader TestDouble.utils_params
    TestDouble.mockContext []
  = (Throws (OtherError "No authentication configured" None),
     [UtilsVariant.ev_starting TestDouble.utils_params]).
Proof.
  refine (utils_authorization_failure_propagates (TestDouble.world true 200 200)
            TestDouble.getBaseURL TestDouble.failingAuthorizationHeader
            TestDouble.utils_params TestDouble.mockContext []
            (OtherError "No authentication configured" None) [] _ _ _).
  - apply utils_mock_identifiers.
  - apply utils_mock_identifiers.
  - reflexivity.
Defined.

(** X19: the [halt] handler of that variant sends no request.  For
    params whose reason and identifiers can be converted to strings it
    returns [{subjectId, workforcePoolId, reason, haltedAt,
    cleanupCompleted: true}] (there is no [status] field), an identifier
    that is absent or false being reported as "unknown"; for any other
    params it throws the TypeError of its log line. *)
Theorem utils_halt_acknowledges_printable_params
    (w : World) (params : gmap string JSValue) (context : Context)
    (h : list Event) :
  let reported field :=
    match params !! field with
    | None => JStr "unknown"
    | Some v => if truthy v then v else JStr "unknown"
    end in
  (stringifiable (param params "reason") = true ->
   stringifiable (param params "subjectId") = true ->
   stringifiable (param params "workforcePoolId") = true ->
   exists haltedAt,
     fst (UtilsVariant.halt w params context h)
       = Returns (JObj [("subjectId", reported "subjectId");
                        ("workforcePoolId", reported "workforcePoolId");
                        ("reason", param params "reason");
                        ("haltedAt", JStr haltedAt);
                        ("cleanupCompleted", JBool true)])) /\
  (stringifiable (param params "reason") = false \/
   stringifiable (param params "subjectId") = false \/
   stringifiable (param params "workforcePoolId") = false ->
   UtilsVariant.halt w params context h
   = (Throws (OtherError "Cannot convert object to primitive value" None), [])) /\
  requests (snd (UtilsVariant.halt w params context h)) = [].
Proof.
  intros reported.
  assert (Hrep : forall field,
            js_or (param params field) (JStr "unknown") = reported field).
  { intros field. unfold js_or, reported, param.
    destruct (params !! field); reflexivity. }
  unfold UtilsVariant.halt, now_iso. unfold_monad. simpl.
  split; [|split].
  - intros Sr Ss Sp. rewrite Sr, Ss, Sp. simpl.
    rewrite !Hrep. eexists. reflexivity.
  - intros [S | [S | S]]; rewrite S; rewrite ?andb_false_r; reflexivity.
  - destruct (stringifiable (param params "reason")),
             (stringifiable (param params "subjectId")),
             (stringifiable (param params "workforcePoolId")); reflexivity.
Qed.

Lemma utils_halt_acknowledges_printable_params_witness :
  (exists haltedAt,
     fst (UtilsVariant.halt (TestDouble.world true 200 200)
            {[ "reason" := JStr "timeout";
               "subjectId" := JStr "user123@example.com" ]}
            TestDouble.mockContext [])
     = Returns (JObj [("subjectId", JStr "user123@example.com");
                      ("workforcePoolId", JStr "unknown");
                      ("reason", JStr "timeout");
                      ("haltedAt", JStr haltedAt);
                      ("cleanupCompleted", JBool true)])) /\
  UtilsVariant.halt (TestDouble.world true 200 200)
    {[ "reason" := JObj [("toString", JNum 1)] ]} TestDouble.mockContext []
  = (Throws (OtherError "Cannot convert object to primitive value" None), []).
Proof.
  split.
  - refine (proj1 (utils_halt_acknowledges_printable_params
              (TestDouble.world true 200 200)
              {[ "reason" := JStr "timeout";
                 "subjectId" := JStr "user123@example.com" ]}
              TestDouble.mockContext []) _ _ _); reflexivity.
  - refine (proj1 (proj2 (utils_halt_acknowledges_printable_params
              (TestDouble.world true 200 200)
              {[ "reason" := JObj [("toString", JNum 1)] ]}
              TestDouble.mockContext [])) _).
    left. reflexivity.
Defined.

(** * The variant that leaves authentication to the caller *)

Section NoAuthRuns.
Variable w : World.
Variable params : gmap string JSValue.
Variable context : Context.
Variable h : list Event.

Local Abbreviation pool := (param params "workforcePoolId").
Local Abbreviation subj := (param params "subjectId").
Local Abbreviation run := (NoAuthVariant.invoke w params context h).

Lemma noauth_run :
  nonempty_string pool ->
  nonempty_string subj ->
  let dreq := NoAuthVariant.delete_request pool subj in
  let out := fetch_oracle w (h ++ [UtilsVariant.ev_starting params]) dreq in
  requests (snd run) = [dreq] /\
  In (EvFetch dreq out) (snd run) /\
  match out with
  | Rejects msg => fst run = Throws (OtherError msg None)
  | Resolves r =>
      if ok r then
        exists deletedAt,
          fst run = Returns (UtilsVariant.deleted_result subj pool deletedAt)
      else if status r =? 404 then
        exists deletedAt,
          fst run = Returns (UtilsVariant.already_deleted_result subj pool deletedAt)
      else
        fst run = Throws (OtherError ("Failed to delete workforce user: " +:+
                                      number_to_string (status r))
                            (Some (status r)))
  end.
Proof.
  intros Hp Hs dreq out.
  apply invalid_id_spec in Hs. apply invalid_id_spec in Hp.
  pose proof (valid_id_stringifiable _ Hs) as Ss.
  pose proof (valid_id_stringifiable _ Hp) as Sp.
  unfold NoAuthVariant.invoke, NoAuthVariant.deleteWorkforceUser, fetch, now_iso.
  unfold_monad. simpl. rewrite Ss, Sp, Hs, Hp. simpl.
  flatten_events. fold dreq. fold out.
  destruct out as [r|msg]; simpl.
  - destruct (ok r); simpl.
    + split; [reflexivity|]. split; [right; left; reflexivity|].
      eexists. reflexivity.
    + destruct (status r =? 404); simpl;
        (split; [reflexivity|]); (split; [right; left; reflexivity|]).
      * eexists. reflexivity.
      * reflexivity.
  - split; [reflexivity|]. split; [right; left; reflexivity|]. reflexivity.
Qed.

End NoAuthRuns.

(** X20: in the variant that leaves authentication to the caller,
    [invoke] sends exactly one request when both identifiers are non-empty
    strings, whatever the answer: a DELETE to
    https://iam.googleapis.com/v1/locations/global/workforcePools/<pool>/subjects/<subject>
    with no header at all (no Authorization).  When an identifier is
    rejected ([workforcePoolId] is checked first) it sends none; nor does
    it when an identifier cannot be converted to a string for the start
    line, in which case nothing is logged either. *)
Theorem noauth_sends_one_bare_delete
    (w : World) (params : gmap string JSValue) (context : Context)
    (h : list Event) :
  let pool := param params "workforcePoolId" in
  let subj := param params "subjectId" in
  (nonempty_string pool -> nonempty_string subj ->
     requests (snd (NoAuthVariant.invoke w params context h))
     = [ {| req_url :=
              "https://iam.googleapis.com/v1/locations/global/workforcePools/" +:+
              to_string (param params "workforcePoolId") +:+ "/subjects/" +:+
              to_string (param params "subjectId");
            req_method := DELETE;
            req_headers := [];
            req_body := [] |} ]) /\
  (stringifiable pool = true -> stringifiable subj = true ->
   ~ nonempty_string pool ->
     NoAuthVariant.invoke w params context h
     = (Throws (OtherError "Invalid or missing workforcePoolId parameter" None),
        [UtilsVariant.ev_starting params])) /\
  (nonempty_string pool -> stringifiable subj = true ->
   ~ nonempty_string subj ->
     NoAuthVariant.invoke w params context h
     = (Throws (OtherError "Invalid or missing subjectId parameter" None),
        [UtilsVariant.ev_starting params])) /\
  (stringifiable pool = false \/ stringifiable subj = false ->
     NoAuthVariant.invoke w params context h
     = (Throws (OtherError "Cannot convert object to primitive value" None), [])).
Proof.
  intros pool subj.
  split; [|split; [|split]].
  - intros Hp Hs.
    destruct (noauth_run w params context h Hp Hs) as (Hreq & _ & _).
    exact Hreq.
  - intros Sp Ss Hp. apply invalid_id_spec_true in Hp.
    unfold NoAuthVariant.invoke. fold pool subj. unfold_monad. simpl.
    rewrite Sp, Ss, Hp. reflexivity.
  - intros Hp Ss Hs. apply invalid_id_spec in Hp. apply invalid_id_spec_true in Hs.
    unfold NoAuthVariant.invoke. fold pool subj. unfold_monad. simpl.
    rewrite (valid_id_stringifiable _ Hp), Ss, Hp, Hs. reflexivity.
  - unfold NoAuthVariant.invoke. fold pool subj. unfold_monad. simpl.
    intros [S | S]; rewrite S; rewrite ?andb_false_r; reflexivity.
Qed.

Lemma noauth_sends_one_bare_delete_witness :
  requests (snd (NoAuthVariant.invoke (TestDouble.world true 200 500)
                   TestDouble.utils_params TestDouble.mockContext []))
  = [ {| req_url := "https://iam.googleapis.com/v1/locations/global/workforcePools/test-pool-123/subjects/user123@example.com";
         req_method := DELETE;
         req_headers := [];
         req_body := [] |} ] /\
  NoAuthVariant.invoke (TestDouble.world true 200 200)
    {[ "subjectId" := JStr "user123@example.com" ]} TestDouble.mockContext []
  = (Throws (OtherError "Invalid or missing workforcePoolId parameter" None),
     [UtilsVariant.ev_starting {[ "subjectId" := JStr "user123@example.com" ]}]) /\
  NoAuthVariant.invoke (TestDouble.world true 200 200)
    {[ "workforcePoolId" := JStr "test-pool-123" ]} TestDouble.mockContext []
  = (Throws (OtherError "Invalid or missing subjectId parameter" None),
     [UtilsVariant.ev_starting {[ "workforcePoolId" := JStr "test-pool-123" ]}]) /\
  NoAuthVariant.invoke (TestDouble.world true 200 200)
    {[ "workforcePoolId" := JObj [("toString", JNull)] ]} TestDouble.mockContext []
  = (Throws (OtherError "Cannot convert object to primitive value" None), []).
Proof.
  split; [|split; [|split]].
  - apply (proj1 (noauth_sends_one_bare_delete (TestDouble.world true 200 500)
                    TestDouble.utils_params TestDouble.mockContext []));
      apply utils_mock_identifiers.
  - apply (proj1 (proj2 (noauth_sends_one_bare_delete _ _ _ _))).
    + reflexivity.
    + reflexivity.
    + intros (s & Hs & _). discriminate Hs.
  - apply (proj1 (proj2 (proj2 (noauth_sends_one_bare_delete _ _ _ _)))).
    + exists "test-pool-123". split; [reflexivity | discriminate].
    + reflexivity.
    + intros (s & Hs & _). discriminate Hs.
  - apply (proj2 (proj2 (proj2 (noauth_sends_one_bare_delete _ _ _ _)))).
    left. reflexivity.
Defined.

(** X21: in that variant the outcome follows the status of the answer:
    2xx gives [{subjectId, workforcePoolId, deleted: true, deletedAt}],
    404 gives the same with [alreadyDeleted: true], and any other status
    (429 and 5xx included) gives a plain error "Failed to delete workforce
    user: <status>" carrying the status as [statusCode], with no
    [retryable] property. *)
Theorem noauth_outcome_by_status
    (w : World) (params : gmap string JSValue) (context : Context)
    (h : list Event) (r : Response) :
  nonempty_string (param params "workforcePoolId") ->
  nonempty_string (param params "subjectId") ->
  fetch_oracle w (h ++ [UtilsVariant.ev_starting params])
    (NoAuthVariant.delete_request (param params "workforcePoolId")
       (param params "subjectId")) = Resolves r ->
  (ok r = true ->
     exists deletedAt,
       fst (NoAuthVariant.invoke w params context h)
       = Returns (JObj [("subjectId", param params "subjectId");
                        ("workforcePoolId", param params "workforcePoolId");
                        ("deleted", JBool true);
                        ("deletedAt", JStr deletedAt)])) /\
  (status r = 404 ->
     exists deletedAt,
       fst (NoAuthVariant.invoke w params context h)
       = Returns (JObj [("subjectId", param params "subjectId");
                        ("workforcePoolId", param params "workforcePoolId");
                        ("deleted", JBool true);
                        ("alreadyDeleted", JBool true);
                        ("deletedAt", JStr deletedAt)])) /\
  (ok r = false -> status r <> 404 ->
     exists e,
       fst (NoAuthVariant.invoke w params context h) = Throws e /\
       e = OtherError ("Failed to delete workforce user: " +:+
                       number_to_string (status r)) (Some (status r)) /\
       retryable e = None).
Proof.
  intros Hp Hs Hfetch.
  destruct (noauth_run w params context h Hp Hs) as (_ & _ & Hout).
  rewrite Hfetch in Hout. split; [|split].
  - intros Hok. rewrite Hok in Hout. exact Hout.
  - intros H404.
    assert (Hok : ok r = false) by (unfold ok; rewrite H404; reflexivity).
    rewrite Hok, H404 in Hout. exact Hout.
  - intros Hok H404. apply Z.eqb_neq in H404. rewrite Hok, H404 in Hout.
    eexists. split; [exact Hout|]. split; reflexivity.
Qed.

Lemma noauth_outcome_by_status_witness :
  (exists deletedAt,
     fst (NoAuthVariant.invoke (TestDouble.world true 200 204)
            TestDouble.utils_params TestDouble.mockContext [])
     = Returns (JObj [("subjectId", JStr "user123@example.com");
                      ("workforcePoolId", JStr "test-pool-123");
                      ("deleted", JBool true);
                      ("deletedAt", JStr deletedAt)])) /\
  (exists deletedAt,
     fst (NoAuthVariant.invoke (TestDouble.world true 200 404)
            TestDouble.utils_params TestDouble.mockContext [])
     = Returns (JObj [("subjectId", JStr "user123@example.com");
                      ("workforcePoolId", JStr "test-pool-123");
                      ("deleted", JBool true);
                      ("alreadyDeleted", JBool true);
                      ("deletedAt", JStr deletedAt)])) /\
  (exists e,
     fst (NoAuthVariant.invoke (TestDouble.world true 200 429)
            TestDouble.utils_params TestDouble.mockContext []) = Throws e /\
     e = OtherError "Failed to delete workforce user: 429" (Some 429) /\
     retryable e = None).
Proof.
  split; [|split].
  - refine (proj1 (noauth_outcome_by_status (TestDouble.world true 200 204)
              TestDouble.utils_params TestDouble.mockContext []
              {| status := 204; body := "User not found" |} _ _ _) _);
      try apply utils_mock_identifiers; reflexivity.
  - refine (proj1 (proj2 (noauth_outcome_by_status (TestDouble.world true 200 404)
              TestDouble.utils_params TestDouble.mockContext []
              {| status := 404; body := "User not found" |} _ _ _)) _);
      try apply utils_mock_identifiers; reflexivity.
  - refine (proj2 (proj2 (noauth_outcome_by_status (TestDouble.world true 200 429)
              TestDouble.utils_params TestDouble.mockContext []
              {| status := 429; body := "User not found" |} _ _ _)) _ _);
      try apply utils_mock_identifiers; try reflexivity.
    simpl. lia.
Defined.

(** * The variant built on [google-auth-library] *)

Lemma jwt_invalid_id_spec (v : JSValue) :
  JwtVariant.invalid_id v = false <-> nonempty_string v.
Proof. exact (invalid_id_spec v). Qed.

Lemma jwt_invalid_id_spec_true (v : JSValue) :
  JwtVariant.invalid_id v = true <-> ~ nonempty_string v.
Proof. exact (invalid_id_spec_true v). Qed.

Ltac jwt_accept Hp Hs Hsec Hkey :=
  apply jwt_invalid_id_spec in Hp; apply jwt_invalid_id_spec in Hs;
  unfold JwtVariant.invoke, JwtVariant.deleteWorkforceUser;
  cbn [forallb];
  rewrite (valid_id_stringifiable _ Hp), (valid_id_stringifiable _ Hs);
  cbn [andb negb];
  rewrite Hp, Hs, Hsec;
  match goal with
  | |- context [match ?k with EmptyString => _ | String _ _ => _ end] =>
      destruct k; [contradiction Hkey; reflexivity|]
  end.

(** X22: in the variant built on [google-auth-library], [invoke] fails
    before the client is asked anything when an identifier cannot be
    converted to a string for the start line (a TypeError, nothing is
    logged), then when [workforcePoolId] is not a non-empty string, then
    when [subjectId] is not, then when the secret
    GOOGLE_SERVICE_ACCOUNT_KEY is absent or empty, and then when the secret
    is not JSON (the parser's error leaves [invoke] as it is).  In these
    last four cases only the start line has been logged.  The error never
    has a [statusCode]. *)
Theorem jwt_fails_before_the_request
    (w : World)
    (authClient_request :
       JSValue -> JSValue -> list Event -> Request -> JSValue + JSValue)
    (inspect : JSValue -> string)
    (params : gmap string JSValue) (context : Context) (h : list Event) :
  let run := JwtVariant.invoke w authClient_request inspect params context h in
  let pool := param params "workforcePoolId" in
  let subj := param params "subjectId" in
  (stringifiable subj = false \/ stringifiable pool = false ->
     run = (JwtVariant.JwtThrows "Cannot convert object to primitive value", [])) /\
  (stringifiable subj = true -> stringifiable pool = true ->
   ~ nonempty_string pool ->
     run = (JwtVariant.JwtThrows "Invalid or missing workforcePoolId parameter",
            [JwtVariant.ev_starting params])) /\
  (nonempty_string pool -> stringifiable subj = true -> ~ nonempty_string subj ->
     run = (JwtVariant.JwtThrows "Invalid or missing subjectId parameter",
            [JwtVariant.ev_starting params])) /\
  (nonempty_string pool -> nonempty_string subj ->
   secret context "GOOGLE_SERVICE_ACCOUNT_KEY" = None \/
   secret context "GOOGLE_SERVICE_ACCOUNT_KEY" = Some "" ->
     run = (JwtVariant.JwtThrows
              "Missing required secret: GOOGLE_SERVICE_ACCOUNT_KEY",
            [JwtVariant.ev_starting params])) /\
  (forall key msg,
     nonempty_string pool -> nonempty_string subj ->
     secret context "GOOGLE_SERVICE_ACCOUNT_KEY" = Some key -> key <> "" ->
     JSON_parse w key = inr msg ->
     run = (JwtVariant.JwtThrows msg, [JwtVariant.ev_starting params])).
Proof.
  intros run pool subj. subst run.
  split; [|split; [|split; [|split]]].
  - unfold JwtVariant.invoke. fold pool subj. cbn [forallb].
    intros [S | S]; rewrite S; rewrite ?andb_false_r; reflexivity.
  - intros Ss Sp Hp. apply jwt_invalid_id_spec_true in Hp.
    unfold JwtVariant.invoke. fold pool subj. cbn [forallb].
    rewrite Ss, Sp. cbn [andb negb]. fold pool in Hp. rewrite Hp. reflexivity.
  - intros Hp Ss Hs. apply jwt_invalid_id_spec in Hp.
    apply jwt_invalid_id_spec_true in Hs.
    unfold JwtVariant.invoke. fold pool subj. cbn [forallb].
    rewrite (valid_id_stringifiable _ Hp), Ss. cbn [andb negb].
    fold pool in Hp. fold subj in Hs. rewrite Hp, Hs. reflexivity.
  - intros Hp Hs Hsec. apply jwt_invalid_id_spec in Hp.
    apply jwt_invalid_id_spec in Hs.
    unfold JwtVariant.invoke. fold pool subj. cbn [forallb].
    rewrite (valid_id_stringifiable _ Hp), (valid_id_stringifiable _ Hs).
    cbn [andb negb]. fold pool in Hp. fold subj in Hs. rewrite Hp, Hs.
    destruct Hsec as [-> | ->]; reflexivity.
  - intros key msg Hp Hs Hsec Hkey Hparse. subst pool subj.
    jwt_accept Hp Hs Hsec Hkey.
    rewrite Hparse. reflexivity.
Qed.

Lemma jwt_fails_before_the_request_witness :
  JwtVariant.invoke (TestDouble.world true 200 200)
    (TestDouble.answering_client (JObj [("status", JNum 200)])) TestDouble.inspect
    {[ "subjectId" := JStr "user123@example.com";
       "workforcePoolId" := JObj [("toString", JNull)] ]} TestDouble.jwt_context []
  = (JwtVariant.JwtThrows "Cannot convert object to primitive value", []) /\
  JwtVariant.invoke (TestDouble.world true 200 200)
    (TestDouble.answering_client (JObj [("status", JNum 200)])) TestDouble.inspect
    {[ "subjectId" := JStr "user123@example.com" ]} TestDouble.jwt_context []
  = (JwtVariant.JwtThrows "Invalid or missing workforcePoolId parameter",
     [JwtVariant.ev_starting {[ "subjectId" := JStr "user123@example.com" ]}]) /\
  JwtVariant.invoke (TestDouble.world true 200 200)
    (TestDouble.answering_client (JObj [("status", JNum 200)])) TestDouble.inspect
    {[ "workforcePoolId" := JStr "test-pool-123" ]} TestDouble.jwt_context []
  = (JwtVariant.JwtThrows "Invalid or missing subjectId parameter",
     [JwtVariant.ev_starting {[ "workforcePoolId" := JStr "test-pool-123" ]}]) /\
  JwtVariant.invoke (TestDouble.world true 200 200)
    (TestDouble.answering_client (JObj [("status", JNum 200)])) TestDouble.inspect
    TestDouble.utils_params TestDouble.mockContext []
  = (JwtVariant.JwtThrows "Missing required secret: GOOGLE_SERVICE_ACCOUNT_KEY",
     [JwtVariant.ev_starting TestDouble.utils_params]) /\
  JwtVariant.invoke TestDouble.garbled_key_world
    (TestDouble.answering_client (JObj [("status", JNum 200)])) TestDouble.inspect
    TestDouble.utils_params TestDouble.jwt_context []
  = (JwtVariant.JwtThrows "Unexpected token",
     [JwtVariant.ev_starting TestDouble.utils_params]).
Proof.
  split; [|split; [|split; [|split]]].
  - apply (proj1 (jwt_fails_before_the_request _ _ _ _ _ _)).
    right. reflexivity.
  - apply (proj1 (proj2 (jwt_fails_before_the_request _ _ _ _ _ _))).
    + reflexivity.
    + reflexivity.
    + intros (s & Hs & _). discriminate Hs.
  - apply (proj1 (proj2 (proj2 (jwt_fails_before_the_request _ _ _ _ _ _)))).
    + exists "test-pool-123". split; [reflexivity | discriminate].
    + reflexivity.
    + intros (s & Hs & _). discriminate Hs.
  - apply (proj1 (proj2 (proj2 (proj2 (jwt_fails_before_the_request _ _ _ _ _ _))))).
    + apply utils_mock_identifiers.
    + apply utils_mock_identifiers.
    + left. reflexivity.
  - apply (proj2 (proj2 (proj2 (proj2 (jwt_fails_before_the_request _ _ _ _ _ _))))
             "key-json" "Unexpected token").
    + apply utils_mock_identifiers.
    + apply utils_mock_identifiers.
    + reflexivity.
    + discriminate.
    + reflexivity.
Defined.

(** X23: in that variant every answer the client resolves with counts as
    a successful deletion: [invoke] returns [{subjectId, workforcePoolId,
    deleted: true, deletedAt}] without looking at the status of the
    response. *)
Theorem jwt_resolved_request_is_success
    (w : World)
    (authClient_request :
       JSValue -> JSValue -> list Event -> Request -> JSValue + JSValue)
    (inspect : JSValue -> string)
    (params : gmap string JSValue) (context : Context) (h : list Event)
    (key : string) (kfields rfields : list (string * JSValue)) :
  nonempty_string (param params "workforcePoolId") ->
  nonempty_string (param params "subjectId") ->
  secret context "GOOGLE_SERVICE_ACCOUNT_KEY" = Some key -> key <> "" ->
  JSON_parse w key = inl (JObj kfields) ->
  authClient_request (assoc "client_email" kfields) (assoc "private_key" kfields)
    (h ++ [JwtVariant.ev_starting params])
    (JwtVariant.delete_request (param params "workforcePoolId")
       (param params "subjectId")) = inl (JObj rfields) ->
  exists deletedAt,
    fst (JwtVariant.invoke w authClient_request inspect params context h)
    = JwtVariant.JwtReturns
        (JObj [("subjectId", param params "subjectId");
               ("workforcePoolId", param params "workforcePoolId");
               ("deleted", JBool true);
               ("deletedAt", JStr deletedAt)]).
Proof.
  intros Hp Hs Hsec Hkey Hparse Hreq.
  jwt_accept Hp Hs Hsec Hkey.
  rewrite Hparse. simpl. rewrite Hreq. simpl. eexists. reflexivity.
Qed.

Lemma jwt_resolved_request_is_success_witness :
  exists deletedAt,
    fst (JwtVariant.invoke (TestDouble.world true 200 200)
           (TestDouble.answering_client (JObj [("status", JNum 500)]))
           TestDouble.inspect TestDouble.utils_params TestDouble.jwt_context [])
    = JwtVariant.JwtReturns
        (JObj [("subjectId", JStr "user123@example.com");
               ("workforcePoolId", JStr "test-pool-123");
               ("deleted", JBool true);
               ("deletedAt", JStr deletedAt)]).
Proof.
  refine (jwt_resolved_request_is_success (TestDouble.world true 200 200)
            (TestDouble.answering_client (JObj [("status", JNum 500)]))
            TestDouble.inspect TestDouble.utils_params TestDouble.jwt_context []
            "key-json"
            [("client_email", JStr "test@example-project.iam.gserviceaccount.com");
             ("private_key", JStr "MOCK_KEY");
             ("project_id", JStr "test-project-123")]
            [("status", JNum 500)] _ _ _ _ _ _).
  - apply utils_mock_identifiers.
  - apply utils_mock_identifiers.
  - reflexivity.
  - discriminate.
  - reflexivity.
  - reflexivity.
Defined.

(** X24: in that variant, when the client rejects with an error whose
    response has status 404, [invoke] returns [{subjectId,
    workforcePoolId, deleted: true, alreadyDeleted: true, deletedAt}]
    instead of throwing. *)
Theorem jwt_rejected_404_is_already_deleted
    (w : World)
    (authClient_request :
       JSValue -> JSValue -> list Event -> Request -> JSValue + JSValue)
    (inspect : JSValue -> string)
    (params : gmap string JSValue) (context : Context) (h : list Event)
    (key : string) (kfields efields rfields : list (string * JSValue)) :
  nonempty_string (param params "workforcePoolId") ->
  nonempty_string (param params "subjectId") ->
  secret context "GOOGLE_SERVICE_ACCOUNT_KEY" = Some key -> key <> "" ->
  JSON_parse w key = inl (JObj kfields) ->
  authClient_request (assoc "client_email" kfields) (assoc "private_key" kfields)
    (h ++ [JwtVariant.ev_starting params])
    (JwtVariant.delete_request (param params "workforcePoolId")
       (param params "subjectId")) = inr (JObj efields) ->
  assoc "response" efields = JObj rfields ->
  assoc "status" rfields = JNum 404 ->
  exists deletedAt,
    fst (JwtVariant.invoke w authClient_request inspect params context h)
    = JwtVariant.JwtReturns
        (JObj [("subjectId", param params "subjectId");
               ("workforcePoolId", param params "workforcePoolId");
               ("deleted", JBool true);
               ("alreadyDeleted", JBool true);
               ("deletedAt", JStr deletedAt)]).
Proof.
  intros Hp Hs Hsec Hkey Hparse Hreq Hresp Hstatus.
  jwt_accept Hp Hs Hsec Hkey.
  rewrite Hparse. simpl. rewrite Hreq. simpl.
  rewrite Hresp. simpl. rewrite Hstatus. simpl. eexists. reflexivity.
Qed.

Lemma jwt_rejected_404_is_already_deleted_witness :
  exists deletedAt,
    fst (JwtVariant.invoke (TestDouble.world true 200 200)
           (TestDouble.refusing_client
              (JObj [("response", JObj [("status", JNum 404)]);
                     ("message", JStr "Request failed with status code 404")]))
           TestDouble.inspect TestDouble.utils_params TestDouble.jwt_context [])
    = JwtVariant.JwtReturns
        (JObj [("subjectId", JStr "user123@example.com");
               ("workforcePoolId", JStr "test-pool-123");
               ("deleted", JBool true);
               ("alreadyDeleted", JBool true);
               ("deletedAt", JStr deletedAt)]).
Proof.
  refine (jwt_rejected_404_is_already_deleted (TestDouble.world true 200 200)
            (TestDouble.refusing_client
               (JObj [("response", JObj [("status", JNum 404)]);
                      ("message", JStr "Request failed with status code 404")]))
            TestDouble.inspect TestDouble.utils_params TestDouble.jwt_context []
            "key-json"
            [("client_email", JStr "test@example-project.iam.gserviceaccount.com");
             ("private_key", JStr "MOCK_KEY");
             ("project_id", JStr "test-project-123")]
            [("response", JObj [("status", JNum 404)]);
             ("message", JStr "Request failed with status code 404")]
            [("status", JNum 404)] _ _ _ _ _ _ _ _).
  - apply utils_mock_identifiers.
  - apply utils_mock_identifiers.
  - reflexivity.
  - discriminate.
  - reflexivity.
  - reflexivity.
  - reflexivity.
  - reflexivity.
Defined.

(** X25: in that variant, a rejected request that is not a 404 makes
    [invoke] throw "Failed to delete workforce user: ..." with a
    [statusCode].  When the error has a response whose data holds
    [error.message], the text is that API message and the [statusCode] is
    the status of the response.  When the error has no response (a network
    failure), the text is the error's own message and the [statusCode] is
    the error's [code]. *)
Theorem jwt_failure_message
    (w : World)
    (authClient_request :
       JSValue -> JSValue -> list Event -> Request -> JSValue + JSValue)
    (inspect : JSValue -> string)
    (params : gmap string JSValue) (context : Context) (h : list Event)
    (key : string) (kfields efields : list (string * JSValue)) :
  nonempty_string (param params "workforcePoolId") ->
  nonempty_string (param params "subjectId") ->
  secret context "GOOGLE_SERVICE_ACCOUNT_KEY" = Some key -> key <> "" ->
  JSON_parse w key = inl (JObj kfields) ->
  authClient_request (assoc "client_email" kfields) (assoc "private_key" kfields)
    (h ++ [JwtVariant.ev_starting params])
    (JwtVariant.delete_request (param params "workforcePoolId")
       (param params "subjectId")) = inr (JObj efields) ->
  (forall rfields dfields xfields st m,
     assoc "response" efields = JObj rfields ->
     assoc "status" rfields = JNum st -> st <> 0 -> st <> 404 ->
     assoc "data" rfields = JObj dfields ->
     assoc "error" dfields = JObj xfields ->
     assoc "message" xfields = JStr m -> m <> "" ->
     fst (JwtVariant.invoke w authClient_request inspect params context h)
     = JwtVariant.JwtFailure ("Failed to delete workforce user: " +:+ m)
         (JNum st)) /\
  (forall code m,
     has_field "response" efields = false ->
     assoc "code" efields = JStr code ->
     assoc "message" efields = JStr m ->
     fst (JwtVariant.invoke w authClient_request inspect params context h)
     = JwtVariant.JwtFailure ("Failed to delete workforce user: " +:+ m)
         (JStr code)).
Proof.
  intros Hp Hs Hsec Hkey Hparse Hreq.
  jwt_accept Hp Hs Hsec Hkey.
  rewrite Hparse. simpl. rewrite Hreq. simpl. split.
  - intros rfields dfields xfields st m Hresp Hstatus Hst H404 Hdata Herr Hmsg Hm.
    rewrite Hresp. simpl. rewrite Hstatus, Hdata. unfold js_or. simpl.
    apply Z.eqb_neq in Hst. rewrite Hst. simpl.
    apply Z.eqb_neq in H404. rewrite H404. simpl.
    unfold JwtVariant.error_message. simpl. rewrite Herr. simpl.
    rewrite Hmsg. simpl.
    assert (Hne : String.eqb m "" = false) by (apply String.eqb_neq; exact Hm).
    rewrite Hne. reflexivity.
  - intros code m Habsent Hcode Hmsg.
    rewrite (assoc_absent _ _ Habsent). simpl. rewrite Hcode, Hmsg.
    reflexivity.
Qed.

Lemma jwt_failure_message_witness :
  fst (JwtVariant.invoke (TestDouble.world true 200 200)
         (TestDouble.refusing_client
            (JObj [("response",
                    JObj [("status", JNum 403);
                          ("data", JObj [("error",
                                          JObj [("message",
                                                 JStr "Permission denied")])])]);
                   ("message", JStr "Request failed with status code 403")]))
         TestDouble.inspect TestDouble.utils_params TestDouble.jwt_context [])
  = JwtVariant.JwtFailure "Failed to delete workforce user: Permission denied"
      (JNum 403) /\
  fst (JwtVariant.invoke (TestDouble.world true 200 200)
         (TestDouble.refusing_client
            (JObj [("code", JStr "ECONNRESET");
                   ("message", JStr "socket hang up")]))
         TestDouble.inspect TestDouble.utils_params TestDouble.jwt_context [])
  = JwtVariant.JwtFailure "Failed to delete workforce user: socket hang up"
      (JStr "ECONNRESET").
Proof.
  split.
  - refine (proj1 (jwt_failure_message (TestDouble.world true 200 200)
              (TestDouble.refusing_client
                 (JObj [("response",
                         JObj [("status", JNum 403);
                               ("data", JObj [("error",
                                               JObj [("message",
                                                      JStr "Permission denied")])])]);
                        ("message", JStr "Request failed with status code 403")]))
              TestDouble.inspect TestDouble.utils_params TestDouble.jwt_context []
              "key-json"
              [("client_email", JStr "test@example-project.iam.gserviceaccount.com");
               ("private_key", JStr "MOCK_KEY");
               ("project_id", JStr "test-project-123")]
              [("response",
                JObj [("status", JNum 403);
                      ("data", JObj [("error",
                                      JObj [("message",
                                             JStr "Permission denied")])])]);
               ("message", JStr "Request failed with status code 403")]
              _ _ _ _ _ _)
            [("status", JNum 403);
             ("data", JObj [("error", JObj [("message", JStr "Permission denied")])])]
            [("error", JObj [("message", JStr "Permission denied")])]
            [("message", JStr "Permission denied")]
            403 "Permission denied" _ _ _ _ _ _ _ _);
      try apply utils_mock_identifiers; try reflexivity; try discriminate.
  - refine (proj2 (jwt_failure_message (TestDouble.world true 200 200)
              (TestDouble.refusing_client
                 (JObj [("code", JStr "ECONNRESET");
                        ("message", JStr "socket hang up")]))
              TestDouble.inspect TestDouble.utils_params TestDouble.jwt_context []
              "key-json"
              [("client_email", JStr "test@example-project.iam.gserviceaccount.com");
               ("private_key", JStr "MOCK_KEY");
               ("project_id", JStr "test-project-123")]
              [("code", JStr "ECONNRESET"); ("message", JStr "socket hang up")]
              _ _ _ _ _ _)
            "ECONNRESET" "socket hang up" _ _ _);
      try apply utils_mock_identifiers; try reflexivity; try discriminate.
Defined.
